(** * Pintos virtual memory: supplemental page table, frame table, eviction

    A shallow embedding of [vm/page.c], [vm/frame.c] and the pointer
    validation of [userprog/syscall.c].  Kernel objects reached through
    pointers (supplemental page table entries, frame table nodes) live in
    an explicit store so that the sharing between a thread's hash table
    and the global frame list is the sharing of the C code.  Every
    function is a computation in a state monad whose results also cover a
    kernel panic, a bad pointer dereference and the termination of the
    calling process. *)

From stdpp Require Import base gmap list.
From Stdlib Require Import ZArith Lia.
From Stdlib.Strings Require Import Byte.

Open Scope Z_scope.

(** ** Constants of the kernel headers *)

(** Modelled from the spec: [threads/palloc.h], [userprog/process.h] and
    [userprog/syscall.h] are not among the sources, so the flag bits
    [USER] and [ZERO] of the frame pool (section 6), [MAX_STACK_SIZE] and
    [STACK_HEURISTIC] (sections 4.1 and 4.3) and the size of the file
    descriptor table are parameters of the development. *)
Record kconsts := KConsts {
  PAL_USER : Z;
  PAL_ZERO : Z;
  MAX_STACK_SIZE : Z;
  STACK_HEURISTIC : Z;
  MAX_FILES : Z
}.

(** Modelled from the spec: [threads/vaddr.h] is not among the sources;
    the page size and the user-address ceiling are the ones of the
    scenarios of section 8 (a three page image is 12288 bytes, the stack
    starts right below 0xC0000000). *)
Definition PGSIZE : Z := 4096.
Definition PHYS_BASE : Z := 0xC0000000.

(** Modelled from the spec: [lib/kernel/bitmap.h] is not among the
    sources; [ERROR] of section 6 is the largest [size_t]. *)
Definition BITMAP_ERROR : Z := 2 ^ 32 - 1.

(** Modelled from the spec: [lib/stdio.h] is not among the sources; the
    descriptor of the console input. *)
Definition STDIN_FILENO : Z := 0.

(** Arithmetic of the 32-bit machine. *)
Definition wrap32 (z : Z) : Z := z mod 2 ^ 32.
Definition to_int (z : Z) : Z :=
  let u := wrap32 z in if u <? 2 ^ 31 then u else u - 2 ^ 32.

(** Modelled from the spec: [pg_round_down] of [threads/vaddr.h] is not
    among the sources; the page boundary at or below an address
    (section 4.1, lookup). *)
Definition pg_round_down (va : Z) : Z := Z.land va 0xFFFFF000.

(** Modelled from the spec: [is_user_vaddr] of [threads/vaddr.h] is not
    among the sources; an address below the user-address ceiling. *)
Definition is_user_vaddr (va : Z) : bool := va <? PHYS_BASE.

(** ** Data model *)

Inductive spte_type := CODE | FILE | MMAP.

#[global] Instance spte_type_eq_dec : EqDecision spte_type.
Proof. solve_decision. Defined.

(** [struct spt_entry].  Pointers that may be NULL are options; [file]
    is only ever compared and handed to the file system. *)
Record spt_entry := SptEntry {
  type : spte_type;
  upage : Z;
  frame : option Z;
  pinned : bool;
  is_in_swap : bool;
  idx : Z;
  file : Z;
  ofs : Z;
  writable : bool;
  page_read_bytes : Z;
  page_zero_bytes : Z
}.

(** [struct frame_table_entry]: the frame, the owning entry and the
    owning thread. *)
Record frame_table_entry := Fte {
  fte_frame : Z;
  fte_spte : Z;
  fte_t : Z
}.

(** A node of the frame list: its address and its contents. *)
Definition fte_node : Type := Z * frame_table_entry.

(** Modelled from the spec: [userprog/pagedir.c] is not among the
    sources.  A page directory maps a user page to its frame and keeps
    the writable, accessed and dirty bits of the mapping (section 6). *)
Record pte := Pte {
  pte_kpage : Z;
  pte_writable : bool;
  pte_accessed : bool;
  pte_dirty : bool
}.

(** Modelled from the spec: [threads/palloc.c] is not among the sources.
    A pool is a run of page frames starting at [pool_base] with a bitmap
    of the frames in use. *)
Record pool := Pool {
  pool_base : Z;
  used_map : list bool
}.

(** Modelled from the spec: [filesys/file.c] is not among the sources.
    An open file has contents of a fixed length, a position, and may deny
    writes (a running executable). *)
Record file_obj := FileObj {
  f_data : list byte;
  f_pos : Z;
  f_deny_write : bool
}.

#[global] Instance file_obj_inhabited : Inhabited file_obj :=
  populate (FileObj [] 0 true).

Record state := State {
  cur : Z;                               (* thread_current () *)
  supp_page_table : gmap (Z * Z) Z;      (* (thread, upage) to entry *)
  heap : gmap Z spt_entry;               (* live entries, by address *)
  junk : spt_entry;                      (* stale bytes handed out by malloc *)
  frame_table : list fte_node;           (* FIFO, oldest first *)
  pagedir : gmap (Z * Z) pte;            (* (thread, upage) to mapping *)
  pd_nomem : gset (Z * Z);               (* mappings the kernel cannot back *)
  user_pool : pool;
  kernel_pool : pool;
  kmem : gmap Z (list byte);             (* contents of page frames *)
  swap_map : list bool;                  (* swap slots in use *)
  swap_disk : gmap Z (list byte);        (* contents of swap slots *)
  files : gmap Z file_obj;               (* open files, by handle *)
  fd_table : gmap (Z * Z) Z;             (* (thread, fd) to handle *)
  console : list byte                    (* keys waiting for input_getc *)
}.

(** Functional updates of one component of the state. *)
Definition upd_spt (f : gmap (Z * Z) Z -> gmap (Z * Z) Z) (s : state) : state :=
  State (cur s) (f (supp_page_table s)) (heap s) (junk s) (frame_table s)
        (pagedir s) (pd_nomem s) (user_pool s) (kernel_pool s) (kmem s)
        (swap_map s) (swap_disk s) (files s) (fd_table s) (console s).

Definition upd_heap (f : gmap Z spt_entry -> gmap Z spt_entry) (s : state) : state :=
  State (cur s) (supp_page_table s) (f (heap s)) (junk s) (frame_table s)
        (pagedir s) (pd_nomem s) (user_pool s) (kernel_pool s) (kmem s)
        (swap_map s) (swap_disk s) (files s) (fd_table s) (console s).

Definition upd_frame_table (f : list fte_node -> list fte_node) (s : state) : state :=
  State (cur s) (supp_page_table s) (heap s) (junk s) (f (frame_table s))
        (pagedir s) (pd_nomem s) (user_pool s) (kernel_pool s) (kmem s)
        (swap_map s) (swap_disk s) (files s) (fd_table s) (console s).

Definition upd_pagedir (f : gmap (Z * Z) pte -> gmap (Z * Z) pte) (s : state) : state :=
  State (cur s) (supp_page_table s) (heap s) (junk s) (frame_table s)
        (f (pagedir s)) (pd_nomem s) (user_pool s) (kernel_pool s) (kmem s)
        (swap_map s) (swap_disk s) (files s) (fd_table s) (console s).

Definition upd_user_pool (f : pool -> pool) (s : state) : state :=
  State (cur s) (supp_page_table s) (heap s) (junk s) (frame_table s)
        (pagedir s) (pd_nomem s) (f (user_pool s)) (kernel_pool s) (kmem s)
        (swap_map s) (swap_disk s) (files s) (fd_table s) (console s).

Definition upd_kernel_pool (f : pool -> pool) (s : state) : state :=
  State (cur s) (supp_page_table s) (heap s) (junk s) (frame_table s)
        (pagedir s) (pd_nomem s) (user_pool s) (f (kernel_pool s)) (kmem s)
        (swap_map s) (swap_disk s) (files s) (fd_table s) (console s).

Definition upd_kmem (f : gmap Z (list byte) -> gmap Z (list byte)) (s : state) : state :=
  State (cur s) (supp_page_table s) (heap s) (junk s) (frame_table s)
        (pagedir s) (pd_nomem s) (user_pool s) (kernel_pool s) (f (kmem s))
        (swap_map s) (swap_disk s) (files s) (fd_table s) (console s).

Definition upd_swap_map (f : list bool -> list bool) (s : state) : state :=
  State (cur s) (supp_page_table s) (heap s) (junk s) (frame_table s)
        (pagedir s) (pd_nomem s) (user_pool s) (kernel_pool s) (kmem s)
        (f (swap_map s)) (swap_disk s) (files s) (fd_table s) (console s).

Definition upd_swap_disk (f : gmap Z (list byte) -> gmap Z (list byte)) (s : state) : state :=
  State (cur s) (supp_page_table s) (heap s) (junk s) (frame_table s)
        (pagedir s) (pd_nomem s) (user_pool s) (kernel_pool s) (kmem s)
        (swap_map s) (f (swap_disk s)) (files s) (fd_table s) (console s).

Definition upd_files (f : gmap Z file_obj -> gmap Z file_obj) (s : state) : state :=
  State (cur s) (supp_page_table s) (heap s) (junk s) (frame_table s)
        (pagedir s) (pd_nomem s) (user_pool s) (kernel_pool s) (kmem s)
        (swap_map s) (swap_disk s) (f (files s)) (fd_table s) (console s).

Definition upd_fd_table (f : gmap (Z * Z) Z -> gmap (Z * Z) Z) (s : state) : state :=
  State (cur s) (supp_page_table s) (heap s) (junk s) (frame_table s)
        (pagedir s) (pd_nomem s) (user_pool s) (kernel_pool s) (kmem s)
        (swap_map s) (swap_disk s) (files s) (f (fd_table s)) (console s).

Definition upd_console (f : list byte -> list byte) (s : state) : state :=
  State (cur s) (supp_page_table s) (heap s) (junk s) (frame_table s)
        (pagedir s) (pd_nomem s) (user_pool s) (kernel_pool s) (kmem s)
        (swap_map s) (swap_disk s) (files s) (fd_table s) (f (console s)).

(** Field updates of an entry, one per assignment of the sources. *)
Definition with_type (ty : spte_type) (e : spt_entry) : spt_entry :=
  SptEntry ty (upage e) (frame e) (pinned e) (is_in_swap e) (idx e)
           (file e) (ofs e) (writable e) (page_read_bytes e) (page_zero_bytes e).

Definition with_upage (u : Z) (e : spt_entry) : spt_entry :=
  SptEntry (type e) u (frame e) (pinned e) (is_in_swap e) (idx e)
           (file e) (ofs e) (writable e) (page_read_bytes e) (page_zero_bytes e).

Definition with_frame (fr : option Z) (e : spt_entry) : spt_entry :=
  SptEntry (type e) (upage e) fr (pinned e) (is_in_swap e) (idx e)
           (file e) (ofs e) (writable e) (page_read_bytes e) (page_zero_bytes e).

Definition with_pinned (b : bool) (e : spt_entry) : spt_entry :=
  SptEntry (type e) (upage e) (frame e) b (is_in_swap e) (idx e)
           (file e) (ofs e) (writable e) (page_read_bytes e) (page_zero_bytes e).

Definition with_is_in_swap (b : bool) (e : spt_entry) : spt_entry :=
  SptEntry (type e) (upage e) (frame e) (pinned e) b (idx e)
           (file e) (ofs e) (writable e) (page_read_bytes e) (page_zero_bytes e).

Definition with_idx (i : Z) (e : spt_entry) : spt_entry :=
  SptEntry (type e) (upage e) (frame e) (pinned e) (is_in_swap e) i
           (file e) (ofs e) (writable e) (page_read_bytes e) (page_zero_bytes e).

(** ** The monad of kernel computations *)

(** The places where the kernel stops: a [PANIC] or a failed [ASSERT]. *)
Inductive panic_site :=
| Not_able_to_write_out
| Not_able_to_swap_out
| Not_able_to_get_frame
| Not_able_to_evict
| Frame_table_empty
| Assert_victim_found
| Assert_victim_resident
| Assert_resident_before_swap
| Assert_frame_allocated
| Assert_frame_table_not_empty
| Assert_whole_pages
| Assert_page_aligned
| Assert_offset_aligned.

Inductive result (A : Type) : Type :=
| Ok (a : A) (s : state)      (* the call returns *)
| Panic (why : panic_site)    (* the kernel halts *)
| Fault                       (* bad pointer dereferenced, page fault in the kernel *)
| Exit (status : Z) (s : state) (* the calling process is terminated *)
| Timeout.                    (* fuel of an unbounded loop exhausted *)

Arguments Ok {A} a s.
Arguments Panic {A} why.
Arguments Fault {A}.
Arguments Exit {A} status s.
Arguments Timeout {A}.

Definition M (A : Type) : Type := state -> result A.

Definition ret {A} (a : A) : M A := fun s => Ok a s.

Definition bind {A B} (m : M A) (k : A -> M B) : M B :=
  fun s =>
    match m s with
    | Ok a s' => k a s'
    | Panic why => Panic why
    | Fault => Fault
    | Exit status s' => Exit status s'
    | Timeout => Timeout
    end.

Declare Scope kernel_scope.
Delimit Scope kernel_scope with kernel.
Bind Scope kernel_scope with M.

Notation "x <- c1 ;; c2" := (bind c1 (fun x => c2))
  (at level 100, c1 at next level, right associativity) : kernel_scope.
Notation "c1 ;; c2" := (bind c1 (fun _ => c2))
  (at level 100, right associativity) : kernel_scope.

Open Scope kernel_scope.

Definition gets {A} (f : state -> A) : M A := fun s => Ok (f s) s.
Definition modify (f : state -> state) : M unit := fun s => Ok tt (f s).
Definition panic {A} (why : panic_site) : M A := fun _ => Panic why.
Definition fault {A} : M A := fun _ => Fault.
Definition timeout {A} : M A := fun _ => Timeout.
Definition terminate {A} (status : Z) : M A := fun s => Exit status s.

Definition ASSERT (b : bool) (why : panic_site) : M unit :=
  if b then ret tt else panic why.

Definition when (b : bool) (m : M unit) : M unit :=
  if b then m else ret tt.

(** ** The collaborators of the virtual memory core *)

(** Dereference of a pointer to an entry: a pointer that is not live in
    the store is a bad dereference. *)
Definition load (p : Z) : M spt_entry :=
  fun s => match heap s !! p with Some e => Ok e s | None => Fault end.

Definition store (p : Z) (e : spt_entry) : M unit :=
  modify (upd_heap (<[p := e]>)).

(** [p->field = v] *)
Definition assign (p : Z) (f : spt_entry -> spt_entry) : M unit :=
  e <- load p;; store p (f e).

(** Modelled from the spec: [threads/malloc.c] is not among the sources.
    [malloc] hands out an address that no live entry and no frame list
    node occupies; neither [create_spte] nor [add_to_frame_table] checks
    for exhaustion, and none is modelled. *)
Definition malloc : M Z :=
  gets (fun s => fresh (dom (heap s) ∪ list_to_set (frame_table s).*1)).

(** Modelled from the spec: [free] of [threads/malloc.c] is not among the
    sources; the entry is no longer live. *)
Definition free (p : Z) : M unit := modify (upd_heap (delete p)).

(** Modelled from the spec: [lib/kernel/hash.c] is not among the sources.
    The table of a thread is keyed by [upage] (the order of
    [spt_less_func]); inserting a key that is present changes nothing. *)
Definition hash_find (t upage : Z) : M (option Z) :=
  gets (fun s => supp_page_table s !! (t, upage)).

(** Modelled from the spec: [hash_insert] of [lib/kernel/hash.c] is not
    among the sources; a key that is present is left alone. *)
Definition hash_insert (t upage p : Z) : M unit :=
  old <- gets (fun s => supp_page_table s !! (t, upage));;
  match old with
  | Some _ => ret tt
  | None => modify (upd_spt (<[(t, upage) := p]>))
  end.

(** Modelled from the spec: [hash_delete] of [lib/kernel/hash.c] is not
    among the sources; the element equal to the key leaves the table. *)
Definition hash_delete (t upage : Z) : M unit :=
  modify (upd_spt (delete (t, upage))).

(** Modelled from the spec: [lib/kernel/bitmap.c] is not among the
    sources.  The first clear bit, if any. *)
Fixpoint bitmap_scan (b : list bool) : option nat :=
  match b with
  | [] => None
  | false :: _ => Some O
  | true :: b' => option_map S (bitmap_scan b')
  end.

Definition zero_page : list byte := replicate (Z.to_nat PGSIZE) x00.

(** The bytes of a page frame. *)
Definition page_of (s : state) (fr : Z) : list byte :=
  resize (Z.to_nat PGSIZE) x00 (default [] (kmem s !! fr)).

(** Overwrite [l] from offset [off] with [bytes]. *)
Definition write_at {A} (off : Z) (bytes l : list A) : list A :=
  take (Z.to_nat off) l ++
  take (length l - Z.to_nat off)%nat bytes ++
  drop (Z.to_nat off + length bytes)%nat l.

(** Modelled from the spec: [userprog/pagedir.c] is not among the
    sources; the operations of section 6 on a (thread, user page) pair. *)
Definition pagedir_get_page (t uaddr : Z) : M (option Z) :=
  gets (fun s => pte_kpage <$> pagedir s !! (t, pg_round_down uaddr)).

(** Modelled from the spec: [is_dirty] of section 6; false when the page
    is not mapped. *)
Definition pagedir_is_dirty (t upage : Z) : M bool :=
  gets (fun s => from_option pte_dirty false
                   (pagedir s !! (t, pg_round_down upage))).

(** Modelled from the spec: [is_accessed] of section 6; false when the
    page is not mapped. *)
Definition pagedir_is_accessed (t upage : Z) : M bool :=
  gets (fun s => from_option pte_accessed false
                   (pagedir s !! (t, pg_round_down upage))).

(** Modelled from the spec: the write permission that [install] of
    section 6 recorded for the page; false when the page is not mapped. *)
Definition pagedir_is_writable (t upage : Z) : M bool :=
  gets (fun s => from_option pte_writable false
                   (pagedir s !! (t, pg_round_down upage))).

(** Modelled from the spec: [set_dirty] of section 6. *)
Definition pagedir_set_dirty (t upage : Z) (b : bool) : M unit :=
  modify (upd_pagedir
    (alter (fun e => Pte (pte_kpage e) (pte_writable e) (pte_accessed e) b)
           (t, pg_round_down upage))).

(** Modelled from the spec: [set_accessed] of section 6. *)
Definition pagedir_set_accessed (t upage : Z) (b : bool) : M unit :=
  modify (upd_pagedir
    (alter (fun e => Pte (pte_kpage e) (pte_writable e) b (pte_dirty e))
           (t, pg_round_down upage))).

(** Modelled from the spec: [clear] of section 6; the page is no longer
    mapped. *)
Definition pagedir_clear_page (t upage : Z) : M unit :=
  modify (upd_pagedir (delete (t, pg_round_down upage))).

(** Modelled from the spec: [install] of section 6; it fails when the
    kernel cannot back the mapping with a page table, and a fresh mapping
    is neither accessed nor dirty. *)
Definition pagedir_set_page (t upage kpage : Z) (w : bool) : M bool :=
  nomem <- gets pd_nomem;;
  if decide ((t, pg_round_down upage) ∈ nomem) then ret false
  else
    modify (upd_pagedir
              (<[(t, pg_round_down upage) := Pte kpage w false false]>));;
    ret true.

(** Modelled from the spec: [install_page] of [userprog/process.c] is not
    among the sources; it is the [install] of section 6 on the page
    directory of the running thread and refuses a page that is mapped. *)
Definition install_page (upage kpage : Z) (w : bool) : M bool :=
  t <- gets cur;;
  old <- pagedir_get_page t upage;;
  match old with
  | Some _ => ret false
  | None => pagedir_set_page t upage kpage w
  end.

(** Modelled from the spec: [filesys/file.c] is not among the sources;
    the file operations of section 6.  A handle with no open file behaves
    as an empty file that denies writes. *)
Definition file_of (s : state) (h : Z) : file_obj := files s !!! h.

(** Modelled from the spec: [length] of section 6. *)
Definition file_length (h : Z) : M Z :=
  gets (fun s => Z.of_nat (length (f_data (file_of s h)))).

(** Modelled from the spec: [seek] of section 6. *)
Definition file_seek (h pos : Z) : M unit :=
  modify (fun s =>
    let f := file_of s h in
    upd_files (<[h := FileObj (f_data f) pos (f_deny_write f)]>) s).

(** Modelled from the spec: [file_read] of [filesys/file.c] is not among
    the sources; it reads from the position up to the end of the file,
    advances the position and returns the bytes it read, which the caller
    places. *)
Definition file_read (h size : Z) : M (list byte) :=
  f <- gets (fun s => file_of s h);;
  let bytes := take (Z.to_nat size) (drop (Z.to_nat (f_pos f)) (f_data f)) in
  modify (upd_files
            (<[h := FileObj (f_data f) (f_pos f + Z.of_nat (length bytes))
                            (f_deny_write f)]>));;
  ret bytes.

(** Modelled from the spec: [write_at] of section 6; it never grows the
    file, writes nothing to a file that denies writes, and returns the
    count written. *)
Definition file_write_at (h : Z) (bytes : list byte) (size ofs : Z) : M Z :=
  f <- gets (fun s => file_of s h);;
  if f_deny_write f then ret 0
  else
    let room := (length (f_data f) - Z.to_nat ofs)%nat in
    let src := take room (take (Z.to_nat size) bytes) in
    modify (upd_files
              (<[h := FileObj (write_at ofs src (f_data f)) (f_pos f)
                              (f_deny_write f)]>));;
    ret (Z.of_nat (length src)).

(** Modelled from the spec: [vm/swap.c] is not among the sources.
    [swap_out] allocates the first free slot and copies the frame of the
    entry into it, or returns [BITMAP_ERROR] when the device is full;
    [swap_in] copies the slot of the entry into its frame and frees the
    slot (sections 3.3 and 6). *)
Definition swap_out (spte : Z) : M Z :=
  e <- load spte;;
  match frame e with
  | None => fault
  | Some fr =>
      m <- gets swap_map;;
      match bitmap_scan m with
      | None => ret BITMAP_ERROR
      | Some i =>
          modify (fun s =>
            upd_swap_disk (<[Z.of_nat i := page_of s fr]>)
              (upd_swap_map (<[i := true]>) s));;
          ret (Z.of_nat i)
      end
  end.

(** Modelled from the spec: [swap_in] of [vm/swap.c] is not among the
    sources; the slot of the entry is copied into its frame and freed
    (section 3.3). *)
Definition swap_in (spte : Z) : M unit :=
  e <- load spte;;
  match frame e with
  | None => fault
  | Some fr =>
      modify (fun s =>
        upd_swap_map (<[Z.to_nat (idx e) := false]>)
          (upd_kmem
             (<[fr := resize (Z.to_nat PGSIZE) x00
                        (default [] (swap_disk s !! idx e))]>) s))
  end.

(** Modelled from the spec: [threads/palloc.c] is not among the sources;
    [palloc] and [pfree] of section 6.  The [USER] bit selects the user
    pool, the [ZERO] bit clears the page. *)
Definition page_from_pool (p : pool) (page : Z) : bool :=
  (pool_base p <=? page) &&
  (page <? pool_base p + PGSIZE * Z.of_nat (length (used_map p))).

(** Modelled from the spec: the bitmap update of [pfree] (section 6). *)
Definition pool_release (page : Z) (p : pool) : pool :=
  Pool (pool_base p)
       (<[Z.to_nat ((page - pool_base p) / PGSIZE) := false]> (used_map p)).

(** Modelled from the spec: [pfree] of section 6; the page goes back to
    the pool it came from. *)
Definition palloc_free_page (page : Z) : M unit :=
  up <- gets user_pool;;
  kp <- gets kernel_pool;;
  if page_from_pool up page then modify (upd_user_pool (pool_release page))
  else if page_from_pool kp page
  then modify (upd_kernel_pool (pool_release page))
  else ret tt.

Section Kernel.

Context (K : kconsts).

(** Modelled from the spec: the bitmap update of [palloc] (section 6). *)
Definition pool_take (i : nat) (p : pool) : pool :=
  Pool (pool_base p) (<[i := true]> (used_map p)).

(** Modelled from the spec: [palloc] of section 6; the first free frame
    of the pool the [USER] bit selects, cleared under the [ZERO] bit, or
    absent when the pool is exhausted. *)
Definition palloc_get_page (flags : Z) : M (option Z) :=
  let user := negb (Z.land flags (PAL_USER K) =? 0) in
  p <- gets (fun s => if user then user_pool s else kernel_pool s);;
  match bitmap_scan (used_map p) with
  | None => ret None
  | Some i =>
      let page := pool_base p + PGSIZE * Z.of_nat i in
      (if user then modify (upd_user_pool (pool_take i))
       else modify (upd_kernel_pool (pool_take i)));;
      when (negb (Z.land flags (PAL_ZERO K) =? 0))
           (modify (upd_kmem (<[page := zero_page]>)));;
      ret (Some page)
  end.

(** A kernel access to user memory goes through the page directory of
    the running thread, page by page, and sets the accessed bit (and the
    dirty bit on a write) as the MMU does.  An unmapped page is a fault
    in kernel context, which the sources do not handle. *)
Fixpoint copy_from_user (pages : nat) (va n : Z) : M (list byte) :=
  match pages with
  | O => ret []
  | S k =>
      if n <=? 0 then ret []
      else
        t <- gets cur;;
        kp <- pagedir_get_page t va;;
        match kp with
        | None => fault
        | Some fr =>
            let off := va - pg_round_down va in
            let chunk := Z.min n (PGSIZE - off) in
            bytes <- gets (fun s =>
              take (Z.to_nat chunk) (drop (Z.to_nat off) (page_of s fr)));;
            pagedir_set_accessed t va true;;
            rest <- copy_from_user k (wrap32 (va + chunk)) (n - chunk);;
            ret (bytes ++ rest)
        end
  end.

(** A kernel write to user memory.  The kernel runs with write
    protection on, so a write to a page that is mapped read-only is a
    page fault like a write to an unmapped page; the handler of page
    faults ([userprog/exception.c]) is not among the sources, and what it
    does with the fault is outside the model. *)
Fixpoint copy_to_user (pages : nat) (va : Z) (bytes : list byte) : M unit :=
  match pages with
  | O => ret tt
  | S k =>
      match bytes with
      | [] => ret tt
      | _ =>
          t <- gets cur;;
          kp <- pagedir_get_page t va;;
          match kp with
          | None => fault
          | Some fr =>
              w <- pagedir_is_writable t va;;
              if negb w then fault
              else
                let off := va - pg_round_down va in
                let chunk := Z.to_nat (PGSIZE - off) in
                modify (fun s =>
                  upd_kmem (<[fr := write_at off (take chunk bytes)
                                             (page_of s fr)]>) s);;
                pagedir_set_accessed t va true;;
                pagedir_set_dirty t va true;;
                copy_to_user k (wrap32 (va + (PGSIZE - off)))
                             (drop chunk bytes)
          end
      end
  end.

(** The number of pages a buffer of [n] bytes can touch. *)
Definition span (n : Z) : nat := Z.to_nat (n / PGSIZE + 2).

(** ** vm/page.c: lookup and write-back *)

Definition uvaddr_to_spt_entry (uvaddr : Z) : M (option Z) :=
  let upage := pg_round_down uvaddr in
  t <- gets cur;;
  hash_find t upage.

(** [write_to_disk]: consults the page directory of the running thread. *)
Definition write_to_disk (spte : Z) : M bool :=
  t <- gets cur;;
  e <- load spte;;
  d <- pagedir_is_dirty t (upage e);;
  if d then
    bytes <- copy_from_user (span (page_read_bytes e)) (upage e)
                            (to_int (page_read_bytes e));;
    written <- file_write_at (file e) bytes (to_int (page_read_bytes e))
                             (ofs e);;
    if negb (wrap32 written =? page_read_bytes e) then ret false
    else ret true
  else ret true.

(** ** vm/frame.c *)

(** [list_remove] of the node at address [p]. *)
Fixpoint list_remove (p : Z) (l : list fte_node) : list fte_node :=
  match l with
  | [] => []
  | n :: l' => if decide (n.1 = p) then l' else n :: list_remove p l'
  end.

(** The scan of [free_frame]: unlink the first node holding [fr]. *)
Fixpoint unlink_frame (fr : Z) (l : list fte_node) : list fte_node :=
  match l with
  | [] => []
  | n :: l' =>
      if decide (fte_frame n.2 = fr) then l' else n :: unlink_frame fr l'
  end.

Definition free_frame (fr : Z) : M unit :=
  modify (upd_frame_table (unlink_frame fr));;
  palloc_free_page fr.

Definition clear_frame_entry (fte : fte_node) : M unit :=
  modify (upd_frame_table (list_remove fte.1));;
  e <- load (fte_spte fte.2);;
  pagedir_clear_page (fte_t fte.2) (upage e);;
  palloc_free_page (fte_frame fte.2).

(** Phase 1 of [get_victim_frame]: write dirty file pages back, return
    the first clean page that was not accessed. *)
Fixpoint victim_phase1 (l : list fte_node) : M (option fte_node) :=
  match l with
  | [] => ret None
  | fte :: l' =>
      e <- load (fte_spte fte.2);;
      is_dirty <- pagedir_is_dirty (fte_t fte.2) (upage e);;
      is_accessed <- pagedir_is_accessed (fte_t fte.2) (upage e);;
      if negb (pinned e) then
        if negb (bool_decide (type e = CODE)) then
          if is_dirty then
            ok <- write_to_disk (fte_spte fte.2);;
            when ok (pagedir_set_dirty (fte_t fte.2) (upage e) false);;
            victim_phase1 l'
          else if negb is_accessed then ret (Some fte)
          else victim_phase1 l'
        else
          if negb is_dirty && negb is_accessed then ret (Some fte)
          else victim_phase1 l'
      else victim_phase1 l'
  end.

(** Phase 2: return the first page that was not accessed and is clean or
    of type [CODE]; clear the accessed bit of the others. *)
Fixpoint victim_phase2 (l : list fte_node) : M (option fte_node) :=
  match l with
  | [] => ret None
  | fte :: l' =>
      e <- load (fte_spte fte.2);;
      is_dirty <- pagedir_is_dirty (fte_t fte.2) (upage e);;
      is_accessed <- pagedir_is_accessed (fte_t fte.2) (upage e);;
      if negb (pinned e) then
        if (negb is_dirty || bool_decide (type e = CODE)) && negb is_accessed
        then ret (Some fte)
        else
          pagedir_set_accessed (fte_t fte.2) (upage e) false;;
          victim_phase2 l'
      else victim_phase2 l'
  end.

(** Phase 3: the first page that is not pinned. *)
Fixpoint victim_phase3 (l : list fte_node) : M (option fte_node) :=
  match l with
  | [] => ret None
  | fte :: l' =>
      e <- load (fte_spte fte.2);;
      if negb (pinned e) then ret (Some fte) else victim_phase3 l'
  end.

Definition get_victim_frame : M (option fte_node) :=
  l <- gets frame_table;;
  r1 <- victim_phase1 l;;
  match r1 with
  | Some fte => ret (Some fte)
  | None =>
      r2 <- victim_phase2 l;;
      match r2 with
      | Some fte => ret (Some fte)
      | None =>
          ASSERT (negb (bool_decide (l = []))) Assert_frame_table_not_empty;;
          victim_phase3 l
      end
  end.

(** The [CODE] case of [evict_frame], which the [FILE] case falls into. *)
Definition evict_code (fte : fte_node) : M bool :=
  let spte := fte_spte fte.2 in
  e <- load spte;;
  ASSERT (bool_decide (frame e <> None)) Assert_resident_before_swap;;
  i <- swap_out spte;;
  if i =? BITMAP_ERROR then panic Not_able_to_swap_out
  else
    assign spte (with_idx i);;
    assign spte (with_is_in_swap true);;
    assign spte (with_frame None);;
    clear_frame_entry fte;;
    ret true.

Definition evict_frame (fte : fte_node) : M bool :=
  let spte := fte_spte fte.2 in
  e <- load spte;;
  match type e with
  | MMAP =>
      d <- pagedir_is_dirty (fte_t fte.2) (upage e);;
      ok <- (if d then write_to_disk spte else ret true);;
      if negb ok then panic Not_able_to_write_out
      else
        assign spte (with_frame None);;
        clear_frame_entry fte;;
        ret true
  | FILE =>
      assign spte (with_type CODE);;
      evict_code fte
  | CODE => evict_code fte
  end.

Definition add_to_frame_table (fr spte : Z) : M unit :=
  p <- malloc;;
  _ <- load spte;;
  t <- gets cur;;
  modify (upd_frame_table (fun l => l ++ [(p, Fte fr spte t)])).

(** The guard [flags & PAL_USER == 0] as C parses it: [==] binds tighter
    than [&]. *)
Definition pal_user_guard (flags : Z) : bool :=
  negb (Z.land flags (if PAL_USER K =? 0 then 1 else 0) =? 0).

(** The [do ... while (frame == NULL)] of [frame_alloc]. *)
Fixpoint evict_until_frame (fuel : nat) (flags : Z) : M Z :=
  match fuel with
  | O => timeout
  | S fuel' =>
      l <- gets frame_table;;
      if bool_decide (l = []) then panic Frame_table_empty
      else
        v <- get_victim_frame;;
        match v with
        | None => panic Assert_victim_found
        | Some fte =>
            (* the range of [type] and [fte->frame != NULL] hold by typing *)
            e <- load (fte_spte fte.2);;
            ASSERT (bool_decide (frame e <> None)) Assert_victim_resident;;
            evicted <- evict_frame fte;;
            if evicted then
              fr <- palloc_get_page flags;;
              match fr with
              | Some fr => ret fr
              | None => evict_until_frame fuel' flags
              end
            else panic Not_able_to_evict
        end
  end.

Definition frame_alloc (flags : Z) : M (option Z) :=
  if pal_user_guard flags then ret None
  else
    fr <- palloc_get_page flags;;
    match fr with
    | Some fr => ret (Some fr)
    | None =>
        n <- gets (fun s => length (frame_table s));;
        fr <- evict_until_frame (S n) flags;;
        ret (Some fr)
    end.

Definition get_frame_for_page (flags : Z) (spte : option Z) : M (option Z) :=
  match spte with
  | None => ret None
  | Some spte =>
      if pal_user_guard flags then ret None
      else
        fr <- frame_alloc flags;;
        match fr with
        | Some fr => add_to_frame_table fr spte;; ret (Some fr)
        | None => panic Not_able_to_get_frame
        end
  end.

(** ** vm/page.c *)

(** [create_spte] sets five fields of the fresh block; the others keep
    whatever the block held. *)
Definition create_spte : M Z :=
  p <- malloc;;
  j <- gets junk;;
  store p j;;
  assign p (with_frame None);;
  assign p (with_upage 0);;
  assign p (with_is_in_swap false);;
  assign p (with_idx BITMAP_ERROR);;
  assign p (with_pinned false);;
  ret p.

Definition create_spte_code (upage : Z) : M Z :=
  spte <- create_spte;;
  assign spte (with_type CODE);;
  assign spte (with_upage upage);;
  t <- gets cur;;
  hash_insert t upage spte;;
  ret spte.

Definition free_spte (spte : option Z) : M unit :=
  match spte with
  | None => ret tt
  | Some spte =>
      e <- load spte;;
      match frame e with
      | Some fr =>
          when (bool_decide (type e = MMAP) ||
                bool_decide (type e = FILE) && writable e)
               (_ <- write_to_disk spte;; ret tt);;
          t <- gets cur;;
          pagedir_clear_page t (upage e);;
          free_frame fr
      | None => ret tt
      end;;
      t <- gets cur;;
      hash_delete t (upage e);;
      free spte
  end.

(** The loop of [free_spte_mmap].  Nothing bounds its iterations in the
    sources, hence the fuel. *)
Fixpoint free_spte_mmap_loop (fuel : nat) (first_spte : Z)
    (read_bytes upage : Z) : M unit :=
  match fuel with
  | O => timeout
  | S fuel' =>
      if 0 <? read_bytes then
        spte <- uvaddr_to_spt_entry upage;;
        match spte with
        | None => fault
        | Some sp =>
            e <- load sp;;
            let upage' := wrap32 (upage + PGSIZE) in
            let read_bytes' := to_int (read_bytes - page_read_bytes e) in
            first <- load first_spte;;
            when (bool_decide (file e = file first)) (free_spte (Some sp));;
            free_spte_mmap_loop fuel' first_spte read_bytes' upage'
        end
      else ret tt
  end.

Definition free_spte_mmap (fuel : nat) (first_spte : option Z) : M unit :=
  match first_spte with
  | None => ret tt
  | Some first =>
      e <- load first;;
      len <- file_length (file e);;
      free_spte_mmap_loop fuel first len (upage e)
  end.

Definition mmap_entry (f ofs upage page_read_bytes page_zero_bytes : Z)
    (e : spt_entry) : spt_entry :=
  SptEntry MMAP upage (frame e) (pinned e) (is_in_swap e) (idx e)
           f ofs true page_read_bytes page_zero_bytes.

(** The loop of [create_spte_mmap]; [fuel] bounds the roll-back only, the
    pages of the mapping are counted by [pages]. *)
Fixpoint create_spte_mmap_loop (pages fuel : nat) (f read_bytes upage ofs : Z)
    (i : Z) (first_spte : option Z) : M (option Z) :=
  if 0 <? read_bytes then
    match pages with
    | O => timeout
    | S pages' =>
        let page_read_bytes :=
          if read_bytes <? PGSIZE then read_bytes else PGSIZE in
        let page_zero_bytes := PGSIZE - page_read_bytes in
        spte <- uvaddr_to_spt_entry upage;;
        match spte with
        | Some _ =>
            free_spte_mmap fuel first_spte;;
            ret None
        | None =>
            spte <- create_spte;;
            assign spte (mmap_entry f ofs upage page_read_bytes page_zero_bytes);;
            t <- gets cur;;
            hash_insert t upage spte;;
            create_spte_mmap_loop pages' fuel f
              (read_bytes - page_read_bytes) (wrap32 (upage + PGSIZE))
              (ofs + page_read_bytes)
              (if i =? 0 then 1 else i)
              (if i =? 0 then Some spte else first_spte)
        end
    end
  else ret first_spte.

Definition create_spte_mmap (fuel : nat) (f read_bytes upage : Z)
    : M (option Z) :=
  create_spte_mmap_loop (Z.to_nat (read_bytes / PGSIZE + 1)) fuel
                        f read_bytes upage 0 0 None.

Definition file_entry (f ofs upage : Z) (w : bool)
    (page_read_bytes page_zero_bytes : Z) (e : spt_entry) : spt_entry :=
  SptEntry FILE upage (frame e) (pinned e) (is_in_swap e) (idx e)
           f ofs w page_read_bytes page_zero_bytes.

Fixpoint create_spte_file_loop (pages : nat) (f ofs upage : Z)
    (read_bytes zero_bytes : Z) (w : bool) : M bool :=
  if (0 <? read_bytes) || (0 <? zero_bytes) then
    match pages with
    | O => timeout
    | S pages' =>
        let page_read_bytes :=
          if read_bytes <? PGSIZE then read_bytes else PGSIZE in
        let page_zero_bytes := PGSIZE - page_read_bytes in
        spte <- create_spte;;
        assign spte (file_entry f ofs upage w page_read_bytes page_zero_bytes);;
        t <- gets cur;;
        hash_insert t upage spte;;
        create_spte_file_loop pages' f (to_int (ofs + page_read_bytes))
          (wrap32 (upage + PGSIZE))
          (wrap32 (read_bytes - page_read_bytes))
          (wrap32 (zero_bytes - page_zero_bytes)) w
    end
  else ret true.

(** [create_spte_file]; its three [ASSERT]s bound the loop. *)
Definition create_spte_file (f ofs upage read_bytes zero_bytes : Z) (w : bool)
    : M bool :=
  ASSERT (wrap32 (read_bytes + zero_bytes) mod PGSIZE =? 0)
         Assert_whole_pages;;
  ASSERT (upage - pg_round_down upage =? 0) Assert_page_aligned;;
  ASSERT (ofs mod PGSIZE =? 0) Assert_offset_aligned;;
  create_spte_file_loop (Z.to_nat ((read_bytes + zero_bytes) / PGSIZE + 1))
                        f ofs upage read_bytes zero_bytes w.

Definition install_load_file (spte : Z) : M bool :=
  fr <- get_frame_for_page (PAL_USER K) (Some spte);;
  ASSERT (bool_decide (fr <> None)) Assert_frame_allocated;;
  match fr with
  | None => ret false
  | Some fr =>
      e <- load spte;;
      file_seek (file e) (ofs e);;
      bytes <- file_read (file e) (to_int (page_read_bytes e));;
      modify (fun s => upd_kmem (<[fr := write_at 0 bytes (page_of s fr)]>) s);;
      let read_bytes := Z.of_nat (length bytes) in
      if negb (read_bytes =? to_int (page_read_bytes e)) then
        free_frame fr;;
        ret false
      else
        modify (fun s =>
          upd_kmem (<[fr := write_at (page_read_bytes e)
                              (replicate (Z.to_nat (page_zero_bytes e)) x00)
                              (page_of s fr)]>) s);;
        ok <- install_page (upage e) fr (writable e);;
        if negb ok then
          free_frame fr;;
          ret false
        else
          assign spte (with_frame (Some fr));;
          ret true
  end.

Definition install_load_mmap (spte : Z) : M bool :=
  install_load_file spte.

Definition install_load_swap (spte : Z) : M bool :=
  fr <- get_frame_for_page (Z.lor (PAL_USER K) (PAL_ZERO K)) (Some spte);;
  ASSERT (bool_decide (fr <> None)) Assert_frame_allocated;;
  match fr with
  | None => ret false
  | Some fr =>
      e <- load spte;;
      ok <- install_page (upage e) fr true;;
      if ok then
        assign spte (with_frame (Some fr));;
        when (is_in_swap e)
             (swap_in spte;;
              assign spte (with_is_in_swap false);;
              assign spte (with_idx BITMAP_ERROR));;
        ret true
      else
        free_frame fr;;
        ret false
  end.

Definition install_load_page (spte : Z) : M bool :=
  e <- load spte;;
  match type e with
  | FILE => install_load_file spte
  | MMAP => install_load_mmap spte
  | CODE => install_load_swap spte
  end.

Definition free_spte_elem (spte : Z) : M unit :=
  free_spte (Some spte).

(** [hash_destroy] pops every element of the table and hands it to the
    destructor. *)
Fixpoint hash_destroy (h : Z) (elems : list (Z * Z * Z))
    (destructor : Z -> M unit) : M unit :=
  match elems with
  | [] => ret tt
  | (k, p) :: rest =>
      when (bool_decide (k.1 = h))
           (hash_delete h k.2;; destructor p);;
      hash_destroy h rest destructor
  end.

(** [destroy_spt] of the table of thread [h]. *)
Definition destroy_spt (h : Z) : M unit :=
  elems <- gets (fun s => map_to_list (supp_page_table s));;
  hash_destroy h elems free_spte_elem.

Definition grow_stack (uaddr : Z) (pin : bool) : M bool :=
  let upage := pg_round_down uaddr in
  if wrap32 (MAX_STACK_SIZE K) <? wrap32 (PHYS_BASE - uaddr) then ret false
  else
    spte <- create_spte_code upage;;
    assign spte (with_pinned pin);;
    install_load_page spte.

(** ** userprog/syscall.c: validation and pinning of user pointers *)

(** Modelled from the spec: [file_close] of [filesys/file.c] is not among
    the sources; the handle is no longer an open file. *)
Definition file_close (h : Z) : M unit := modify (upd_files (delete h)).

Definition is_valid_fd (fd : Z) : bool := (0 <=? fd) && (fd <? MAX_FILES K).

Definition close_file (fd : Z) : M unit :=
  t <- gets cur;;
  h <- gets (fun s => fd_table s !! (t, fd));;
  match h with
  | Some h => file_close h;; modify (upd_fd_table (delete (t, fd)))
  | None => ret tt
  end.

Fixpoint close_files (fds : list Z) : M unit :=
  match fds with
  | [] => ret tt
  | fd :: rest => close_file fd;; close_files rest
  end.

(** [exit] once the status is known: close the files, destroy the
    supplemental page table, and leave.  What [process_exit] and
    [thread_exit] do afterwards is outside the sources. *)
Definition exit_with {A} (status : Z) : M A :=
  close_files (seqZ 2 (MAX_FILES K - 2));;
  t <- gets cur;;
  destroy_spt t;;
  terminate status.

Definition valid_up (esp ptr : Z) : M unit :=
  t <- gets cur;;
  when ((ptr =? 0) || negb (is_user_vaddr ptr)) (exit_with (-1));;
  spte <- uvaddr_to_spt_entry ptr;;
  match spte with
  | Some sp =>
      assign sp (with_pinned true);;
      kp <- pagedir_get_page t ptr;;
      match kp with
      | None =>
          ok <- install_load_page sp;;
          when (negb ok) (exit_with (-1))
      | Some _ => ret tt
      end
  | None =>
      kp <- pagedir_get_page t ptr;;
      match kp with
      | None =>
          if wrap32 (esp - STACK_HEURISTIC K) <=? ptr then
            ok <- grow_stack ptr true;;
            when (negb ok) (exit_with (-1))
          else exit_with (-1)
      | Some _ => ret tt
      end
  end.

(** The offsets [PGSIZE, 2 * PGSIZE, ...] below [size]. *)
Definition page_steps (size : Z) : list Z :=
  filter (fun i => i < size)
         ((fun k => PGSIZE * (k + 1)) <$> seqZ 0 (size / PGSIZE)).

Fixpoint valid_up_each (esp ptr : Z) (steps : list Z) : M unit :=
  match steps with
  | [] => ret tt
  | i :: rest => valid_up esp (wrap32 (ptr + i));; valid_up_each esp ptr rest
  end.

Definition validate (esp ptr size : Z) : M unit :=
  valid_up esp ptr;;
  when (negb (size =? 1)) (valid_up esp (wrap32 (ptr + size - 1)));;
  valid_up_each esp ptr (page_steps size).

Definition unpin (uaddr : Z) : M unit :=
  spte <- uvaddr_to_spt_entry uaddr;;
  match spte with
  | Some sp => assign sp (with_pinned false)
  | None => ret tt
  end.

Fixpoint unpin_each (buffer : Z) (steps : list Z) : M unit :=
  match steps with
  | [] => ret tt
  | i :: rest => unpin (wrap32 (buffer + i));; unpin_each buffer rest
  end.

Definition unpin_buffer (buffer size : Z) : M unit :=
  unpin buffer;;
  unpin (wrap32 (buffer + size - 1));;
  unpin_each buffer (page_steps size).

Definition is_writable (ptr : Z) : M unit :=
  spte <- uvaddr_to_spt_entry ptr;;
  match spte with
  | None => fault
  | Some sp =>
      e <- load sp;;
      when (bool_decide (type e = FILE) && negb (writable e)) (exit_with (-1))
  end.

(** A 32-bit word of user memory, little endian. *)
Definition le_word (bytes : list byte) : Z :=
  foldr (fun b acc => Z.of_N (Byte.to_N b) + 256 * acc) 0 bytes.

Definition user_word (va : Z) : M Z :=
  bytes <- copy_from_user 2 va 4;;
  ret (le_word bytes).

(** Modelled from the spec: [input_getc] of [devices/input.c] is not
    among the sources; it waits for a key, and with none left the call
    never returns. *)
Definition input_getc : M byte :=
  keys <- gets console;;
  match keys with
  | [] => timeout
  | b :: rest => modify (upd_console (fun _ => rest));; ret b
  end.

Fixpoint getc_into (n : nat) (va : Z) : M unit :=
  match n with
  | O => ret tt
  | S n' =>
      b <- input_getc;;
      copy_to_user 1 va [b];;
      getc_into n' (wrap32 (va + 1))
  end.

(** The [read] system call; [esp] points at its first argument. *)
Definition read (esp : Z) : M Z :=
  validate esp esp 4;;
  fd <- user_word esp;;
  let fd := to_int fd in
  let esp := wrap32 (esp + 4) in
  validate esp esp 4;;
  buffer <- user_word esp;;
  let esp := wrap32 (esp + 4) in
  validate esp esp 4;;
  size <- user_word esp;;
  let esp := wrap32 (esp + 4) in
  validate esp buffer size;;
  t <- gets cur;;
  h <- gets (fun s => fd_table s !! (t, fd));;
  r <- (if fd =? STDIN_FILENO then
          getc_into (Z.to_nat size) buffer;;
          ret (to_int size)
        else if is_valid_fd fd && (2 <=? fd) && bool_decide (h <> None) then
          is_writable buffer;;
          bytes <- file_read (default 0 h) (to_int size);;
          copy_to_user (span size) buffer bytes;;
          ret (Z.of_nat (length bytes))
        else ret 0);;
  unpin_buffer buffer size;;
  ret r.

End Kernel.

(** ** Reasoning about kernel computations *)

(** How strictly a computation is judged: [Partial] only constrains the
    calls that return, [Strict] also demands that the call returns or
    panics, and so excludes bad dereferences and exhausted fuel. *)
Inductive strictness := Partial | Strict.

Definition wp {A} (x : strictness) (m : M A) (Q : A -> state -> Prop)
    (s : state) : Prop :=
  match m s with
  | Ok a s' => Q a s'
  | Panic _ => True
  | Fault | Exit _ _ | Timeout => x = Partial
  end.

(** A computation that leaves the state alone except for the page
    directories and the open files. *)
Definition only_io (s s' : state) : Prop :=
  exists pd fs, s' = upd_files (fun _ => fs) (upd_pagedir (fun _ => pd) s).

(** The dirty and accessed bits a scan of the frame list reads for a node. *)
Definition node_dirty (s : state) (fte : fte_node) (e : spt_entry) : bool :=
  from_option pte_dirty false
    (pagedir s !! (fte_t fte.2, pg_round_down (upage e))).

Definition node_accessed (s : state) (fte : fte_node) (e : spt_entry) : bool :=
  from_option pte_accessed false
    (pagedir s !! (fte_t fte.2, pg_round_down (upage e))).

(** No node of the frame list points at the entry [p]. *)
Definition unreferenced (p : Z) (s : state) : Prop :=
  forall fte, fte ∈ frame_table s -> fte_spte fte.2 <> p.

(** What eviction may do to an entry: promote it to [CODE], detach its
    frame, move it to swap; nothing else. *)
Definition kept (e0 e1 : spt_entry) : Prop :=
  upage e1 = upage e0 /\ pinned e1 = pinned e0 /\ file e1 = file e0 /\
  ofs e1 = ofs e0 /\ writable e1 = writable e0 /\
  page_read_bytes e1 = page_read_bytes e0 /\
  page_zero_bytes e1 = page_zero_bytes e0 /\
  (type e1 = type e0 \/ type e1 = CODE) /\
  (frame e1 = frame e0 \/ frame e1 = None).

(** The footprint of frame allocation with eviction: the supplemental page
    tables are as before, nodes only leave the frame list, entries no
    node points at are as before, and every entry lives on. *)
Definition evicts (s s' : state) : Prop :=
  supp_page_table s' = supp_page_table s /\
  cur s' = cur s /\
  pd_nomem s' = pd_nomem s /\
  (forall x, x ∈ frame_table s' -> x ∈ frame_table s) /\
  (forall p, unreferenced p s -> heap s' !! p = heap s !! p) /\
  (forall p e0, heap s !! p = Some e0 ->
                exists e1, heap s' !! p = Some e1 /\ kept e0 e1).

(** The part of the footprint that survives the growth of the frame
    list: tables as before, every entry lives on. *)
Definition lives_on (s s' : state) : Prop :=
  supp_page_table s' = supp_page_table s /\
  cur s' = cur s /\
  (forall p e0, heap s !! p = Some e0 ->
                exists e1, heap s' !! p = Some e1 /\ kept e0 e1).

(** A write-back of the entry reads one page of user memory only. *)
Definition within_page (e : spt_entry) : Prop :=
  to_int (page_read_bytes e) <= PGSIZE - (upage e - pg_round_down (upage e)).

(** A well-formed node of the frame list points at a live entry, and the
    file region of a file-backed entry fits its page. *)
Definition node_ok (s : state) (fte : fte_node) : Prop :=
  exists e, heap s !! fte_spte fte.2 = Some e /\
            (type e <> CODE -> within_page e).

Definition frame_table_ok (s : state) : Prop :=
  Forall (node_ok s) (frame_table s).

(** [page] is a frame of the pool and its bit in the bitmap is [b]. *)
Definition pool_frame (p : pool) (page : Z) (b : bool) : Prop :=
  exists i : nat,
    page = pool_base p + PGSIZE * Z.of_nat i /\ used_map p !! i = Some b.

(** The frame list accounts for frames of the user pool: no node and no
    frame occurs twice, and every listed frame is marked in use. *)
Definition frames_ok (s : state) : Prop :=
  NoDup (frame_table s).*1 /\
  NoDup ((fun n : fte_node => fte_frame n.2) <$> frame_table s) /\
  forall n, n ∈ frame_table s -> pool_frame (user_pool s) (fte_frame n.2) true.

(** The flags [install_load_page] asks a frame with. *)
Definition load_flags (K : kconsts) (e : spt_entry) : Z :=
  match type e with
  | CODE => Z.lor (PAL_USER K) (PAL_ZERO K)
  | _ => PAL_USER K
  end.

(** [palloc_free_page] as seen from the user pool. *)
Definition release_if (page : Z) (p : pool) : pool :=
  if page_from_pool p page then pool_release page p else p.

(** What frame allocation establishes for the frame [fr] it returns: the
    footprint of eviction, a consistent frame list, and [fr] marked in use
    but not yet listed. *)
Definition alloc_post (fr : Z) (s s' : state) : Prop :=
  evicts s s' /\ frames_ok s' /\
  pool_frame (user_pool s') fr true /\
  (forall n, n ∈ frame_table s' -> fte_frame n.2 <> fr).

(** The flags select the user pool. *)
Definition user_flags (K : kconsts) (flags : Z) : Prop :=
  Z.land flags (PAL_USER K) <> 0.

(** A failed load gave its frame back: the allocation returned [fr] and
    listed it for the entry, and in the final state [fr] is free again and
    no longer listed, no node was added, the accounting is consistent and
    the entry is as it was. *)
Definition frame_released (K : kconsts) (sp : Z) (e : spt_entry)
    (s s' : state) : Prop :=
  exists fr s1,
    get_frame_for_page K (load_flags K e) (Some sp) s = Ok (Some fr) s1 /\
    pool_frame (user_pool s1) fr true /\
    (exists n, n ∈ frame_table s1 /\ n.2 = Fte fr sp (cur s)) /\
    pool_frame (user_pool s') fr false /\
    (forall n, n ∈ frame_table s' -> fte_frame n.2 <> fr) /\
    (forall n, n ∈ frame_table s' -> n ∈ frame_table s) /\
    frames_ok s' /\
    heap s' !! sp = Some e.

(** The number of bytes the [file_read] of [install_load_file] delivers
    for the entry in state [s], after the seek to its offset. *)
Definition read_count (e : spt_entry) (s : state) : Z :=
  Z.of_nat (length (take (Z.to_nat (to_int (page_read_bytes e)))
                         (drop (Z.to_nat (ofs e))
                               (f_data (file_of s (file e)))))).

(** The file read of the entry comes up short in state [s]. *)
Definition short_read (e : spt_entry) (s : state) : Prop :=
  read_count e s <> to_int (page_read_bytes e).

(** [install_page] refuses the page of the entry in state [s]: the running
    thread has the page mapped, or the kernel cannot back the mapping. *)
Definition install_refused (e : spt_entry) (s : state) : Prop :=
  is_Some (pagedir s !! (cur s, pg_round_down (upage e))) \/
  (cur s, pg_round_down (upage e)) ∈ pd_nomem s.

(** Entries only ever leave a supplemental page table. *)
Definition spt_shrinks (s s' : state) : Prop :=
  forall k, supp_page_table s' !! k = None \/
            supp_page_table s' !! k = supp_page_table s !! k.

(** The footprint of tearing entries down: the swap device is as before
    and entries only leave the tables. *)
Definition teardown (s s' : state) : Prop :=
  swap_map s' = swap_map s /\ swap_disk s' = swap_disk s /\ spt_shrinks s s'.

(** What a scan promises about the node it returns: it is a node of the
    list and its entry is live and not pinned. *)
Definition unpinned_node (l : list fte_node) (s : state)
    (r : option fte_node) : Prop :=
  match r with
  | Some fte =>
      fte ∈ l /\
      exists e, heap s !! fte_spte fte.2 = Some e /\ pinned e = false
  | None => True
  end.

(** While a node is being evicted the frame list stands still and the
    footprint accumulates. *)
Definition evicting (s0 s : state) : Prop :=
  frame_table s = frame_table s0 /\ user_pool s = user_pool s0 /\
  evicts s0 s.

(** [spt_less_func]: the order of the hash table compares the pages as
    signed integers. *)
Definition spt_less_func (a b : spt_entry) : bool :=
  to_int (upage a) <? to_int (upage b).

(** Entries only ever leave the store and nodes only leave the frame
    list. *)
Definition released (s s' : state) : Prop :=
  (forall p, heap s' !! p = None \/ heap s' !! p = heap s !! p) /\
  frame_table s' `sublist_of` frame_table s.


(** The computation does not terminate the process from this state. *)
Definition no_exit {A} (m : M A) (s : state) : Prop :=
  match m s with Exit _ _ => False | _ => True end.

(** The pins of the entries move one way only, towards [b]: the running
    thread is the same, its table keeps the entries it had and gains only
    entries whose pin is [b], and every entry lives on, with the pin [b]
    if it had it. *)
Definition pins_to (b : bool) (s s' : state) : Prop :=
  cur s' = cur s /\
  (forall k p, supp_page_table s !! k = Some p ->
               supp_page_table s' !! k = Some p) /\
  (forall k p, supp_page_table s' !! k = Some p ->
               supp_page_table s !! k = Some p \/
               exists e, heap s' !! p = Some e /\ pinned e = b) /\
  (forall p e, heap s !! p = Some e ->
               exists e', heap s' !! p = Some e' /\
                          (pinned e = b -> pinned e' = b)).

(** The entry of the page of [va] in the table of the running thread, if
    there is one, has the pin [b]. *)
Definition page_pin (b : bool) (s : state) (va : Z) : Prop :=
  forall sp, supp_page_table s !! (cur s, pg_round_down va) = Some sp ->
             exists e, heap s !! sp = Some e /\ pinned e = b.

(** Pinned entries are left exactly as they are. *)
Definition spares_pinned (s s' : state) : Prop :=
  forall p e, heap s !! p = Some e -> pinned e = true -> heap s' !! p = Some e.

(** Occupied swap slots stay occupied and keep their contents. *)
Definition swap_kept (s s' : state) : Prop :=
  forall i, swap_map s !! i = Some true ->
            swap_map s' !! i = Some true /\
            swap_disk s' !! Z.of_nat i = swap_disk s !! Z.of_nat i.

(** The computation does not return to its caller from this state: it
    leaves the process, panics, or goes wrong. *)
Definition never_returns {A} (m : M A) (s : state) : Prop :=
  match m s with Ok _ _ => False | _ => True end.

(** The computation does not panic from this state. *)
Definition no_panic {A} (m : M A) (s : state) : Prop :=
  match m s with Panic _ => False | _ => True end.

(** ** userprog/syscall.c: descriptors *)

(** The [filesize] system call; [esp] points at its argument. *)
Definition filesize (K : kconsts) (esp : Z) : M Z :=
  validate K esp esp 4;;
  fd <- user_word esp;;
  let fd := to_int fd in
  t <- gets cur;;
  h <- gets (fun s => fd_table s !! (t, fd));;
  if is_valid_fd K fd && bool_decide (h <> None) then
    file_length (default 0 h)
  else ret (-1).

(** The [close] system call; the C function ends without a [return], so
    no value is modelled. *)
Definition close (K : kconsts) (esp : Z) : M unit :=
  validate K esp esp 4;;
  fd <- user_word esp;;
  let fd := to_int fd in
  when (is_valid_fd K fd) (close_file fd).

(** The descriptors and the running thread are as before. *)
Definition fds_kept (s s' : state) : Prop :=
  fd_table s' = fd_table s /\ cur s' = cur s.

(** ** Example machines *)

(** The constants of the stock kernel headers. *)
Definition stock : kconsts := KConsts 4 2 (8 * 1024 * 1024) 32 128.

Definition blank : spt_entry :=
  SptEntry CODE 0 None false false 0 0 0 false 0 0.

(** A machine right after boot: thread [t] runs, nothing is mapped. *)
Definition boot (t : Z) (nuser nkernel nswap : nat) : state :=
  State t ∅ ∅ blank [] ∅ ∅
        (Pool 0xC0280000 (replicate nuser false))
        (Pool 0xC0100000 (replicate nkernel false))
        ∅ (replicate nswap false) ∅ ∅ ∅ [].

(** The state a computation leaves behind. *)
Definition run {A} (m : M A) (s : state) : state :=
  match m s with
  | Ok _ s' => s'
  | Exit _ s' => s'
  | _ => s
  end.

(** Two stack pages in a pool of two frames, the older one pinned. *)
Definition pinned_then_free : state :=
  run (grow_stack stock 0xBFFFFFEC true;;
       grow_stack stock 0xBFFFEFEC false) (boot 1 2 2 2).

(** Two stack pages in a pool of two frames, the older one written to. *)
Definition dirty_then_clean : state :=
  run (grow_stack stock 0xBFFFFFEC false;;
       grow_stack stock 0xBFFFEFEC false;;
       pagedir_set_dirty 1 0xBFFFF000 true) (boot 1 2 2 2).

(** A machine whose kernel cannot back a mapping of the page right below
    the stack ceiling. *)
Definition no_page_table : state :=
  State 1 ∅ ∅ blank [] ∅ {[ (1, 0xBFFFF000) ]}
        (Pool 0xC0280000 (replicate 2 false))
        (Pool 0xC0100000 (replicate 2 false))
        ∅ (replicate 2 false) ∅ ∅ ∅ [].

(** The machine of [no_page_table] with a stack entry for that page, not
    loaded yet. *)
Definition unbacked_stack_page : state :=
  run (create_spte_code 0xBFFFF000) no_page_table.

(** File 10 holds 100 bytes, but one page of thread 1 claims 200 bytes of
    it; the page is not loaded yet. *)
Definition short_file : state :=
  run (create_spte_file 10 0 0x08048000 200 3896 false)
      (upd_files (<[10 := FileObj (replicate 100 "A"%byte) 0 true]>)
                 (boot 1 2 2 2)).

(** Three stack pages in a pool of two frames: the oldest page went to
    swap slot 0 when the third was loaded. *)
Definition swapped_out : state :=
  run (grow_stack stock 0xBFFFFFEC false;;
       grow_stack stock 0xBFFFEFEC false;;
       grow_stack stock 0xBFFFDFEC false) (boot 1 2 2 2).

(** Thread 1 has a page of the executable 10 at 0x10001000; file 20 is
    three pages long. *)
Definition page_in_the_way : state :=
  run (create_spte_file 10 0 0x10001000 4096 0 false)
      (upd_files
         (fun f => <[20 := FileObj (replicate (Z.to_nat 12288) "M"%byte) 0 false]>
                     (<[10 := FileObj (replicate (Z.to_nat 4096) "A"%byte) 0 true]> f))
         (boot 1 2 2 2)).

(** A 32-bit word as it lies in user memory. *)
Definition le_bytes (z : Z) : list byte :=
  (fun k => default x00 (Byte.of_N (Z.to_N ((z / 256 ^ k) mod 256))))
    <$> [0; 1; 2; 3].

(** A page fault on [va]: look the entry up and load it. *)
Definition load_at (K : kconsts) (va : Z) : M bool :=
  sp <- uvaddr_to_spt_entry va;;
  match sp with
  | Some p => install_load_page K p
  | None => ret false
  end.

(** Thread 1 with a writable mapping of file 20 at 0x08047000 right below
    a read-only page of its executable at 0x08048000, both loaded, file 30
    open as descriptor 2, and on its stack the arguments [fd], [buffer]
    and [size] of a [read]. *)
Definition before_read (buffer : Z) : state :=
  run (create_spte_file 10 0 0x08048000 4096 0 false;;
       create_spte_mmap 8 20 4096 0x08047000;;
       grow_stack stock 0xBFFFFF00 false;;
       load_at stock 0x08048000;;
       load_at stock 0x08047000;;
       copy_to_user 1 0xBFFFFF00 (le_bytes 2 ++ le_bytes buffer ++ le_bytes 32))
      (upd_fd_table (<[(1, 2) := 30]>)
         (upd_files
            (fun f => <[30 := FileObj (replicate 64 "B"%byte) 0 false]>
                        (<[20 := FileObj (replicate (Z.to_nat 4096) "M"%byte) 0 false]>
                           (<[10 := FileObj (replicate (Z.to_nat 4096) "A"%byte) 0 true]> f)))
            (boot 1 4 2 2))).

(** The machine of [before_read] for a buffer that starts 16 bytes below
    the read-only page, once [read] has validated the 32 bytes of the
    buffer. *)
Definition validated_buffer : state :=
  run (validate stock 0xBFFFFF0C 0x08047FF0 32) (before_read 0x08047FF0).

(** A one page read-only image of file 10, loaded at 0x08048000. *)
Definition loaded_image : state :=
  run (create_spte_file 10 0 0x08048000 100 3996 false;;
       sp <- uvaddr_to_spt_entry 0x08048000;;
       match sp with
       | Some p => install_load_page stock p
       | None => ret false
       end)
      (upd_files (<[10 := FileObj (replicate 100 "A"%byte) 0 true]>)
                 (boot 1 2 2 2)).

(** A one page read-only image of file 10 at 0x08048000, not loaded yet. *)
Definition unloaded_image : state :=
  run (create_spte_file 10 0 0x08048000 100 3996 false)
      (upd_files (<[10 := FileObj (replicate 100 "A"%byte) 0 true]>)
                 (boot 1 2 2 2)).

(** The machine of [before_read] after the thread wrote to its mapping of
    file 20. *)
Definition dirty_mapping : state :=
  run (pagedir_set_dirty 1 0x08047000 true) (before_read 0).

(** * Properties *)

Section Wp.

Context {A B : Type} (x : strictness).

Lemma wp_bind (m : M A) (k : A -> M B) Q s :
  wp x m (fun a => wp x (k a) Q) s -> wp x (bind m k) Q s.
Proof.
  unfold wp, bind. destruct (m s); auto.
Qed.

Lemma wp_mono (m : M A) (Q Q' : A -> state -> Prop) s :
  wp x m Q s -> (forall a s', Q a s' -> Q' a s') -> wp x m Q' s.
Proof.
  unfold wp. destruct (m s); auto.
Qed.

Lemma wp_ret (a : A) (Q : A -> state -> Prop) s : Q a s -> wp x (ret a) Q s.
Proof. done. Qed.

Lemma wp_gets (f : state -> A) (Q : A -> state -> Prop) s :
  Q (f s) s -> wp x (gets f) Q s.
Proof. done. Qed.

Lemma wp_panic why (Q : A -> state -> Prop) s : wp x (panic why) Q s.
Proof. done. Qed.

Lemma wp_Ok (m : M A) Q s a s' : wp x m Q s -> m s = Ok a s' -> Q a s'.
Proof. unfold wp. intros H E. by rewrite E in H. Qed.

Lemma wp_weaken (m : M A) Q s : wp Strict m Q s -> wp x m Q s.
Proof. unfold wp. destruct (m s), x; auto. Qed.

End Wp.

Lemma wp_strict_partial {A} (m : M A) (Q : A -> state -> Prop) s :
  wp Strict m (fun _ _ => True) s -> wp Partial m Q s -> wp Strict m Q s.
Proof. unfold wp. destruct (m s); auto. Qed.

Lemma wp_modify x (f : state -> state) (Q : unit -> state -> Prop) s :
  Q tt (f s) -> wp x (modify f) Q s.
Proof. done. Qed.

Lemma wp_load x p e (Q : spt_entry -> state -> Prop) s :
  heap s !! p = Some e -> Q e s -> wp x (load p) Q s.
Proof. unfold wp, load. by intros ->. Qed.

Lemma wp_load_partial p (Q : spt_entry -> state -> Prop) s :
  (forall e, heap s !! p = Some e -> Q e s) -> wp Partial (load p) Q s.
Proof. unfold wp, load. destruct (heap s !! p); auto. Qed.

Lemma wp_when x (b : bool) (m : M unit) (Q : unit -> state -> Prop) s :
  (b = true -> wp x m Q s) -> (b = false -> Q tt s) -> wp x (when b m) Q s.
Proof. destruct b; simpl; [intros H _ | intros _ H]; by apply H. Qed.

Lemma wp_ASSERT x (b : bool) why (Q : unit -> state -> Prop) s :
  (b = true -> Q tt s) -> wp x (ASSERT b why) Q s.
Proof. destruct b; simpl; [intros H; by apply H | done]. Qed.

(** Projections of updated states. *)
Ltac proj_simpl :=
  cbn [cur supp_page_table heap junk frame_table pagedir pd_nomem user_pool
       kernel_pool kmem swap_map swap_disk files fd_table console
       upd_spt upd_heap upd_frame_table upd_pagedir upd_user_pool
       upd_kernel_pool upd_kmem upd_swap_map upd_swap_disk upd_files
       upd_fd_table upd_console] in *.

Create HintDb wpdb.
Create HintDb wpsafe.

Ltac wp_step :=
  lazymatch goal with
  | |- wp _ (bind _ _) _ _ => apply wp_bind
  | |- wp _ (ret _) _ _ => apply wp_ret
  | |- wp _ (gets _) _ _ => apply wp_gets
  | |- wp _ (modify _) _ _ => apply wp_modify
  | |- wp _ (panic _) _ _ => apply wp_panic
  | |- wp Partial fault _ _ => reflexivity
  | |- wp Partial timeout _ _ => reflexivity
  | |- wp Partial (terminate _) _ _ => reflexivity
  | |- wp Partial (load _) _ _ => apply wp_load_partial; intros ? ?
  | |- wp _ (when _ _) _ _ => apply wp_when; intros ?
  | |- wp _ (ASSERT _ _) _ _ => apply wp_ASSERT; intros ?
  | |- wp _ (if ?b then _ else _) _ _ => destruct b eqn:?
  | |- wp _ (match ?o with _ => _ end) _ _ => destruct o eqn:?
  | |- wp Partial _ _ _ =>
      eapply wp_mono; [solve [eauto with wpdb] | cbv beta; intros ? ? ?]
  | |- wp Strict (load _) _ _ =>
      eapply wp_load;
        [solve [eauto | proj_simpl; rewrite ?lookup_insert_eq; eauto] | ]
  | |- wp Strict _ _ _ =>
      eapply wp_mono; [solve [eauto with wpsafe] | cbv beta; intros ? ? ?]
  end; cbv beta.

Ltac wp_steps := repeat wp_step.

(** *** Forward execution *)

Lemma bind_ret {A B} (a : A) (k : A -> M B) s : bind (ret a) k s = k a s.
Proof. done. Qed.

Lemma bind_gets {A B} (f : state -> A) (k : A -> M B) s :
  bind (gets f) k s = k (f s) s.
Proof. done. Qed.

Lemma bind_modify {B} (f : state -> state) (k : unit -> M B) s :
  bind (modify f) k s = k tt (f s).
Proof. done. Qed.

Lemma bind_panic {A B} why (k : A -> M B) s : bind (panic why) k s = Panic why.
Proof. done. Qed.

Lemma bind_load {B} p e (k : spt_entry -> M B) s :
  heap s !! p = Some e -> bind (load p) k s = k e s.
Proof. unfold bind, load. by intros ->. Qed.

Lemma bind_Ok_inv {A B} (m : M A) (k : A -> M B) s b s' :
  bind m k s = Ok b s' -> exists a s1, m s = Ok a s1 /\ k a s1 = Ok b s'.
Proof. unfold bind. destruct (m s) as [a s1| | | |]; try done. eauto. Qed.

Lemma bind_bind {A B C} (m : M A) (k1 : A -> M B) (k2 : B -> M C) s :
  bind (bind m k1) k2 s = bind m (fun a => bind (k1 a) k2) s.
Proof. unfold bind. by destruct (m s). Qed.

Ltac exec_step :=
  first
    [ rewrite bind_bind
    | rewrite bind_ret
    | rewrite bind_gets
    | rewrite bind_modify
    | rewrite bind_panic
    | erewrite bind_load;
        [| proj_simpl; rewrite ?lookup_insert_eq;
           first [eassumption | reflexivity] ] ];
  cbv beta.

Ltac exec := repeat exec_step; proj_simpl.

(** *** Frame conditions *)

Lemma only_io_refl s : only_io s s.
Proof. exists (pagedir s), (files s). by destruct s. Qed.

Lemma only_io_trans s1 s2 s3 : only_io s1 s2 -> only_io s2 s3 -> only_io s1 s3.
Proof. intros (pd & fs & ->) (pd' & fs' & ->). by exists pd', fs'. Qed.

Lemma only_io_pagedir f s : only_io s (upd_pagedir f s).
Proof. exists (f (pagedir s)), (files s). by destruct s. Qed.

Lemma only_io_files f s : only_io s (upd_files f s).
Proof. exists (pagedir s), (f (files s)). by destruct s. Qed.

#[local] Hint Resolve only_io_refl only_io_pagedir only_io_files : core.

Lemma only_io_heap s s' : only_io s s' -> heap s' = heap s.
Proof. by intros (pd & fs & ->). Qed.

Lemma only_io_frame_table s s' : only_io s s' -> frame_table s' = frame_table s.
Proof. by intros (pd & fs & ->). Qed.

Ltac solve_io :=
  repeat first
    [ assumption
    | apply only_io_refl
    | match goal with
      | |- only_io _ (upd_pagedir _ ?s) =>
          apply (only_io_trans _ s); [|apply only_io_pagedir]
      | |- only_io _ (upd_files _ ?s) =>
          apply (only_io_trans _ s); [|apply only_io_files]
      | H : only_io ?a ?t |- only_io _ ?t =>
          apply (only_io_trans _ a); [|exact H]
      end ].

Lemma copy_from_user_io pages : forall va n s,
  wp Partial (copy_from_user pages va n) (fun _ s' => only_io s s') s.
Proof.
  induction pages as [|k IH]; intros va n s; simpl.
  - by wp_steps.
  - unfold pagedir_get_page, pagedir_set_accessed.
    wp_steps; solve_io.
Qed.

#[local] Hint Resolve copy_from_user_io : wpdb.

Lemma write_to_disk_io spte s :
  wp Partial (write_to_disk spte) (fun _ s' => only_io s s') s.
Proof.
  unfold write_to_disk, pagedir_is_dirty. wp_steps; auto.
  unfold file_write_at. wp_steps; solve_io.
Qed.

#[local] Hint Resolve write_to_disk_io : wpdb.

(** *** Victim selection *)

Lemma victim_phase1_spec l : forall s,
  wp Partial (victim_phase1 l)
     (fun r s' =>
        only_io s s' /\
        match r with
        | Some fte =>
            fte ∈ l /\
            exists e, heap s' !! fte_spte fte.2 = Some e /\
                      pinned e = false /\
                      node_dirty s' fte e = false /\
                      node_accessed s' fte e = false
        | None => True
        end) s.
Proof.
  induction l as [|fte l IH]; intros s; simpl.
  { by wp_steps. }
  unfold pagedir_is_dirty, pagedir_is_accessed, pagedir_set_dirty.
  wp_steps;
    try match goal with
        | H : only_io _ _ /\ _ |- _ => destruct H as [Hio Hr]
        end;
    (split; [solve_io|]);
    try match goal with
        | |- match ?r with Some _ => _ | None => _ end =>
            destruct r; [destruct Hr; split; [by right | done] | done]
        end.
  - split; [by left|]. exists e.
    apply negb_true_iff in Heqb. apply negb_true_iff in Heqb2.
    unfold node_dirty, node_accessed. by rewrite Heqb1, Heqb2.
  - split; [by left|]. exists e.
    apply negb_true_iff in Heqb. apply andb_true_iff in Heqb1 as [Hd Ha].
    apply negb_true_iff in Hd, Ha. done.
Qed.

Lemma victim_phase2_spec l : forall s,
  wp Partial (victim_phase2 l)
     (fun r s' =>
        only_io s s' /\
        match r with
        | Some fte =>
            fte ∈ l /\
            exists e, heap s' !! fte_spte fte.2 = Some e /\
                      pinned e = false /\
                      node_accessed s' fte e = false /\
                      (node_dirty s' fte e = false \/ type e = CODE)
        | None => True
        end) s.
Proof.
  induction l as [|fte l IH]; intros s; simpl.
  { by wp_steps. }
  unfold pagedir_is_dirty, pagedir_is_accessed, pagedir_set_accessed.
  wp_steps;
    try match goal with
        | H : only_io _ _ /\ _ |- _ => destruct H as [Hio Hr]
        end;
    (split; [solve_io|]);
    try match goal with
        | |- match ?r with Some _ => _ | None => _ end =>
            destruct r; [destruct Hr; split; [by right | done] | done]
        end.
  split; [by left|]. exists e.
  apply negb_true_iff in Heqb. apply andb_true_iff in Heqb0 as [Hd Ha].
  apply negb_true_iff in Ha. unfold node_dirty, node_accessed.
  rewrite Ha. repeat split; try done.
  apply orb_true_iff in Hd as [Hd|Hd].
  - left. by apply negb_true_iff.
  - right. by apply bool_decide_eq_true in Hd.
Qed.

Lemma victim_phase3_spec l : forall s,
  wp Partial (victim_phase3 l)
     (fun r s' => s' = s /\ unpinned_node l s r) s.
Proof.
  induction l as [|fte l IH]; intros s; simpl.
  { by wp_steps. }
  wp_steps.
  - split; [done|]. split; [by left|]. exists e.
    by apply negb_true_iff in Heqb.
  - destruct H0 as [-> Hr]. split; [done|].
    destruct a; [|done]. destruct Hr. split; [by right|done].
Qed.

#[local] Hint Resolve victim_phase1_spec victim_phase2_spec
  victim_phase3_spec : wpdb.

Lemma get_victim_frame_spec s :
  wp Partial get_victim_frame
     (fun r s' => only_io s s' /\ unpinned_node (frame_table s) s' r) s.
Proof.
  unfold get_victim_frame. wp_steps.
  - destruct H as [Hio (Hin & e & He & Hp & _)].
    split; [done|]. split; [done|]. by exists e.
  - destruct H as [Hio _], H0 as [Hio' (Hin & e & He & Hp & _)].
    split; [solve_io|]. split; [done|]. by exists e.
  - destruct H as [Hio _], H0 as [Hio' _], H2 as [-> Hr].
    split; [solve_io|done].
Qed.

(** C3 (confirmed): whatever phase selects it, the node returned by
    [get_victim_frame] is a node of the frame list whose owning entry has
    [pinned = false] at the moment of selection; the scan changes neither
    the entries nor the frame list. *)
Theorem get_victim_frame_not_pinned s s' fte :
  get_victim_frame s = Ok (Some fte) s' ->
  heap s' = heap s /\ frame_table s' = frame_table s /\
  fte ∈ frame_table s' /\
  exists e, heap s' !! fte_spte fte.2 = Some e /\ pinned e = false.
Proof.
  intros H. pose proof (get_victim_frame_spec s) as Hs.
  eapply wp_Ok in Hs; [|exact H]. destruct Hs as [Hio [Hin He]].
  rewrite (only_io_frame_table _ _ Hio).
  by rewrite (only_io_heap _ _ Hio) in *.
Qed.

Lemma get_victim_frame_not_pinned_witness :
  exists e, heap pinned_then_free !! 2 = Some e /\ pinned e = false.
Proof.
  refine (proj2 (proj2 (proj2
    (get_victim_frame_not_pinned pinned_then_free pinned_then_free
       (3, Fte 0xC0281000 2 1) _)))).
  vm_compute. reflexivity.
Defined.

(** C4 (corrected): when the scan reaches a non-pinned frame whose entry
    has kind [CODE] and whose accessed bit is clear, phase 1 returns it
    only if its dirty bit is clear as well and otherwise passes over it
    without any effect; "not accessed and (not dirty or kind = CODE)" is
    the victim condition of phase 2, which returns the frame whatever its
    dirty bit. *)
Theorem victim_phase1_code_needs_clean fte l s e :
  heap s !! fte_spte fte.2 = Some e ->
  pinned e = false ->
  type e = CODE ->
  node_accessed s fte e = false ->
  victim_phase1 (fte :: l) s =
    (if node_dirty s fte e then victim_phase1 l s else Ok (Some fte) s) /\
  victim_phase2 (fte :: l) s = Ok (Some fte) s.
Proof.
  intros He Hp Ht Ha. unfold node_accessed in Ha. unfold node_dirty.
  simpl. unfold bind, load, pagedir_is_dirty, pagedir_is_accessed, gets.
  rewrite He, Hp, Ht, Ha. simpl.
  destruct (from_option pte_dirty _ _); by split.
Qed.

Lemma victim_phase1_code_needs_clean_witness :
  victim_phase1 (frame_table dirty_then_clean) dirty_then_clean =
    victim_phase1 [(3, Fte 0xC0281000 2 1)] dirty_then_clean /\
  victim_phase2 (frame_table dirty_then_clean) dirty_then_clean =
    Ok (Some (1, Fte 0xC0280000 0 1)) dirty_then_clean.
Proof.
  exact (victim_phase1_code_needs_clean (1, Fte 0xC0280000 0 1)
           [(3, Fte 0xC0281000 2 1)] dirty_then_clean
           (SptEntry CODE 0xBFFFF000 (Some 0xC0280000) false false
                     BITMAP_ERROR 0 0 false 0 0)
           eq_refl eq_refl eq_refl eq_refl).
Defined.

(** C4, counterexample: the oldest frame is not pinned, of kind [CODE],
    not accessed, and dirty; phase 1 does not return it but the younger
    clean frame. *)
Lemma victim_phase1_skips_dirty_code :
  frame_table dirty_then_clean =
    [(1, Fte 0xC0280000 0 1); (3, Fte 0xC0281000 2 1)] /\
  (exists e, heap dirty_then_clean !! 0 = Some e /\
             type e = CODE /\ pinned e = false /\
             node_accessed dirty_then_clean (1, Fte 0xC0280000 0 1) e = false /\
             node_dirty dirty_then_clean (1, Fte 0xC0280000 0 1) e = true) /\
  victim_phase1 (frame_table dirty_then_clean) dirty_then_clean =
    Ok (Some (3, Fte 0xC0281000 2 1)) dirty_then_clean.
Proof.
  split; [by vm_compute|]. split; [|by vm_compute].
  eexists. split; [by vm_compute|]. by vm_compute.
Qed.

(** *** Stack growth *)

Section Stack.

Context (K : kconsts).

(** C7 (confirmed): an address more than [MAX_STACK_SIZE] below
    [PHYS_BASE] makes [grow_stack] return false with the state, and so the
    supplemental page table, untouched; a successful [grow_stack] implies
    [PHYS_BASE - addr <= MAX_STACK_SIZE]. *)
Theorem grow_stack_bound uaddr pin s :
  0 <= uaddr < 2 ^ 32 ->
  0 <= MAX_STACK_SIZE K < 2 ^ 32 ->
  (PHYS_BASE - uaddr > MAX_STACK_SIZE K ->
   grow_stack K uaddr pin s = Ok false s) /\
  (forall s', grow_stack K uaddr pin s = Ok true s' ->
              PHYS_BASE - uaddr <= MAX_STACK_SIZE K).
Proof.
  intros Hu Hm. unfold grow_stack, wrap32, PHYS_BASE in *.
  rewrite (Z.mod_small (MAX_STACK_SIZE K)) by done.
  split.
  - intros Hgt. rewrite Z.mod_small by lia.
    destruct (Z.ltb_spec (MAX_STACK_SIZE K) (3221225472 - uaddr)); [done|lia].
  - intros s'.
    destruct (Z.ltb_spec (MAX_STACK_SIZE K) ((3221225472 - uaddr) mod 2 ^ 32))
      as [Hlt|Hge]; [done|].
    intros _. destruct (Z_le_gt_dec uaddr 3221225472); [|lia].
    rewrite Z.mod_small in Hge by lia. done.
Qed.

End Stack.

Lemma grow_stack_bound_witness :
  grow_stack stock (PHYS_BASE - 8 * 1024 * 1024 - 1) true (boot 1 2 2 2) =
    Ok false (boot 1 2 2 2).
Proof.
  refine (proj1 (grow_stack_bound stock (PHYS_BASE - 8 * 1024 * 1024 - 1)
                   true (boot 1 2 2 2) _ _) _);
    vm_compute; intuition discriminate.
Defined.

(** *** Eviction *)

Lemma bitmap_scan_lt b i : bitmap_scan b = Some i -> (i < length b)%nat.
Proof.
  revert i. induction b as [|[] b IH]; intros i; simpl; [done| |].
  - destruct (bitmap_scan b) as [j|]; [|done]. intros [= <-].
    specialize (IH j eq_refl). lia.
  - intros [= <-]. lia.
Qed.

Lemma bitmap_scan_free b i : bitmap_scan b = Some i -> b !! i = Some false.
Proof.
  revert i. induction b as [|[] b IH]; intros i; simpl; [done| |].
  - destruct (bitmap_scan b) as [j|]; [|done]. intros [= <-]. by apply IH.
  - by intros [= <-].
Qed.



(** *** The footprint of eviction *)

Lemma kept_refl e : kept e e.
Proof. unfold kept. tauto. Qed.

Lemma kept_trans e0 e1 e2 : kept e0 e1 -> kept e1 e2 -> kept e0 e2.
Proof.
  unfold kept. intros (?&?&?&?&?&?&?&Ht1&Hf1) (?&?&?&?&?&?&?&Ht2&Hf2).
  repeat split; try congruence.
  - destruct Ht2 as [-> | ->]; auto.
  - destruct Hf2 as [-> | ->]; auto.
Qed.

Lemma evicts_refl s : evicts s s.
Proof.
  repeat split; auto. intros p e0 H. exists e0. split; [done|apply kept_refl].
Qed.

Lemma evicts_trans s1 s2 s3 : evicts s1 s2 -> evicts s2 s3 -> evicts s1 s3.
Proof.
  intros (Hs1 & Hc1 & Hn1 & Hf1 & Hu1 & Hk1) (Hs2 & Hc2 & Hn2 & Hf2 & Hu2 & Hk2).
  repeat split; try congruence; auto.
  - intros p Hp. rewrite Hu2, Hu1; [done|done|].
    intros fte Hin. apply Hp. auto.
  - intros p e0 H0. destruct (Hk1 p e0 H0) as (e1 & H1 & K1).
    destruct (Hk2 p e1 H1) as (e2 & H2 & K2).
    exists e2. split; [done|by eapply kept_trans].
Qed.

Lemma evicts_same s s' :
  supp_page_table s' = supp_page_table s -> cur s' = cur s ->
  pd_nomem s' = pd_nomem s -> frame_table s' = frame_table s ->
  heap s' = heap s -> evicts s s'.
Proof.
  intros Hs Hc Hn Hf Hh. repeat split; auto.
  - by rewrite Hf.
  - intros p _. by rewrite Hh.
  - intros p e0 H. exists e0. rewrite Hh. split; [done|apply kept_refl].
Qed.

Lemma only_io_evicts s s' : only_io s s' -> evicts s s'.
Proof. intros (pd & fs & ->). by apply evicts_same. Qed.

Lemma elem_of_list_remove x p l : x ∈ list_remove p l -> x ∈ l.
Proof.
  induction l as [|n l IH]; simpl; [done|].
  destruct (decide (n.1 = p)).
  - by right.
  - intros H. apply elem_of_cons in H as [-> | H]; [by left|right; auto].
Qed.

(** One assignment to a referenced entry that eviction is allowed. *)
Lemma evicts_assign s p e f :
  heap s !! p = Some e ->
  (exists fte, fte ∈ frame_table s /\ fte_spte fte.2 = p) ->
  kept e (f e) ->
  evicts s (upd_heap (<[p := f e]>) s).
Proof.
  intros He (fte & Hin & Hp) Hk. repeat split; auto; proj_simpl.
  - intros q Hq. rewrite lookup_insert_ne; [done|].
    intros <-. by apply (Hq fte).
  - intros q e0 H0. destruct (decide (q = p)) as [->|Hne].
    + rewrite lookup_insert_eq. exists (f e). split; [done|]. congruence.
    + rewrite lookup_insert_ne by done. exists e0.
      split; [done|apply kept_refl].
Qed.

Lemma kept_with_type_code e : kept e (with_type CODE e).
Proof. unfold kept. simpl. tauto. Qed.

Lemma kept_with_frame_none e : kept e (with_frame None e).
Proof. unfold kept. simpl. tauto. Qed.

Lemma kept_with_idx i e : kept e (with_idx i e).
Proof. unfold kept. simpl. tauto. Qed.

Lemma kept_with_is_in_swap b e : kept e (with_is_in_swap b e).
Proof. unfold kept. simpl. tauto. Qed.

#[local] Hint Resolve kept_with_type_code kept_with_frame_none kept_with_idx
  kept_with_is_in_swap : wpdb.

Lemma evicting_refl s : evicting s s.
Proof. split; [done|]. split; [done|apply evicts_refl]. Qed.

Lemma evicting_io s0 s s' : evicting s0 s -> only_io s s' -> evicting s0 s'.
Proof.
  intros (Hf & Hp & He) Hio. split; [|split].
  - by rewrite (only_io_frame_table _ _ Hio).
  - destruct Hio as (pd & fs & ->). done.
  - eapply evicts_trans; [done|by apply only_io_evicts].
Qed.

Lemma only_io_evicting s s' : only_io s s' -> evicting s s'.
Proof. intros H. eapply evicting_io; [apply evicting_refl|done]. Qed.

Lemma assign_evicting fte f s0 s :
  evicting s0 s ->
  fte ∈ frame_table s0 ->
  (forall e, kept e (f e)) ->
  wp Partial (assign (fte_spte fte.2) f) (fun _ s' => evicting s0 s') s.
Proof.
  intros (Hf & Hp & He) Hin Hk. unfold assign, store. wp_steps.
  split; [done|]. split; [done|].
  eapply evicts_trans; [done|]. apply evicts_assign; [done| |done].
  exists fte. by rewrite Hf.
Qed.

Lemma write_to_disk_evicting spte s0 s :
  evicting s0 s ->
  wp Partial (write_to_disk spte) (fun _ s' => evicting s0 s') s.
Proof.
  intros H. eapply wp_mono; [apply write_to_disk_io|].
  intros b s' Hio. by eapply evicting_io.
Qed.

Lemma swap_out_evicting spte s0 s :
  evicting s0 s ->
  wp Partial (swap_out spte) (fun _ s' => evicting s0 s') s.
Proof.
  intros (Hf & Hp & He). unfold swap_out. by wp_steps.
Qed.

Lemma clear_frame_entry_evicts fte s0 s :
  evicting s0 s ->
  wp Partial (clear_frame_entry fte)
     (fun _ s' => frame_table s' = list_remove fte.1 (frame_table s0) /\
                  user_pool s' = release_if (fte_frame fte.2) (user_pool s0) /\
                  evicts s0 s') s.
Proof.
  intros (Hf & Hu & He).
  unfold clear_frame_entry, pagedir_clear_page, palloc_free_page, release_if.
  wp_steps; proj_simpl; rewrite <- Hu;
    repeat match goal with
           | H : page_from_pool (user_pool s) _ = _ |- _ => rewrite H; clear H
           end;
    (split; [by rewrite Hf|]); (split; [done|]);
    (eapply evicts_trans; [exact He|]); repeat split; proj_simpl; auto;
    try (intros x Hx; by eapply elem_of_list_remove);
    intros p e0 Hp; exists e0; (split; [done|apply kept_refl]).
Qed.

#[local] Hint Resolve assign_evicting write_to_disk_evicting swap_out_evicting
  clear_frame_entry_evicts evicting_refl only_io_evicting : wpdb.

Lemma evict_frame_evicts fte s :
  fte ∈ frame_table s ->
  wp Partial (evict_frame fte)
     (fun r s' => r = true /\
                  frame_table s' = list_remove fte.1 (frame_table s) /\
                  user_pool s' = release_if (fte_frame fte.2) (user_pool s) /\
                  evicts s s') s.
Proof.
  intros Hin. unfold evict_frame, evict_code, pagedir_is_dirty.
  wp_steps; try done.
Qed.

(** *** Frame allocation *)

Section Alloc.

Context (K : kconsts).

Lemma palloc_get_page_evicts flags s :
  wp Partial (palloc_get_page K flags)
     (fun _ s' => frame_table s' = frame_table s /\ evicts s s') s.
Proof.
  unfold palloc_get_page. wp_steps; split; try done; by apply evicts_same.
Qed.

Lemma evict_until_frame_evicts fuel flags : forall s,
  wp Partial (evict_until_frame K fuel flags) (fun _ s' => evicts s s') s.
Proof.
  induction fuel as [|fuel IH]; intros s; simpl; [done|].
  wp_steps.
  eapply wp_mono; [apply get_victim_frame_spec|]. cbv beta.
  intros a s1 [Hio Hr]. destruct a as [fte|]; [|by wp_steps].
  destruct Hr as [Hin _].
  rewrite <- (only_io_frame_table _ _ Hio) in Hin.
  wp_steps.
  eapply wp_mono; [by apply evict_frame_evicts|]. cbv beta.
  intros r s2 (-> & Hft & _ & Hev).
  apply wp_bind. eapply wp_mono; [apply palloc_get_page_evicts|]. cbv beta.
  intros fr s3 [Hft3 Hev3].
  assert (evicts s s3) as Hall.
  { eapply evicts_trans; [by apply only_io_evicts|].
    eapply evicts_trans; [exact Hev|exact Hev3]. }
  destruct fr as [fr|]; [by wp_steps|].
  eapply wp_mono; [apply IH|]. cbv beta. intros fr s4 Hev4.
  by eapply evicts_trans.
Qed.

Lemma frame_alloc_evicts flags s :
  wp Partial (frame_alloc K flags) (fun _ s' => evicts s s') s.
Proof.
  unfold frame_alloc. wp_step; [by wp_steps; apply evicts_refl|].
  apply wp_bind. eapply wp_mono; [apply palloc_get_page_evicts|]. cbv beta.
  intros fr s1 [_ Hev]. destruct fr as [fr|]; [by wp_steps|].
  wp_steps. eapply wp_mono; [apply evict_until_frame_evicts|]. cbv beta.
  intros fr s2 Hev2. wp_steps. by eapply evicts_trans.
Qed.

#[local] Hint Resolve frame_alloc_evicts : wpdb.

Lemma evicts_lives_on s s' : evicts s s' -> lives_on s s'.
Proof. intros (?&?&?&?&?&?). by repeat split. Qed.

Lemma install_load_swap_failure sp s :
  wp Partial (install_load_swap K sp)
     (fun r s' => r = false -> lives_on s s') s.
Proof.
  unfold install_load_swap, get_frame_for_page, add_to_frame_table, malloc,
    install_page, pagedir_get_page, pagedir_set_page, free_frame,
    palloc_free_page, assign, store, swap_in.
  wp_steps; try done; intros _;
    match goal with H : evicts _ _ |- _ => by apply evicts_lives_on in H end.
Qed.

Lemma install_load_file_failure sp s :
  wp Partial (install_load_file K sp)
     (fun r s' => r = false -> lives_on s s') s.
Proof.
  unfold install_load_file, get_frame_for_page, add_to_frame_table, malloc,
    install_page, pagedir_get_page, pagedir_set_page, free_frame,
    palloc_free_page, assign, store, file_seek, file_read.
  wp_steps; try done; intros _;
    match goal with H : evicts _ _ |- _ => by apply evicts_lives_on in H end.
Qed.

Lemma install_load_page_failure sp s :
  wp Partial (install_load_page K sp)
     (fun r s' => r = false -> lives_on s s') s.
Proof.
  unfold install_load_page, install_load_mmap.
  wp_steps; auto using install_load_swap_failure, install_load_file_failure.
Qed.

Lemma malloc_fresh s :
  heap s !! fresh (dom (heap s) ∪ list_to_set (frame_table s).*1) = None.
Proof.
  apply not_elem_of_dom. intros Hin.
  apply (is_fresh (dom (heap s) ∪ list_to_set (frame_table s).*1)).
  set_solver.
Qed.

(** C10 (corrected): past the bound test [grow_stack] first creates a
    [CODE] entry for the page and only then loads it; when the load fails
    the call returns false, the entry created, not resident, stays in
    memory, and it is in the supplemental page table of the thread exactly
    when the page had no entry before: a page that had one keeps it, and
    the table is as it was. *)
Theorem grow_stack_leaves_entry_on_failed_load uaddr pin s s' :
  (wrap32 (MAX_STACK_SIZE K) <? wrap32 (PHYS_BASE - uaddr)) = false ->
  grow_stack K uaddr pin s = Ok false s' ->
  exists p e s1,
    heap s !! p = None /\
    install_load_page K p s1 = Ok false s' /\
    supp_page_table s1 = supp_page_table s' /\
    heap s' !! p = Some e /\
    type e = CODE /\ upage e = pg_round_down uaddr /\
    frame e = None /\ pinned e = pin /\
    supp_page_table s' =
      match supp_page_table s !! (cur s, pg_round_down uaddr) with
      | None => <[(cur s, pg_round_down uaddr) := p]> (supp_page_table s)
      | Some _ => supp_page_table s
      end.
Proof.
  intros Hbound. unfold grow_stack. rewrite Hbound.
  unfold create_spte_code, create_spte, malloc, hash_insert, assign, store.
  exec.
  set (p := fresh (dom (heap s) ∪ list_to_set (frame_table s).*1)).
  assert (forall s1 : state,
            heap s1 !! p =
              Some (with_pinned pin
                      (with_upage (pg_round_down uaddr)
                         (with_type CODE
                            (with_pinned false
                               (with_idx BITMAP_ERROR
                                  (with_is_in_swap false
                                     (with_upage 0
                                        (with_frame None (junk s))))))))) ->
            install_load_page K p s1 = Ok false s' ->
            exists e,
              supp_page_table s1 = supp_page_table s' /\
              heap s' !! p = Some e /\
              type e = CODE /\ upage e = pg_round_down uaddr /\
              frame e = None /\ pinned e = pin) as Hfail.
  { intros s1 Hp Hload.
    pose proof (install_load_page_failure p s1) as Hspec.
    eapply wp_Ok in Hspec; [|exact Hload].
    destruct (Hspec eq_refl) as (Hspt & Hcur & Hkept).
    destruct (Hkept p _ Hp) as (e1 & He1 & Hk).
    destruct Hk as (Hu & Hpin & _ & _ & _ & _ & _ & Ht & Hf).
    exists e1. cbn in Hu, Hpin, Ht, Hf. repeat split; try done.
    - by destruct Ht.
    - by destruct Hf. }
  destruct (supp_page_table s !! (cur s, pg_round_down uaddr)) eqn:Hold;
    exec; intros Hload;
    (edestruct Hfail as (e & Hspt & He & Hrest);
     [|exact Hload|]; [proj_simpl; apply lookup_insert_eq|]);
    exists p, e; eexists; (split; [apply malloc_fresh|]);
    (split; [exact Hload|]); (split; [exact Hspt|]); (split; [exact He|]);
    destruct Hrest as (? & ? & ? & ?); repeat split; try done;
    by rewrite <- Hspt.
Qed.

End Alloc.

Lemma grow_stack_leaves_entry_on_failed_load_witness :
  exists p e s1,
    heap no_page_table !! p = None /\
    install_load_page stock p s1 =
      Ok false (run (grow_stack stock 0xBFFFFFEC true) no_page_table) /\
    supp_page_table s1 =
      supp_page_table (run (grow_stack stock 0xBFFFFFEC true) no_page_table) /\
    heap (run (grow_stack stock 0xBFFFFFEC true) no_page_table) !! p = Some e /\
    type e = CODE /\ upage e = pg_round_down 0xBFFFFFEC /\
    frame e = None /\ pinned e = true /\
    supp_page_table (run (grow_stack stock 0xBFFFFFEC true) no_page_table) =
      match supp_page_table no_page_table
              !! (cur no_page_table, pg_round_down 0xBFFFFFEC) with
      | None => <[(cur no_page_table, pg_round_down 0xBFFFFFEC) := p]>
                  (supp_page_table no_page_table)
      | Some _ => supp_page_table no_page_table
      end.
Proof.
  apply (grow_stack_leaves_entry_on_failed_load stock 0xBFFFFFEC true
           no_page_table
           (run (grow_stack stock 0xBFFFFFEC true) no_page_table));
    vm_compute; reflexivity.
Defined.

(** C10, counterexample: the page 0xBFFFF000 of thread 1 has a resident
    entry, 0.  [grow_stack] on an address of that page passes the bound
    test, creates the entry 4 and fails to load it, the page being mapped;
    it returns false, the table is as before and still gives entry 0 for
    the page, and the new entry, not resident, is in no table. *)
Lemma grow_stack_failed_load_keeps_old_entry :
  (wrap32 (MAX_STACK_SIZE stock) <? wrap32 (PHYS_BASE - 0xBFFFFFEC)) = false /\
  map_to_list (supp_page_table pinned_then_free) =
    [((1, 0xBFFFF000), 0); ((1, 0xBFFFE000), 2)] /\
  heap pinned_then_free !! 4 = None /\
  exists s',
    grow_stack stock 0xBFFFFFEC true pinned_then_free = Ok false s' /\
    supp_page_table s' = supp_page_table pinned_then_free /\
    supp_page_table s' !! (1, 0xBFFFF000) = Some 0 /\
    (exists e, heap s' !! 4 = Some e /\ type e = CODE /\
               upage e = 0xBFFFF000 /\ frame e = None).
Proof.
  split; [by vm_compute|]. split; [by vm_compute|]. split; [by vm_compute|].
  eexists. split; [by vm_compute|]. split; [by vm_compute|].
  split; [by vm_compute|]. eexists. split; [by vm_compute|]. by vm_compute.
Qed.

(** *** Allocation returns or panics *)

Lemma copy_from_user_zero pages va n s :
  n <= 0 -> copy_from_user pages va n s = Ok [] s.
Proof.
  intros Hn. destruct pages; simpl; [done|].
  destruct (Z.leb_spec n 0); [done|lia].
Qed.

Lemma copy_from_user_safe pages va n s :
  n <= PGSIZE - (va - pg_round_down va) ->
  (0 < n -> is_Some (pagedir s !! (cur s, pg_round_down va))) ->
  wp Strict (copy_from_user pages va n) (fun _ _ => True) s.
Proof.
  intros Hn Hmap. destruct pages as [|k]; simpl; [done|].
  destruct (Z.leb_spec n 0) as [|Hpos]; [done|].
  destruct (Hmap Hpos) as [pte Hpte].
  unfold wp, pagedir_get_page, pagedir_set_accessed. exec. rewrite Hpte.
  simpl. exec. rewrite Z.min_l by done. rewrite Z.sub_diag.
  unfold bind. by rewrite copy_from_user_zero.
Qed.

Lemma write_to_disk_safe spte e s :
  heap s !! spte = Some e ->
  within_page e ->
  wp Strict (write_to_disk spte) (fun _ s' => only_io s s') s.
Proof.
  intros He Hw. apply wp_strict_partial; [|apply write_to_disk_io].
  unfold write_to_disk, pagedir_is_dirty, file_write_at.
  wp_steps; try done.
  eapply wp_mono; [apply copy_from_user_safe|].
  - done.
  - intros _. by destruct (pagedir s !! _).
  - cbv beta. intros bytes s1 _. by wp_steps.
Qed.

Lemma node_ok_heap s s' n : heap s' = heap s -> node_ok s n -> node_ok s' n.
Proof. intros Hh (e & He & Hw). exists e. by rewrite Hh. Qed.

Lemma Forall_node_ok_io s s' l :
  only_io s s' -> Forall (node_ok s) l -> Forall (node_ok s') l.
Proof.
  intros Hio Hall. eapply Forall_impl; [exact Hall|].
  intros n. apply node_ok_heap. by apply only_io_heap.
Qed.

Lemma type_not_code e : negb (bool_decide (type e = CODE)) = true -> type e <> CODE.
Proof. intros H Heq. by rewrite bool_decide_eq_true_2 in H. Qed.

Lemma victim_phase1_safe l : forall s,
  Forall (node_ok s) l -> wp Strict (victim_phase1 l) (fun _ _ => True) s.
Proof.
  induction l as [|fte l IH]; intros s Hall; simpl; [done|].
  apply Forall_cons in Hall as [(e & He & Hw) Hall].
  unfold pagedir_is_dirty, pagedir_is_accessed, pagedir_set_dirty.
  wp_steps; try done; try by apply IH.
  eapply wp_mono.
  { eapply write_to_disk_safe; [done|]. by apply Hw, type_not_code. }
  cbv beta. intros ok s1 Hio. wp_steps; apply IH;
    (eapply Forall_node_ok_io; [|done]); solve_io.
Qed.

Lemma victim_phase2_safe l : forall s,
  Forall (node_ok s) l -> wp Strict (victim_phase2 l) (fun _ _ => True) s.
Proof.
  induction l as [|fte l IH]; intros s Hall; simpl; [done|].
  apply Forall_cons in Hall as [(e & He & Hw) Hall].
  unfold pagedir_is_dirty, pagedir_is_accessed, pagedir_set_accessed.
  wp_steps; try done; apply IH; done.
Qed.

Lemma victim_phase3_safe l : forall s,
  Forall (node_ok s) l -> wp Strict (victim_phase3 l) (fun _ _ => True) s.
Proof.
  induction l as [|fte l IH]; intros s Hall; simpl; [done|].
  apply Forall_cons in Hall as [(e & He & Hw) Hall].
  wp_steps; try done; by apply IH.
Qed.

Lemma get_victim_frame_safe s :
  frame_table_ok s ->
  wp Strict get_victim_frame
     (fun r s' => only_io s s' /\ unpinned_node (frame_table s) s' r) s.
Proof.
  intros Hok. apply wp_strict_partial; [|apply get_victim_frame_spec].
  unfold get_victim_frame. wp_steps.
  eapply wp_mono;
    [apply wp_strict_partial;
       [by apply victim_phase1_safe|apply victim_phase1_spec]|].
  cbv beta. intros r1 s1 [Hio1 _]. destruct r1; [done|].
  wp_steps.
  eapply wp_mono;
    [apply wp_strict_partial;
       [apply victim_phase2_safe|apply victim_phase2_spec]|].
  { by eapply Forall_node_ok_io. }
  cbv beta. intros r2 s2 [Hio2 _]. destruct r2; [done|].
  wp_steps.
  eapply wp_mono; [apply victim_phase3_safe|done].
  eapply Forall_node_ok_io; [|exact Hok]. solve_io.
Qed.

Lemma assign_safe p f e s :
  heap s !! p = Some e ->
  wp Strict (assign p f)
     (fun _ s' => s' = upd_heap (<[p := f e]>) s) s.
Proof. intros He. unfold wp, assign, store. by exec. Qed.

Lemma clear_frame_entry_safe fte e s :
  heap s !! fte_spte fte.2 = Some e ->
  wp Strict (clear_frame_entry fte) (fun _ _ => True) s.
Proof.
  intros He. unfold clear_frame_entry, pagedir_clear_page, palloc_free_page.
  by wp_steps.
Qed.

Lemma evict_frame_safe fte s :
  node_ok s fte -> wp Strict (evict_frame fte) (fun _ _ => True) s.
Proof.
  intros (e & He & Hw).
  unfold evict_frame, evict_code, swap_out, pagedir_is_dirty, assign, store,
    clear_frame_entry, pagedir_clear_page, palloc_free_page.
  wp_steps; try done.
  eapply wp_mono.
  { eapply write_to_disk_safe; [done|]. by apply Hw. }
  cbv beta. intros ok s1 (pd & fs & ->). by wp_steps.
Qed.

Lemma node_ok_evicts s s' n : evicts s s' -> node_ok s n -> node_ok s' n.
Proof.
  intros (_ & _ & _ & _ & _ & Hk) (e & He & Hw).
  destruct (Hk _ _ He) as (e1 & He1 & Hu & _ & _ & _ & _ & Hr & _ & Ht & _).
  exists e1. split; [done|]. intros Hne.
  destruct Ht as [Ht|Ht]; [|done].
  unfold within_page in *. rewrite Hu, Hr. apply Hw. congruence.
Qed.

Lemma length_list_remove (fte : fte_node) l :
  fte ∈ l -> S (length (list_remove fte.1 l)) = length l.
Proof.
  induction l as [|n l IH]; simpl.
  - by intros ?%elem_of_nil.
  - intros Hin. destruct (decide (n.1 = fte.1)); [done|].
    apply elem_of_cons in Hin as [->|Hin]; [done|].
    simpl. by rewrite IH.
Qed.

Lemma wp_strict_cases {A} (m : M A) Q s :
  wp Strict m Q s ->
  (exists a s', m s = Ok a s' /\ Q a s') \/ (exists why, m s = Panic why).
Proof.
  unfold wp. destruct (m s) as [a s'|why| | |]; try done.
  - left. by exists a, s'.
  - right. by exists why.
Qed.

Section Total.

Context (K : kconsts).

Lemma palloc_get_page_safe flags s :
  wp Strict (palloc_get_page K flags)
     (fun _ s' => frame_table s' = frame_table s /\ evicts s s') s.
Proof.
  apply wp_strict_partial; [|apply palloc_get_page_evicts].
  unfold palloc_get_page. by wp_steps.
Qed.

Lemma evict_until_frame_safe fuel flags : forall s,
  frame_table_ok s ->
  (length (frame_table s) < fuel)%nat ->
  wp Strict (evict_until_frame K fuel flags) (fun _ s' => evicts s s') s.
Proof.
  induction fuel as [|fuel IH]; intros s Hok Hlen; simpl; [lia|].
  wp_steps.
  eapply wp_mono; [by apply get_victim_frame_safe|]. cbv beta.
  intros [fte|] s1 [Hio Hr]; [|done]. destruct Hr as (Hin & e & He & _).
  assert (node_ok s1 fte) as Hnode.
  { eapply node_ok_heap; [by apply only_io_heap|].
    unfold frame_table_ok in Hok. rewrite Forall_forall in Hok. auto. }
  rewrite <- (only_io_frame_table _ _ Hio) in Hin.
  wp_steps.
  eapply wp_mono.
  { apply wp_strict_partial;
      [by apply evict_frame_safe|by apply evict_frame_evicts]. }
  cbv beta. intros r s2 (-> & Hft & _ & Hev).
  apply wp_bind. eapply wp_mono; [apply palloc_get_page_safe|]. cbv beta.
  intros fr s3 [Hft3 Hev3].
  assert (evicts s s3) as Hall.
  { eapply evicts_trans; [by apply only_io_evicts|].
    eapply evicts_trans; [exact Hev|exact Hev3]. }
  destruct fr as [fr|]; [by wp_steps|].
  eapply wp_mono; [apply IH|].
  - unfold frame_table_ok. rewrite Forall_forall. intros n Hn.
    eapply node_ok_evicts; [exact Hall|].
    unfold frame_table_ok in Hok. rewrite Forall_forall in Hok.
    apply Hok. by apply Hall.
  - rewrite Hft3, Hft. pose proof (length_list_remove _ _ Hin) as Hl.
    rewrite (only_io_frame_table _ _ Hio) in Hl |- *. lia.
  - cbv beta. intros fr s4 Hev4. by eapply evicts_trans.
Qed.

Lemma frame_alloc_safe flags s :
  frame_table_ok s ->
  pal_user_guard K flags = false ->
  wp Strict (frame_alloc K flags) (fun r s' => is_Some r /\ evicts s s') s.
Proof.
  intros Hok Hg. unfold frame_alloc. rewrite Hg.
  apply wp_bind. eapply wp_mono; [apply palloc_get_page_safe|]. cbv beta.
  intros fr s1 [Hft Hev]. destruct fr as [fr|]; [by wp_steps|].
  wp_steps. eapply wp_mono; [apply evict_until_frame_safe|].
  - unfold frame_table_ok in *. rewrite Hft.
    eapply Forall_impl; [exact Hok|]. intros n. by apply node_ok_evicts.
  - lia.
  - cbv beta. intros fr s2 Hev2. wp_steps. split; [done|].
    by eapply evicts_trans.
Qed.

Lemma get_frame_for_page_safe flags sp s :
  frame_table_ok s ->
  pal_user_guard K flags = false ->
  is_Some (heap s !! sp) ->
  wp Strict (get_frame_for_page K flags (Some sp))
     (fun r _ => is_Some r) s.
Proof.
  intros Hok Hg [e He]. unfold get_frame_for_page. rewrite Hg.
  apply wp_bind. eapply wp_mono; [by apply frame_alloc_safe|]. cbv beta.
  intros r s1 [[fr ->] Hev].
  destruct Hev as (_ & _ & _ & _ & _ & Hk).
  destruct (Hk _ _ He) as (e1 & He1 & _).
  unfold add_to_frame_table, malloc. by wp_steps.
Qed.

(** C9 (confirmed): with a [USER] bit that is not zero the guard written
    [flags & PAL_USER == 0] is false for every [flags], so neither
    [frame_alloc] nor [get_frame_for_page] rejects a request for want of
    the bit; on a well-formed frame list and a live entry,
    [get_frame_for_page] returns a frame or panics, and so does
    [frame_alloc]. *)
Theorem get_frame_for_page_never_rejects flags sp s :
  PAL_USER K <> 0 ->
  frame_table_ok s ->
  is_Some (heap s !! sp) ->
  pal_user_guard K flags = false /\
  ((exists fr s', frame_alloc K flags s = Ok (Some fr) s') \/
   (exists why, frame_alloc K flags s = Panic why)) /\
  ((exists fr s', get_frame_for_page K flags (Some sp) s = Ok (Some fr) s') \/
   (exists why, get_frame_for_page K flags (Some sp) s = Panic why)).
Proof.
  intros Hu Hok He.
  assert (pal_user_guard K flags = false) as Hg.
  { unfold pal_user_guard. destruct (Z.eqb_spec (PAL_USER K) 0); [done|].
    by rewrite Z.land_0_r. }
  split; [done|]. split.
  - destruct (wp_strict_cases _ _ _ (frame_alloc_safe flags s Hok Hg))
      as [(r & s' & Hr & [fr ->] & _)|Hp]; eauto.
  - destruct (wp_strict_cases _ _ _
                (get_frame_for_page_safe flags sp s Hok Hg He))
      as [(r & s' & Hr & [fr ->])|Hp]; eauto.
Qed.

End Total.

Lemma get_frame_for_page_never_rejects_witness :
  pal_user_guard stock 0 = false /\
  ((exists fr s', frame_alloc stock 0 pinned_then_free = Ok (Some fr) s') \/
   (exists why, frame_alloc stock 0 pinned_then_free = Panic why)) /\
  ((exists fr s',
      get_frame_for_page stock 0 (Some 0) pinned_then_free = Ok (Some fr) s') \/
   (exists why,
      get_frame_for_page stock 0 (Some 0) pinned_then_free = Panic why)).
Proof.
  apply get_frame_for_page_never_rejects.
  - vm_compute. discriminate.
  - unfold frame_table_ok.
    assert (frame_table pinned_then_free =
            [(1, Fte 0xC0280000 0 1); (3, Fte 0xC0281000 2 1)]) as ->
      by (vm_compute; reflexivity).
    repeat constructor;
      (eexists; split; [vm_compute; reflexivity|]); by intros [].
  - eexists. vm_compute. reflexivity.
Defined.

(** *** Frame accounting *)

Lemma pool_frame_in_range p page b :
  pool_frame p page b -> page_from_pool p page = true.
Proof.
  intros (i & -> & Hi). apply lookup_lt_Some in Hi.
  unfold page_from_pool, PGSIZE. apply andb_true_iff. split.
  - apply Z.leb_le. lia.
  - apply Z.ltb_lt. lia.
Qed.

Lemma pool_frame_index p i :
  Z.to_nat ((pool_base p + PGSIZE * Z.of_nat i - pool_base p) / PGSIZE) = i.
Proof.
  replace (pool_base p + PGSIZE * Z.of_nat i - pool_base p)
    with (Z.of_nat i * PGSIZE) by lia.
  rewrite Z.div_mul by done. lia.
Qed.

Lemma pool_frame_inj p i j :
  pool_base p + PGSIZE * Z.of_nat i = pool_base p + PGSIZE * Z.of_nat j ->
  i = j.
Proof. unfold PGSIZE. lia. Qed.

Lemma pool_frame_release p page :
  pool_frame p page true -> pool_frame (pool_release page p) page false.
Proof.
  intros (i & -> & Hi). exists i. split; [done|].
  unfold pool_release. cbn. rewrite pool_frame_index.
  apply list_lookup_insert_eq. by apply lookup_lt_Some in Hi.
Qed.

Lemma pool_frame_release_other p page pg b :
  pool_frame p page true -> pg <> page ->
  pool_frame p pg b -> pool_frame (pool_release page p) pg b.
Proof.
  intros (i & -> & Hi) Hne (j & -> & Hj). exists j. split; [done|].
  unfold pool_release. cbn. rewrite pool_frame_index.
  rewrite list_lookup_insert_ne; [done|]. intros ->. done.
Qed.

Lemma pool_frame_take p i :
  bitmap_scan (used_map p) = Some i ->
  pool_frame p (pool_base p + PGSIZE * Z.of_nat i) false /\
  pool_frame (pool_take i p) (pool_base p + PGSIZE * Z.of_nat i) true /\
  (forall pg, pool_frame p pg true -> pool_frame (pool_take i p) pg true).
Proof.
  intros Hscan. pose proof (bitmap_scan_free _ _ Hscan) as Hfree.
  pose proof (bitmap_scan_lt _ _ Hscan) as Hlt.
  split; [by exists i|]. split.
  - exists i. split; [done|]. by apply list_lookup_insert_eq.
  - intros pg (j & -> & Hj). exists j. split; [done|].
    unfold pool_take. cbn. rewrite list_lookup_insert_ne; [done|].
    intros ->. congruence.
Qed.

Lemma pool_frame_fun p page b1 b2 :
  pool_frame p page b1 -> pool_frame p page b2 -> b1 = b2.
Proof.
  intros (i & -> & Hi) (j & Hj & Hb). apply pool_frame_inj in Hj as <-.
  congruence.
Qed.

Lemma NoDup_fmap_list_remove {B} (f : fte_node -> B) p l :
  NoDup (f <$> l) -> NoDup (f <$> list_remove p l).
Proof.
  induction l as [|x l IH]; simpl; [done|].
  intros [Hx Hl]%NoDup_cons. destruct (decide (x.1 = p)); [done|].
  simpl. apply NoDup_cons. split; [|by apply IH].
  intros (y & Hy & Hin)%list_elem_of_fmap. apply Hx.
  apply list_elem_of_fmap. exists y. split; [done|].
  by eapply elem_of_list_remove.
Qed.

Lemma elem_of_list_remove_ne (n : fte_node) p l :
  NoDup l.*1 -> n ∈ list_remove p l -> n.1 <> p.
Proof.
  induction l as [|x l IH]; simpl; [by intros _ ?%elem_of_nil|].
  intros [Hx Hl]%NoDup_cons. destruct (decide (x.1 = p)) as [<-|Hne].
  - intros Hin Heq. apply Hx. rewrite <- Heq.
    apply list_elem_of_fmap. by exists n.
  - intros [->|Hin]%elem_of_cons; [done|by apply IH].
Qed.

Lemma NoDup_fmap_elem_inj {B} (f : fte_node -> B) l x y :
  NoDup (f <$> l) -> x ∈ l -> y ∈ l -> f x = f y -> x = y.
Proof.
  induction l as [|z l IH]; simpl; [by intros _ ?%elem_of_nil|].
  intros [Hz Hl]%NoDup_cons Hx Hy Heq.
  apply elem_of_cons in Hx as [->|Hx]; apply elem_of_cons in Hy as [->|Hy];
    [done| | |by apply IH].
  - exfalso. apply Hz. rewrite Heq. apply list_elem_of_fmap. by exists y.
  - exfalso. apply Hz. rewrite <- Heq. apply list_elem_of_fmap. by exists x.
Qed.

(** Unlinking a node and freeing its frame keeps the accounting. *)
Lemma frames_ok_remove ft up (fte : fte_node) :
  NoDup ft.*1 ->
  NoDup ((fun n : fte_node => fte_frame n.2) <$> ft) ->
  (forall n, n ∈ ft -> pool_frame up (fte_frame n.2) true) ->
  fte ∈ ft ->
  NoDup (list_remove fte.1 ft).*1 /\
  NoDup ((fun n : fte_node => fte_frame n.2) <$> list_remove fte.1 ft) /\
  (forall n, n ∈ list_remove fte.1 ft ->
             pool_frame (release_if (fte_frame fte.2) up) (fte_frame n.2) true).
Proof.
  intros Ha Hf Hu Hin. split; [by apply NoDup_fmap_list_remove|].
  split; [by apply NoDup_fmap_list_remove|].
  intros n Hn. pose proof (elem_of_list_remove_ne _ _ _ Ha Hn) as Hne.
  apply elem_of_list_remove in Hn.
  unfold release_if. rewrite (pool_frame_in_range _ _ _ (Hu _ Hin)).
  apply pool_frame_release_other; auto.
  intros Heq. apply Hne. f_equal.
  by apply (NoDup_fmap_elem_inj _ _ _ _ Hf Hn Hin).
Qed.

Lemma evict_frame_frames_ok fte s :
  frames_ok s -> fte ∈ frame_table s ->
  wp Partial (evict_frame fte)
     (fun _ s' => frames_ok s' /\ evicts s s') s.
Proof.
  intros (Ha & Hf & Hu) Hin.
  eapply wp_mono; [by apply evict_frame_evicts|]. cbv beta.
  intros r s' (_ & Hft & Hup & Hev). split; [|done].
  unfold frames_ok. rewrite Hft, Hup. by apply frames_ok_remove.
Qed.

Section Accounting.

Context (K : kconsts).

Lemma palloc_get_page_user flags s :
  user_flags K flags -> frames_ok s ->
  wp Partial (palloc_get_page K flags)
     (fun r s' =>
        match r with
        | Some fr => alloc_post fr s s'
        | None => frames_ok s' /\ evicts s s'
        end) s.
Proof.
  intros Hflags (Ha & Hf & Hu). unfold palloc_get_page, user_flags in *.
  destruct (Z.eqb_spec (Z.land flags (PAL_USER K)) 0) as [|_]; [done|].
  cbn [negb].
  wp_steps; try (split; [done|by apply evicts_same]);
    destruct (pool_frame_take _ _ Heqo) as (Hfree & Hused & Hkeep);
    (split; [by apply evicts_same|]);
    (split; [by repeat split; proj_simpl; auto|]);
    (split; [done|]);
    intros nd Hn Heq; specialize (Hu nd Hn); rewrite Heq in Hu;
    by pose proof (pool_frame_fun _ _ _ _ Hfree Hu).
Qed.

Lemma alloc_post_trans fr s s1 s2 :
  evicts s s1 -> alloc_post fr s1 s2 -> alloc_post fr s s2.
Proof.
  intros Hev (Hev' & Hok & Hu & Hn). split; [by eapply evicts_trans|done].
Qed.

Lemma frames_ok_io s s' : only_io s s' -> frames_ok s -> frames_ok s'.
Proof. by intros (pd & fs & ->). Qed.

Lemma evict_until_frame_alloc fuel flags : forall s,
  user_flags K flags -> frames_ok s ->
  wp Partial (evict_until_frame K fuel flags)
     (fun fr s' => alloc_post fr s s') s.
Proof.
  induction fuel as [|fuel IH]; intros s Hflags Hok; simpl; [done|].
  wp_steps.
  eapply wp_mono; [apply get_victim_frame_spec|]. cbv beta.
  intros a s1 [Hio Hr]. destruct a as [fte|]; [|by wp_steps].
  destruct Hr as [Hin _].
  rewrite <- (only_io_frame_table _ _ Hio) in Hin.
  pose proof (frames_ok_io _ _ Hio Hok) as Hok1.
  wp_steps.
  eapply wp_mono; [by apply evict_frame_frames_ok|]. cbv beta.
  intros r s2 [Hok2 Hev2].
  assert (evicts s s2) as Hev
    by (eapply evicts_trans; [by apply only_io_evicts|done]).
  destruct r; [|by wp_steps].
  apply wp_bind. eapply wp_mono; [by apply palloc_get_page_user|]. cbv beta.
  intros [fr|] s3 Hpost.
  - wp_steps. by eapply alloc_post_trans.
  - destruct Hpost as [Hok3 Hev3].
    eapply wp_mono; [by apply IH|]. cbv beta. intros fr s4 Hpost.
    eapply alloc_post_trans; [|exact Hpost]. by eapply evicts_trans.
Qed.

Lemma frame_alloc_alloc flags s :
  user_flags K flags -> frames_ok s ->
  wp Partial (frame_alloc K flags)
     (fun r s' => forall fr, r = Some fr -> alloc_post fr s s') s.
Proof.
  intros Hflags Hok. unfold frame_alloc. wp_step; [by wp_steps|].
  apply wp_bind. eapply wp_mono; [by apply palloc_get_page_user|]. cbv beta.
  intros [fr|] s1 Hpost.
  - wp_steps. by intros ? [= <-].
  - destruct Hpost as [Hok1 Hev1]. wp_steps.
    eapply wp_mono; [by apply evict_until_frame_alloc|]. cbv beta.
    intros fr s2 Hpost. wp_steps. intros ? [= <-].
    by eapply alloc_post_trans.
Qed.

Lemma get_frame_for_page_alloc flags sp s :
  user_flags K flags -> frames_ok s ->
  wp Partial (get_frame_for_page K flags (Some sp))
     (fun r s' =>
        forall fr, r = Some fr ->
        exists s1 p,
          alloc_post fr s s1 /\ (p ∉ (frame_table s1).*1) /\
          s' = upd_frame_table (fun l => l ++ [(p, Fte fr sp (cur s1))]) s1) s.
Proof.
  intros Hflags Hok. unfold get_frame_for_page. wp_step; [by wp_steps|].
  apply wp_bind. eapply wp_mono; [by apply frame_alloc_alloc|]. cbv beta.
  intros [fr|] s1 Hpost; [|by wp_steps]. specialize (Hpost fr eq_refl).
  unfold add_to_frame_table, malloc. wp_steps. intros ? [= <-].
  eexists s1, _. split; [done|]. split; [|done].
  intros Hin.
  apply (is_fresh (dom (heap s1) ∪ list_to_set (frame_table s1).*1)).
  apply elem_of_union_r. by apply elem_of_list_to_set.
Qed.

Lemma unlink_frame_snoc fr l (node : fte_node) :
  (forall n, n ∈ l -> fte_frame n.2 <> fr) ->
  fte_frame node.2 = fr ->
  unlink_frame fr (l ++ [node]) = l.
Proof.
  intros Hl Hn. induction l as [|x l IH]; simpl.
  - by rewrite decide_True.
  - rewrite decide_False by (apply Hl; by left).
    f_equal. apply IH. intros n Hin. apply Hl. by right.
Qed.

Lemma free_frame_spec fr s :
  wp Partial (free_frame fr)
     (fun _ s' => frame_table s' = unlink_frame fr (frame_table s) /\
                  user_pool s' = release_if fr (user_pool s) /\
                  heap s' = heap s) s.
Proof.
  unfold free_frame, palloc_free_page, release_if.
  wp_steps; proj_simpl;
    repeat match goal with
           | H : page_from_pool (user_pool s) _ = _ |- _ => rewrite H; clear H
           end; done.
Qed.

(** From the state [s2] right after a successful [get_frame_for_page], a
    path that only touches files, frame contents and page directories and
    then frees the frame ends in a state that gave the frame back. *)
Lemma frame_released_intro flags sp e s fr s1 p s2 s' :
  flags = load_flags K e ->
  get_frame_for_page K flags (Some sp) s = Ok (Some fr) s2 ->
  heap s !! sp = Some e ->
  unreferenced sp s ->
  alloc_post fr s s1 ->
  s2 = upd_frame_table (fun l => l ++ [(p, Fte fr sp (cur s1))]) s1 ->
  frame_table s' = unlink_frame fr (frame_table s2) ->
  user_pool s' = release_if fr (user_pool s2) ->
  heap s' = heap s2 ->
  frame_released K sp e s s'.
Proof.
  intros -> Hg He Hun (Hev & (Ha & Hf & Hu) & Hused & Hnot) -> Hft Hup Hh.
  proj_simpl. rewrite unlink_frame_snoc in Hft by done.
  unfold release_if in Hup.
  rewrite (pool_frame_in_range _ _ _ Hused) in Hup.
  destruct Hev as (_ & Hcur & _ & Hsub & Hkeep & _).
  eexists fr, _. split; [exact Hg|]. proj_simpl.
  split; [done|]. split.
  { eexists. split; [apply elem_of_app; right; by left|]. cbn. by rewrite Hcur. }
  rewrite Hup, Hft, Hh. split; [by apply pool_frame_release|].
  split; [done|]. split; [done|]. split.
  - unfold frames_ok. rewrite Hup, Hft. repeat split; [done|done|].
    intros n Hn. apply pool_frame_release_other; auto.
  - rewrite Hkeep; done.
Qed.

Lemma user_flags_user : PAL_USER K <> 0 -> user_flags K (PAL_USER K).
Proof. unfold user_flags. by rewrite Z.land_diag. Qed.

Lemma user_flags_user_zero :
  PAL_USER K <> 0 -> user_flags K (Z.lor (PAL_USER K) (PAL_ZERO K)).
Proof.
  unfold user_flags. intros Hu.
  replace (Z.land (Z.lor (PAL_USER K) (PAL_ZERO K)) (PAL_USER K))
    with (PAL_USER K); [done|].
  apply Z.bits_inj'. intros n _.
  rewrite Z.land_spec, Z.lor_spec.
  by destruct (Z.testbit (PAL_USER K) n), (Z.testbit (PAL_ZERO K) n).
Qed.

#[local] Hint Resolve free_frame_spec : wpdb.

Lemma install_load_file_released sp e s s' :
  PAL_USER K <> 0 -> frames_ok s -> heap s !! sp = Some e ->
  type e <> CODE -> unreferenced sp s ->
  install_load_file K sp s = Ok false s' ->
  frame_released K sp e s s'.
Proof.
  intros Hu Hok He Ht Hun H. unfold install_load_file in H.
  apply bind_Ok_inv in H as (r & s2 & Hg & H).
  pose proof (get_frame_for_page_alloc (PAL_USER K) sp s
                (user_flags_user Hu) Hok) as Hspec.
  eapply wp_Ok in Hspec; [|exact Hg].
  destruct r as [fr|]; [|done].
  destruct (Hspec fr eq_refl) as (s1 & p & Hpost & Hp & Hs2).
  assert (frame_table s' = unlink_frame fr (frame_table s2) /\
          user_pool s' = release_if fr (user_pool s2) /\
          heap s' = heap s2) as (Hft & Hup & Hh).
  { revert H. match goal with
              | |- ?m _ = _ -> _ =>
                  intros H;
                  apply (wp_Ok Partial m
                           (fun r s' =>
                              r = false ->
                              frame_table s' = unlink_frame fr (frame_table s2) /\
                              user_pool s' = release_if fr (user_pool s2) /\
                              heap s' = heap s2) s2 false s'); [|exact H|done]
              end.
    unfold file_seek, file_read, install_page, pagedir_get_page,
      pagedir_set_page, assign, store.
    wp_steps; done. }
  eapply (frame_released_intro (PAL_USER K)); try eassumption.
  unfold load_flags. by destruct (type e).
Qed.

Lemma install_load_swap_released sp e s s' :
  PAL_USER K <> 0 -> frames_ok s -> heap s !! sp = Some e ->
  type e = CODE -> unreferenced sp s ->
  install_load_swap K sp s = Ok false s' ->
  frame_released K sp e s s'.
Proof.
  intros Hu Hok He Ht Hun H. unfold install_load_swap in H.
  apply bind_Ok_inv in H as (r & s2 & Hg & H).
  pose proof (get_frame_for_page_alloc (Z.lor (PAL_USER K) (PAL_ZERO K)) sp s
                (user_flags_user_zero Hu) Hok) as Hspec.
  eapply wp_Ok in Hspec; [|exact Hg].
  destruct r as [fr|]; [|done].
  destruct (Hspec fr eq_refl) as (s1 & p & Hpost & Hp & Hs2).
  assert (frame_table s' = unlink_frame fr (frame_table s2) /\
          user_pool s' = release_if fr (user_pool s2) /\
          heap s' = heap s2) as (Hft & Hup & Hh).
  { revert H. match goal with
              | |- ?m _ = _ -> _ =>
                  intros H;
                  apply (wp_Ok Partial m
                           (fun r s' =>
                              r = false ->
                              frame_table s' = unlink_frame fr (frame_table s2) /\
                              user_pool s' = release_if fr (user_pool s2) /\
                              heap s' = heap s2) s2 false s'); [|exact H|done]
              end.
    unfold install_page, pagedir_get_page, pagedir_set_page, assign, store,
      swap_in.
    wp_steps; done. }
  eapply (frame_released_intro (Z.lor (PAL_USER K) (PAL_ZERO K)));
    try eassumption.
  unfold load_flags. by rewrite Ht.
Qed.

Lemma bind_Ok {A B} (m : M A) (k : A -> M B) s a s1 :
  m s = Ok a s1 -> bind m k s = k a s1.
Proof. unfold bind. by intros ->. Qed.

Lemma file_of_seek h f s : file_of (upd_files (<[h := f]>) s) h = f.
Proof. unfold file_of. proj_simpl. apply lookup_total_insert_eq. Qed.

(** The tail of a failing load: the frame is freed and the call returns
    false. *)
Lemma free_frame_returns {A} fr (a : A) s :
  exists s', (free_frame fr;; ret a) s = Ok a s'.
Proof.
  unfold free_frame, palloc_free_page. exec.
  destruct (page_from_pool _ _); [exec; by eexists|].
  destruct (page_from_pool _ _); exec; by eexists.
Qed.

Lemma install_page_refused e fr w s :
  install_refused e s -> install_page (upage e) fr w s = Ok false s.
Proof.
  unfold install_page, pagedir_get_page, pagedir_set_page. exec.
  intros [[pte Hpte]|Hno].
  - by rewrite Hpte.
  - destruct (pagedir s !! _); [done|]. cbn. exec.
    by rewrite decide_True.
Qed.

(** Either cause makes the load return false, from the state [s1] in
    which the allocation left the machine. *)
Lemma install_load_page_fails sp e s fr s1 :
  heap s !! sp = Some e ->
  heap s1 !! sp = Some e ->
  get_frame_for_page K (load_flags K e) (Some sp) s = Ok (Some fr) s1 ->
  (type e <> CODE /\ short_read e s1) \/ install_refused e s1 ->
  exists s', install_load_page K sp s = Ok false s'.
Proof.
  intros He He1 Hg Hcause.
  unfold install_load_page, install_load_mmap. erewrite bind_load by exact He.
  assert (forall s2, cur s2 = cur s1 -> pagedir s2 = pagedir s1 ->
                     pd_nomem s2 = pd_nomem s1 ->
                     install_refused e s1 -> install_refused e s2) as Hmove.
  { unfold install_refused. by intros s2 -> -> ->. }
  assert (type e <> CODE ->
          exists s', install_load_file K sp s = Ok false s') as Hfile.
  { intros Ht. unfold install_load_file.
    assert (load_flags K e = PAL_USER K) as Hfl
      by (unfold load_flags; by destruct (type e)).
    rewrite Hfl in Hg. rewrite (bind_Ok _ _ _ _ _ Hg).
    rewrite bool_decide_eq_true_2 by done. cbn [ASSERT]. exec.
    unfold file_seek, file_read. exec.
    rewrite !file_of_seek. cbn [f_data f_pos f_deny_write].
    fold (read_count e s1).
    destruct (Z.eqb_spec (read_count e s1) (to_int (page_read_bytes e)))
      as [Heq|Hne]; cbn [negb].
    - destruct Hcause as [[_ Hshort]|Hno]; [done|].
      exec. erewrite bind_Ok; [|apply install_page_refused; by apply Hmove].
      cbn [negb]. apply free_frame_returns.
    - apply free_frame_returns. }
  destruct (type e) eqn:Ht.
  - unfold install_load_swap.
    assert (load_flags K e = Z.lor (PAL_USER K) (PAL_ZERO K)) as Hfl
      by (unfold load_flags; by rewrite Ht).
    rewrite Hfl in Hg. rewrite (bind_Ok _ _ _ _ _ Hg).
    rewrite bool_decide_eq_true_2 by done. cbn [ASSERT]. exec.
    destruct Hcause as [[Hc _]|Hno]; [done|].
    erewrite bind_Ok; [|by apply install_page_refused].
    apply free_frame_returns.
  - by apply Hfile.
  - by apply Hfile.
Qed.

(** C6 (confirmed): when the load of an entry that no node of the frame
    list points at fails after the allocation of its frame, be it by a
    short file read or by a hardware mapping that cannot be installed,
    [install_load_page] returns false, the frame it had allocated and
    listed is free in the pool again and no longer in the frame list, and
    the entry is exactly as before, so still without a frame and with its
    backing store fields unchanged. *)
Theorem install_load_page_failure_releases_frame sp e s fr s1 :
  PAL_USER K <> 0 ->
  frames_ok s ->
  heap s !! sp = Some e ->
  unreferenced sp s ->
  get_frame_for_page K (load_flags K e) (Some sp) s = Ok (Some fr) s1 ->
  (type e <> CODE /\ short_read e s1) \/ install_refused e s1 ->
  exists s',
    install_load_page K sp s = Ok false s' /\
    frame_released K sp e s s' /\
    heap s' !! sp = Some e.
Proof.
  intros Hu Hok He Hun Hg Hcause.
  assert (user_flags K (load_flags K e)) as Hflags.
  { unfold load_flags.
    destruct (type e); auto using user_flags_user, user_flags_user_zero. }
  pose proof (get_frame_for_page_alloc (load_flags K e) sp s Hflags Hok)
    as Hspec.
  eapply wp_Ok in Hspec; [|exact Hg].
  destruct (Hspec fr eq_refl) as (s0 & p & Hpost & _ & Hs1).
  assert (heap s1 !! sp = Some e) as He1.
  { rewrite Hs1. proj_simpl. destruct Hpost as ((_ & _ & _ & _ & Hkeep & _) & _).
    by rewrite Hkeep. }
  destruct (install_load_page_fails sp e s fr s1 He He1 Hg Hcause)
    as [s' Hrun].
  exists s'. split; [done|].
  assert (frame_released K sp e s s') as Hrel.
  { revert Hrun. unfold install_load_page, install_load_mmap.
    exec. destruct (type e) eqn:Ht.
    - by apply install_load_swap_released.
    - apply install_load_file_released; auto. congruence.
    - apply install_load_file_released; auto. congruence. }
  split; [done|]. by destruct Hrel as (? & ? & _ & _ & _ & _ & _ & _ & _ & ?).
Qed.

End Accounting.

Lemma install_load_page_failure_releases_frame_witness :
  (exists s',
     install_load_page stock 0 short_file = Ok false s' /\
     frame_released stock 0
       (SptEntry FILE 0x08048000 None false false BITMAP_ERROR 10 0 false
                 200 3896)
       short_file s' /\
     heap s' !! 0 =
       Some (SptEntry FILE 0x08048000 None false false BITMAP_ERROR 10 0
                      false 200 3896)) /\
  (exists s',
     install_load_page stock 0 unbacked_stack_page = Ok false s' /\
     frame_released stock 0
       (SptEntry CODE 0xBFFFF000 None false false BITMAP_ERROR 0 0 false 0 0)
       unbacked_stack_page s' /\
     heap s' !! 0 =
       Some (SptEntry CODE 0xBFFFF000 None false false BITMAP_ERROR 0 0
                      false 0 0)).
Proof.
  split.
  - apply (install_load_page_failure_releases_frame stock 0
             (SptEntry FILE 0x08048000 None false false BITMAP_ERROR 10 0
                       false 200 3896)
             short_file 0xC0280000
             (run (get_frame_for_page stock (PAL_USER stock) (Some 0))
                  short_file)).
    + vm_compute. discriminate.
    + unfold frames_ok.
      assert (frame_table short_file = []) as -> by (vm_compute; reflexivity).
      split; [constructor|]. split; [constructor|].
      intros n Hn. by apply elem_of_nil in Hn.
    + vm_compute. reflexivity.
    + unfold unreferenced.
      assert (frame_table short_file = []) as -> by (vm_compute; reflexivity).
      intros n Hn. by apply elem_of_nil in Hn.
    + vm_compute. reflexivity.
    + left. split; [discriminate|]. vm_compute. discriminate.
  - apply (install_load_page_failure_releases_frame stock 0
             (SptEntry CODE 0xBFFFF000 None false false BITMAP_ERROR 0 0
                       false 0 0)
             unbacked_stack_page 0xC0280000
             (run (get_frame_for_page stock
                     (Z.lor (PAL_USER stock) (PAL_ZERO stock)) (Some 0))
                  unbacked_stack_page)).
    + vm_compute. discriminate.
    + unfold frames_ok.
      assert (frame_table unbacked_stack_page = []) as ->
        by (vm_compute; reflexivity).
      split; [constructor|]. split; [constructor|].
      intros n Hn. by apply elem_of_nil in Hn.
    + vm_compute. reflexivity.
    + unfold unreferenced.
      assert (frame_table unbacked_stack_page = []) as ->
        by (vm_compute; reflexivity).
      intros n Hn. by apply elem_of_nil in Hn.
    + vm_compute. reflexivity.
    + right. right. apply (bool_decide_unpack _). vm_compute. exact I.
Defined.

(** *** Teardown *)

Lemma spt_shrinks_refl s : spt_shrinks s s.
Proof. intros k. by right. Qed.

Lemma spt_shrinks_trans s1 s2 s3 :
  spt_shrinks s1 s2 -> spt_shrinks s2 s3 -> spt_shrinks s1 s3.
Proof.
  intros H12 H23 k. destruct (H23 k) as [-> | ->]; [by left|apply H12].
Qed.

Lemma spt_shrinks_delete k s : spt_shrinks s (upd_spt (delete k) s).
Proof.
  intros k'. proj_simpl. destruct (decide (k = k')) as [->|Hne].
  - left. apply lookup_delete_eq.
  - right. by apply lookup_delete_ne.
Qed.

Lemma teardown_refl s : teardown s s.
Proof. repeat split. apply spt_shrinks_refl. Qed.

Lemma teardown_trans s1 s2 s3 : teardown s1 s2 -> teardown s2 s3 -> teardown s1 s3.
Proof.
  intros (Hm & Hd & Hs) (Hm' & Hd' & Hs').
  repeat split; try congruence. by eapply spt_shrinks_trans.
Qed.

Lemma teardown_same s s' :
  swap_map s' = swap_map s -> swap_disk s' = swap_disk s ->
  supp_page_table s' = supp_page_table s -> teardown s s'.
Proof. intros Hm Hd Hs. repeat split; try done. intros k. right. by rewrite Hs. Qed.

Lemma free_spte_teardown spte s :
  wp Partial (free_spte spte) (fun _ s' => teardown s s') s.
Proof.
  unfold free_spte, free_frame, palloc_free_page, pagedir_clear_page,
    hash_delete, free.
  wp_steps;
    repeat match goal with
           | H : only_io _ _ |- _ => destruct H as (? & ? & ->)
           end;
    first
      [ apply teardown_refl
      | split; [done|]; split; [done|]; intros k'; proj_simpl;
        match goal with
        | |- context [delete ?k _] =>
            destruct (decide (k = k')) as [<-|Hne];
              [left; apply lookup_delete_eq
              |right; by apply lookup_delete_ne]
        end ].
Qed.

Lemma hash_destroy_teardown h elems : forall s,
  wp Partial (hash_destroy h elems free_spte_elem)
     (fun _ s' =>
        teardown s s' /\
        forall k p, (k, p) ∈ elems -> k.1 = h ->
                    supp_page_table s' !! k = None) s.
Proof.
  induction elems as [|[k p] elems IH]; intros s; simpl.
  { wp_steps. split; [apply teardown_refl|]. by intros k p ?%elem_of_nil. }
  apply wp_bind.
  apply (wp_mono _ _ (fun _ s1 =>
           teardown s s1 /\
           (k.1 = h -> supp_page_table s1 !! k = None))).
  - apply wp_when; intros Hk.
    + unfold hash_delete, free_spte_elem. apply wp_bind, wp_modify.
      eapply wp_mono; [apply free_spte_teardown|]. cbv beta.
      intros _ s1 Htd. split.
      * eapply teardown_trans; [|exact Htd]. repeat split.
        apply spt_shrinks_delete.
      * intros _. destruct Htd as (_ & _ & Hs).
        destruct (Hs k) as [-> | ->]; [done|]. proj_simpl.
        apply bool_decide_eq_true in Hk. destruct k as [t u].
        simpl in Hk. subst t. apply lookup_delete_eq.
    + split; [apply teardown_refl|]. intros Heq.
      by rewrite bool_decide_eq_true_2 in Hk.
  - cbv beta. intros _ s1 [Htd Hk].
    eapply wp_mono; [apply IH|]. cbv beta. intros _ s2 [Htd2 Hrest].
    split; [by eapply teardown_trans|].
    intros k' p' [[= -> ->]|Hin]%elem_of_cons Hh; [|by eapply Hrest].
    destruct Htd2 as (_ & _ & Hs). destruct (Hs k) as [-> | ->]; auto.
Qed.

(** C1 (corrected): releasing an entry during teardown writes a dirty
    file page back, clears the mapping, frees the frame and removes the
    entry, but a swap slot the entry refers to is not released;
    [destroy_spt] removes every entry of the table and leaves the swap
    bitmap and the swap contents as they were. *)
Theorem destroy_spt_keeps_swap_slots h s s' :
  destroy_spt h s = Ok tt s' ->
  swap_map s' = swap_map s /\
  swap_disk s' = swap_disk s /\
  forall u, supp_page_table s' !! (h, u) = None.
Proof.
  intros H.
  assert (wp Partial (destroy_spt h)
            (fun _ s' => teardown s s' /\
               forall k p, (k, p) ∈ map_to_list (supp_page_table s) ->
                           k.1 = h -> supp_page_table s' !! k = None) s)
    as Hwp.
  { unfold destroy_spt. wp_steps. apply hash_destroy_teardown. }
  eapply wp_Ok in Hwp; [|exact H].
  destruct Hwp as [(Hm & Hd & Hs) Hgone]. split; [done|]. split; [done|].
  intros u. destruct (supp_page_table s !! (h, u)) as [p|] eqn:Hl.
  - apply (Hgone (h, u) p); [|done]. by apply elem_of_map_to_list.
  - destruct (Hs (h, u)) as [-> | ->]; done.
Qed.

Lemma destroy_spt_keeps_swap_slots_witness :
  swap_map (run (destroy_spt 1) swapped_out) = swap_map swapped_out /\
  swap_disk (run (destroy_spt 1) swapped_out) = swap_disk swapped_out /\
  forall u, supp_page_table (run (destroy_spt 1) swapped_out) !! (1, u) = None.
Proof.
  apply destroy_spt_keeps_swap_slots. vm_compute. reflexivity.
Defined.

(** C1, counterexample: the entry of page 0xBFFFF000 is in swap slot 0;
    after [destroy_spt] no entry is left, and slot 0 is still in use. *)
Lemma destroy_spt_leaks_swap_slot :
  supp_page_table swapped_out !! (1, 0xBFFFF000) = Some 0 /\
  (exists e, heap swapped_out !! 0 = Some e /\
             is_in_swap e = true /\ idx e = 0) /\
  swap_map swapped_out !! 0%nat = Some true /\
  exists s', destroy_spt 1 swapped_out = Ok tt s' /\
             heap s' = ∅ /\ supp_page_table s' = ∅ /\
             swap_map s' !! 0%nat = Some true.
Proof.
  split; [by vm_compute|]. split; [eexists; by vm_compute|].
  split; [by vm_compute|]. eexists. split; [by vm_compute|]. by vm_compute.
Qed.

(** *** Memory mappings *)

(** X1: the roll-back of [create_spte_mmap] does nothing when the very
    first page is taken: the call returns NULL and the state is untouched. *)
Lemma create_spte_mmap_first_page_taken fuel f read_bytes upage s p :
  0 < read_bytes ->
  supp_page_table s !! (cur s, pg_round_down upage) = Some p ->
  create_spte_mmap fuel f read_bytes upage s = Ok None s.
Proof.
  intros Hpos Hp. unfold create_spte_mmap.
  destruct (Z.to_nat (read_bytes / PGSIZE + 1)) as [|n] eqn:Hn.
  { assert (0 <= read_bytes / PGSIZE) by (apply Z.div_pos; [lia|done]). lia. }
  simpl. destruct (Z.ltb_spec 0 read_bytes); [|lia].
  unfold uvaddr_to_spt_entry, hash_find. exec. by rewrite Hp.
Qed.

(** C2 (code bug), evaluated at the failing input: page 0x10001000 has an
    entry, page 0x10000000 has none; mapping the three pages of file 20 at
    0x10000000 inserts the first page, meets the conflict and rolls back,
    and the roll-back dereferences a bad pointer instead of returning. *)
Theorem create_spte_mmap_rollback_faults :
  supp_page_table page_in_the_way !! (1, 0x10000000) = None /\
  supp_page_table page_in_the_way !! (1, 0x10001000) = Some 0 /\
  create_spte_mmap 64 20 12288 0x10000000 page_in_the_way = Fault.
Proof.
  split; [vm_compute; reflexivity|].
  split; vm_compute; reflexivity.
Qed.

(** *** Write validation *)

(** C5 (code bug), evaluated at the failing input: a [read] of 32 bytes
    into a buffer that starts 16 bytes before the read-only [FILE] page
    0x08048000, which is resident and mapped read-only.  [validate] admits
    the buffer, and [is_writable] looks at the entry of the first page of
    the buffer only and lets the call pass, so the write validation does
    not terminate the process; the copy then runs into the write-protected
    page, a page fault in kernel context.  The same call with a buffer
    that starts in the read-only page is terminated with status -1 by the
    validation. *)
Theorem read_checks_first_page_only :
  (exists e, heap (before_read 0x08047FF0) !! 0 = Some e /\
             upage e = 0x08048000 /\ type e = FILE /\ writable e = false /\
             frame e = Some 0xC0281000) /\
  uvaddr_to_spt_entry (0x08047FF0 + 31) (before_read 0x08047FF0) =
    Ok (Some 0) (before_read 0x08047FF0) /\
  pte_writable <$> pagedir (before_read 0x08047FF0) !! (1, 0x08048000) =
    Some false /\
  validate stock 0xBFFFFF0C 0x08047FF0 32 (before_read 0x08047FF0) =
    Ok tt validated_buffer /\
  is_writable stock 0x08047FF0 validated_buffer = Ok tt validated_buffer /\
  read stock 0xBFFFFF00 (before_read 0x08047FF0) = Fault /\
  (exists s', read stock 0xBFFFFF00 (before_read 0x08048010) = Exit (-1) s').
Proof.
  split.
  { eexists. split; [vm_compute; reflexivity|]. vm_compute.
    repeat split; reflexivity. }
  split; [vm_compute; reflexivity|].
  split; [vm_compute; reflexivity|].
  split; [vm_compute; reflexivity|].
  split; [vm_compute; reflexivity|].
  split; [vm_compute; reflexivity|].
  eexists. vm_compute. reflexivity.
Qed.

(** * Further properties of the code *)

#[local] Hint Resolve frame_alloc_evicts free_frame_spec : wpdb.


(** *** The supplemental page table as a table keyed by page *)

Lemma create_spte_mmap_first_page_taken_witness :
  create_spte_mmap 8 20 12288 0x10001000 page_in_the_way =
    Ok None page_in_the_way.
Proof.
  apply (create_spte_mmap_first_page_taken 8 20 12288 0x10001000
           page_in_the_way 0); [reflexivity | vm_compute; reflexivity].
Defined.

Lemma to_int_inj a b :
  0 <= a < 2 ^ 32 -> 0 <= b < 2 ^ 32 -> to_int a = to_int b -> a = b.
Proof.
  intros Ha Hb. unfold to_int, wrap32. rewrite !Z.mod_small by done.
  destruct (Z.ltb_spec a (2 ^ 31)), (Z.ltb_spec b (2 ^ 31)); lia.
Qed.

(** X2: two entries are equal for the hash table, that is neither is less
    than the other under [spt_less_func], exactly when they have the same
    page; the signed comparison is still a total order on 32-bit pages. *)
Theorem spt_less_func_equal_iff_same_page a b :
  0 <= upage a < 2 ^ 32 ->
  0 <= upage b < 2 ^ 32 ->
  (spt_less_func a b = false /\ spt_less_func b a = false <->
   upage a = upage b) /\
  (spt_less_func a b = true -> spt_less_func b a = false).
Proof.
  intros Ha Hb. unfold spt_less_func. split; [split|].
  - intros [H1 H2]. apply to_int_inj; try done.
    apply Z.ltb_ge in H1, H2. lia.
  - intros ->. split; apply Z.ltb_irrefl.
  - intros H. apply Z.ltb_lt in H. apply Z.ltb_ge. lia.
Qed.

Lemma spt_less_func_equal_iff_same_page_witness :
  (spt_less_func (with_upage 0xBFFFF000 blank) (with_upage 0x08048000 blank)
     = false /\
   spt_less_func (with_upage 0x08048000 blank) (with_upage 0xBFFFF000 blank)
     = false <->
   upage (with_upage 0xBFFFF000 blank) = upage (with_upage 0x08048000 blank)) /\
  (spt_less_func (with_upage 0xBFFFF000 blank) (with_upage 0x08048000 blank)
     = true ->
   spt_less_func (with_upage 0x08048000 blank) (with_upage 0xBFFFF000 blank)
     = false).
Proof.
  apply (spt_less_func_equal_iff_same_page
           (with_upage 0xBFFFF000 blank) (with_upage 0x08048000 blank));
    vm_compute; intuition discriminate.
Defined.

Lemma pg_round_down_idem va : pg_round_down (pg_round_down va) = pg_round_down va.
Proof. unfold pg_round_down. by rewrite <- Z.land_assoc, Z.land_diag. Qed.

Lemma pg_round_down_div va :
  0 <= va < 2 ^ 32 -> pg_round_down va = PGSIZE * (va / PGSIZE).
Proof.
  intros Hva. unfold pg_round_down, PGSIZE.
  change 0xFFFFF000 with (Z.shiftl (Z.ones 20) 12).
  change 4096 with (2 ^ 12).
  rewrite Z.mul_comm, <- Z.shiftl_mul_pow2, <- Z.shiftr_div_pow2 by lia.
  apply Z.bits_inj'. intros n Hn.
  rewrite Z.land_spec, !Z.shiftl_spec by done.
  destruct (Z_lt_ge_dec n 12) as [Hlow | Hhigh].
  { rewrite !(Z.testbit_neg_r _ (n - 12)) by lia. apply andb_false_r. }
  rewrite Z.shiftr_spec by lia. replace (n - 12 + 12) with n by lia.
  destruct (Z_lt_ge_dec n 32) as [Hin | Hout].
  - rewrite Z.ones_spec_low by lia. apply andb_true_r.
  - rewrite Z.ones_spec_high by lia. rewrite andb_false_r.
    symmetry. destruct (Z.eq_dec va 0) as [-> | Hnz]; [apply Z.bits_0|].
    apply Z.bits_above_log2; [lia|].
    assert (Z.log2 va < 32) by (apply Z.log2_lt_pow2; lia). lia.
Qed.

(** X3: [create_spte_code] always returns a fresh entry, and a lookup of
    any address of the page afterwards finds that entry, unless the page
    had an entry already: then the lookup still finds the old entry. *)
Theorem create_spte_code_then_lookup upage uaddr s :
  pg_round_down uaddr = upage ->
  exists p s',
    create_spte_code upage s = Ok p s' /\
    heap s !! p = None /\
    (exists e, heap s' !! p = Some e /\ type e = CODE /\ frame e = None /\
               pinned e = false /\ is_in_swap e = false) /\
    uvaddr_to_spt_entry uaddr s' =
      Ok (Some (default p (supp_page_table s !! (cur s, upage)))) s'.
Proof.
  intros Hpage.
  unfold create_spte_code, create_spte, malloc, hash_insert, assign, store.
  exec. set (p := fresh (dom (heap s) ∪ list_to_set (frame_table s).*1)).
  unfold uvaddr_to_spt_entry, hash_find. rewrite Hpage.
  destruct (supp_page_table s !! (cur s, upage)) as [old|] eqn:Hold; exec;
    eexists p, _; (split; [reflexivity|]); (split; [apply malloc_fresh|]);
    (split; [eexists; split; [proj_simpl; apply lookup_insert_eq|done]|]);
    exec; unfold gets; proj_simpl.
  - by rewrite Hold.
  - by rewrite lookup_insert_eq.
Qed.

Lemma create_spte_code_then_lookup_witness :
  exists p s',
    create_spte_code 0xBFFFF000 pinned_then_free = Ok p s' /\
    heap pinned_then_free !! p = None /\
    (exists e, heap s' !! p = Some e /\ type e = CODE /\ frame e = None /\
               pinned e = false /\ is_in_swap e = false) /\
    uvaddr_to_spt_entry 0xBFFFFFEC s' =
      Ok (Some (default p (supp_page_table pinned_then_free
                             !! (cur pinned_then_free, 0xBFFFF000)))) s'.
Proof.
  apply (create_spte_code_then_lookup 0xBFFFF000 0xBFFFFFEC pinned_then_free).
  reflexivity.
Defined.

(** *** Release of entries *)



Lemma released_refl s : released s s.
Proof. split; [by right|done]. Qed.

Lemma released_trans s1 s2 s3 : released s1 s2 -> released s2 s3 -> released s1 s3.
Proof.
  intros [Hh Hf] [Hh' Hf']. split; [|by etrans].
  intros p. destruct (Hh' p) as [-> | ->]; [by left|apply Hh].
Qed.

Lemma unlink_frame_sublist fr l : unlink_frame fr l `sublist_of` l.
Proof.
  induction l as [|n l IH]; simpl; [done|].
  destruct (decide (fte_frame n.2 = fr)); [by apply sublist_cons|].
  by apply sublist_skip.
Qed.

Lemma unlink_frame_gone fr l (n : fte_node) :
  NoDup ((fun n : fte_node => fte_frame n.2) <$> l) ->
  n ∈ unlink_frame fr l -> fte_frame n.2 <> fr.
Proof.
  induction l as [|x l IH]; simpl; [by intros _ ?%elem_of_nil|].
  intros [Hx Hl]%NoDup_cons. destruct (decide (fte_frame x.2 = fr)) as [<-|Hne].
  - intros Hin Heq. apply Hx. rewrite <- Heq.
    apply list_elem_of_fmap. by exists n.
  - intros [-> | Hin]%elem_of_cons; [done|by apply IH].
Qed.

Lemma free_spte_unlinks p e s :
  heap s !! p = Some e ->
  wp Partial (free_spte (Some p))
     (fun _ s' =>
        heap s' = delete p (heap s) /\
        forall fr, frame e = Some fr ->
                   frame_table s' = unlink_frame fr (frame_table s)) s.
Proof.
  intros He.
  unfold free_spte, free_frame, palloc_free_page, pagedir_clear_page,
    hash_delete, free.
  wp_steps;
    repeat match goal with
           | H : only_io _ _ |- _ => destruct H as (? & ? & ->)
           end;
    proj_simpl; simplify_eq; (split; [done|]); intros fr' Hfr'; congruence.
Qed.

Lemma free_spte_released sp s :
  wp Partial (free_spte sp) (fun _ s' => released s s') s.
Proof.
  unfold free_spte, free_frame, palloc_free_page, pagedir_clear_page,
    hash_delete, free.
  wp_steps;
    repeat match goal with
           | H : only_io _ _ |- _ => destruct H as (? & ? & ->)
           end;
    try apply released_refl;
    (split; proj_simpl;
     [intros q; destruct (decide (q = z)) as [-> | Hne];
        [left; apply lookup_delete_eq|right; by apply lookup_delete_ne]
     |first [done | apply unlink_frame_sublist]]).
Qed.

(** What [hash_destroy] has done for an element of the table it was given:
    the entry left the store, and its frame, if it had one, left the frame
    list. *)
Lemma hash_destroy_released h elems : forall s,
  NoDup ((fun n : fte_node => fte_frame n.2) <$> frame_table s) ->
  wp Partial (hash_destroy h elems free_spte_elem)
     (fun _ s' =>
        released s s' /\
        forall k p, (k, p) ∈ elems -> k.1 = h ->
          heap s' !! p = None /\
          forall e fr, heap s !! p = Some e -> frame e = Some fr ->
                       forall n, n ∈ frame_table s' -> fte_frame n.2 <> fr) s.
Proof.
  induction elems as [|[k p] elems IH]; intros s Hnd; simpl.
  { wp_steps. split; [apply released_refl|]. by intros k p ?%elem_of_nil. }
  apply wp_bind.
  apply (wp_mono _ _ (fun _ s1 =>
           released s s1 /\
           (forall q, q <> p \/ k.1 <> h -> heap s1 !! q = heap s !! q) /\
           (k.1 = h ->
            heap s1 !! p = None /\
            forall e fr, heap s !! p = Some e -> frame e = Some fr ->
                         forall n, n ∈ frame_table s1 -> fte_frame n.2 <> fr))).
  - apply wp_when; intros Hk.
    + unfold hash_delete, free_spte_elem. apply wp_bind, wp_modify.
      assert (released s (upd_spt (delete (h, k.2)) s)) as Hrel1
        by exact (released_refl s).
      assert (heap (upd_spt (delete (h, k.2)) s) = heap s) as Hheap by done.
      assert (frame_table (upd_spt (delete (h, k.2)) s) = frame_table s)
        as Hft1 by done.
      revert Hrel1 Hheap Hft1.
      generalize (upd_spt (delete (h, k.2)) s). intros s1 Hrel1 Hheap Hft1.
      unfold wp. destruct (free_spte (Some p) s1) as [[] s2| | | |] eqn:Hfree;
        try done.
      pose proof (wp_Ok _ _ _ _ _ _ (free_spte_released (Some p) s1) Hfree)
        as Hrel2.
      destruct (heap s1 !! p) as [e1|] eqn:He1.
      2:{ unfold free_spte, bind, load in Hfree. by rewrite He1 in Hfree. }
      pose proof (wp_Ok _ _ _ _ _ _ (free_spte_unlinks p e1 s1 He1) Hfree)
        as (Hh & Hfr).
      split; [by eapply released_trans|]. split.
      { intros q [Hq | Hq]; [|by apply bool_decide_eq_true in Hk].
        by rewrite Hh, lookup_delete_ne, Hheap. }
      intros _. split.
      { rewrite Hh. apply lookup_delete_eq. }
      intros e fr He Hf n Hn.
      rewrite Hheap, He in He1. simplify_eq.
      rewrite (Hfr fr Hf), Hft1 in Hn. by eapply unlink_frame_gone.
    + split; [apply released_refl|]. split; [done|]. intros Heq.
      by rewrite bool_decide_eq_true_2 in Hk.
  - cbv beta. intros _ s1 (Hrel1 & Hother & Hk).
    assert (NoDup ((fun n : fte_node => fte_frame n.2) <$> frame_table s1))
      as Hnd1.
    { eapply sublist_NoDup; [exact Hnd|]. apply fmap_sublist, Hrel1. }
    eapply wp_mono; [by apply IH|]. cbv beta. intros _ s2 [Hrel2 Hrest].
    split; [by eapply released_trans|].
    destruct Hrel2 as [Hh12 Hsub12].
    intros k' p' [[= -> ->] | Hin]%elem_of_cons Hh.
    + destruct (Hk Hh) as [Hnone Hgone]. split.
      * destruct (Hh12 p) as [-> | ->]; done.
      * intros e fr He Hf n Hn. eapply Hgone; eauto.
        by eapply elem_of_sublist.
    + destruct (Hrest _ _ Hin Hh) as [Hnone Hgone]. split; [done|].
      intros e fr He Hf n Hn.
      destruct (decide (p' = p)) as [-> | Hne].
      * destruct (decide (k.1 = h)) as [Hkh | Hkh].
        -- destruct (Hk Hkh) as [_ Hgone1]. eapply Hgone1; eauto.
           by eapply elem_of_sublist.
        -- eapply Hgone; eauto. rewrite Hother; [done|by right].
      * eapply Hgone; eauto. rewrite Hother; [done|by left].
Qed.

(** X5: [destroy_spt] of a table, from a state whose frame list holds no
    frame twice, frees every entry the table held: the entry is no longer
    in the store, and the frame of a resident entry is no longer listed. *)
Theorem destroy_spt_frees_entries h s s' u p :
  NoDup ((fun n : fte_node => fte_frame n.2) <$> frame_table s) ->
  supp_page_table s !! (h, u) = Some p ->
  destroy_spt h s = Ok tt s' ->
  heap s' !! p = None /\
  forall e fr, heap s !! p = Some e -> frame e = Some fr ->
               forall n, n ∈ frame_table s' -> fte_frame n.2 <> fr.
Proof.
  intros Hnd Hp H.
  assert (wp Partial (destroy_spt h)
            (fun _ s' =>
               released s s' /\
               forall k p, (k, p) ∈ map_to_list (supp_page_table s) ->
                 k.1 = h ->
                 heap s' !! p = None /\
                 forall e fr, heap s !! p = Some e -> frame e = Some fr ->
                   forall n, n ∈ frame_table s' -> fte_frame n.2 <> fr) s)
    as Hwp.
  { unfold destroy_spt. wp_steps. by apply hash_destroy_released. }
  eapply wp_Ok in Hwp; [|exact H]. destruct Hwp as [_ Hall].
  apply (Hall (h, u) p); [|done]. by apply elem_of_map_to_list.
Qed.

Lemma destroy_spt_frees_entries_witness :
  heap (run (destroy_spt 1) swapped_out) !! 2 = None /\
  forall e fr, heap swapped_out !! 2 = Some e -> frame e = Some fr ->
    forall n, n ∈ frame_table (run (destroy_spt 1) swapped_out) ->
              fte_frame n.2 <> fr.
Proof.
  apply (destroy_spt_frees_entries 1 swapped_out
           (run (destroy_spt 1) swapped_out) 0xBFFFE000 2).
  - apply (bool_decide_unpack _). vm_compute. exact I.
  - vm_compute. reflexivity.
  - vm_compute. reflexivity.
Defined.

(** *** Entries for the pages of an executable *)

Lemma create_spte_file_loop_spec pages :
  forall f ofs upage read_bytes zero_bytes w s,
  0 <= read_bytes -> 0 <= zero_bytes ->
  (read_bytes + zero_bytes) mod PGSIZE = 0 ->
  0 <= upage -> upage + read_bytes + zero_bytes < 2 ^ 32 ->
  0 <= ofs -> ofs + read_bytes < 2 ^ 31 ->
  (Z.to_nat ((read_bytes + zero_bytes) / PGSIZE) <= pages)%nat ->
  (forall k, 0 <= k < (read_bytes + zero_bytes) / PGSIZE ->
             supp_page_table s !! (cur s, upage + PGSIZE * k) = None) ->
  exists s',
    create_spte_file_loop pages f ofs upage read_bytes zero_bytes w s =
      Ok true s' /\
    cur s' = cur s /\
    (forall key p, supp_page_table s !! key = Some p ->
                   supp_page_table s' !! key = Some p) /\
    (forall p e, heap s !! p = Some e -> heap s' !! p = Some e) /\
    forall k, 0 <= k < (read_bytes + zero_bytes) / PGSIZE ->
      exists sp,
        supp_page_table s' !! (cur s, upage + PGSIZE * k) = Some sp /\
        heap s !! sp = None /\
        heap s' !! sp =
          Some (SptEntry FILE (upage + PGSIZE * k) None false false
                  BITMAP_ERROR f (ofs + Z.min read_bytes (PGSIZE * k)) w
                  (Z.min PGSIZE (Z.max 0 (read_bytes - PGSIZE * k)))
                  (PGSIZE - Z.min PGSIZE (Z.max 0 (read_bytes - PGSIZE * k)))).
Proof.
  induction pages as [|pages IH];
    intros f ofs upage read_bytes zero_bytes w s Hr Hz Hmod Hu Htop Ho Hoff
      Hfuel Hfree.
  - assert (read_bytes + zero_bytes = 0) as Hnil.
    { revert Hfuel Hmod. unfold PGSIZE. intros Hfuel Hmod.
      assert ((read_bytes + zero_bytes) / 4096 <= 0) as Hq.
      { revert Hfuel. generalize ((read_bytes + zero_bytes) / 4096). lia. }
      revert Hq Hmod. Z.div_mod_to_equations. lia. }
    exists s. simpl.
    replace (0 <? read_bytes) with false by (symmetry; apply Z.ltb_ge; lia).
    replace (0 <? zero_bytes) with false by (symmetry; apply Z.ltb_ge; lia).
    split; [done|]. split; [done|]. split; [done|]. split; [done|].
    intros k Hk. rewrite Hnil in Hk. change (0 / PGSIZE) with 0 in Hk. lia.
  - simpl.
    destruct ((0 <? read_bytes) || (0 <? zero_bytes)) eqn:Hgo.
    2:{ apply orb_false_iff in Hgo as [H1%Z.ltb_ge H2%Z.ltb_ge].
        exists s. split; [done|]. split; [done|]. split; [done|].
        split; [done|]. intros k Hk.
        replace (read_bytes + zero_bytes) with 0 in Hk by lia.
        change (0 / PGSIZE) with 0 in Hk. lia. }
    assert (0 < read_bytes + zero_bytes) as Hpos.
    { apply orb_true_iff in Hgo as [H1%Z.ltb_lt | H2%Z.ltb_lt]; lia. }
    assert (PGSIZE <= read_bytes + zero_bytes) as Hpage.
    { revert Hmod. unfold PGSIZE. Z.div_mod_to_equations. lia. }
    set (prb := if read_bytes <? PGSIZE then read_bytes else PGSIZE).
    assert (prb = Z.min PGSIZE read_bytes) as Hprb.
    { unfold prb. destruct (Z.ltb_spec read_bytes PGSIZE); lia. }
    assert (1 <= (read_bytes + zero_bytes) / PGSIZE) as Hn
      by (apply Z.div_le_lower_bound; unfold PGSIZE in *; lia).
    assert (supp_page_table s !! (cur s, upage) = None) as Hfree0.
    { rewrite <- (Hfree 0) by lia. by rewrite Z.mul_0_r, Z.add_0_r. }
    unfold create_spte, malloc, hash_insert, assign, store. exec.
    rewrite Hfree0. exec.
    set (p := fresh (dom (heap s) ∪ list_to_set (frame_table s).*1)).
    pose proof (malloc_fresh s) as Hfresh. fold p in Hfresh.
    match goal with
    | |- context [create_spte_file_loop pages _ _ _ _ _ _ ?st] =>
        assert (cur st = cur s /\
                supp_page_table st = <[(cur s, upage) := p]> (supp_page_table s) /\
                heap st = <[p := SptEntry FILE upage None false false
                                  BITMAP_ERROR f ofs w prb (PGSIZE - prb)]>
                            (heap s)) as (Hc1 & Ht1 & Hh1)
          by (proj_simpl; rewrite !insert_insert_eq; done);
        generalize dependent st; intros s1 Hc1 Ht1 Hh1
    end.
    assert (to_int (ofs + prb) = ofs + prb) as ->.
    { unfold to_int, wrap32, PGSIZE in *. rewrite Z.mod_small by lia.
      destruct (Z.ltb_spec (ofs + prb) (2 ^ 31)); lia. }
    assert (wrap32 (upage + PGSIZE) = upage + PGSIZE) as ->
      by (unfold wrap32, PGSIZE in *; rewrite Z.mod_small; lia).
    assert (wrap32 (read_bytes - prb) = read_bytes - prb) as ->
      by (unfold wrap32, PGSIZE in *; rewrite Z.mod_small; lia).
    assert (wrap32 (zero_bytes - (PGSIZE - prb)) = zero_bytes - (PGSIZE - prb))
      as -> by (unfold wrap32, PGSIZE in *; rewrite Z.mod_small; lia).
    assert ((read_bytes - prb + (zero_bytes - (PGSIZE - prb))) / PGSIZE =
            (read_bytes + zero_bytes) / PGSIZE - 1) as Hdiv.
    { replace (read_bytes - prb + (zero_bytes - (PGSIZE - prb)))
        with (read_bytes + zero_bytes + (-1) * PGSIZE) by lia.
      rewrite Z.div_add by (unfold PGSIZE; lia). lia. }
    destruct (IH f (ofs + prb) (upage + PGSIZE) (read_bytes - prb)
                (zero_bytes - (PGSIZE - prb)) w s1)
      as (s' & Hrun & Hc & Hkeep & Hlive & Hall).
    { lia. }
    { unfold PGSIZE in *. lia. }
    { replace (read_bytes - prb + (zero_bytes - (PGSIZE - prb)))
        with (read_bytes + zero_bytes + (-1) * PGSIZE) by lia.
      rewrite Z.mod_add by (unfold PGSIZE; lia). done. }
    { unfold PGSIZE in *. lia. }
    { unfold PGSIZE in *. lia. }
    { unfold PGSIZE in *. lia. }
    { lia. }
    { rewrite Hdiv. lia. }
    { intros k Hk. rewrite Hdiv in Hk. rewrite Hc1, Ht1.
      rewrite lookup_insert_ne by (intros [=]; unfold PGSIZE in *; lia).
      replace (upage + PGSIZE + PGSIZE * k) with (upage + PGSIZE * (k + 1))
        by lia.
      apply Hfree. lia. }
    exists s'. split; [done|]. split; [congruence|]. split; [|split].
    + intros key q Hq. apply Hkeep. rewrite Ht1.
      rewrite lookup_insert_ne; [done|]. intros <-. congruence.
    + intros q e Hq. apply Hlive. rewrite Hh1.
      rewrite lookup_insert_ne; [done|congruence].
    + intros k Hk. destruct (decide (k = 0)) as [-> | Hnz].
      * exists p. rewrite Z.mul_0_r, Z.add_0_r.
        split; [apply Hkeep; rewrite Ht1; apply lookup_insert_eq|].
        split; [done|].
        erewrite Hlive; [|rewrite Hh1; apply lookup_insert_eq].
        do 2 f_equal; unfold PGSIZE in *; lia.
      * destruct (Hall (k - 1)) as (sp & Hsp & Hnew & Hent);
          [rewrite Hdiv; lia|].
        exists sp. rewrite Hc1 in Hsp.
        replace (upage + PGSIZE + PGSIZE * (k - 1)) with (upage + PGSIZE * k)
          in * by lia.
        split; [done|]. split.
        { rewrite Hh1 in Hnew. by apply lookup_insert_None in Hnew as [? _]. }
        rewrite Hent. do 2 f_equal; unfold PGSIZE in *; lia.
Qed.

(** X15: [create_spte_file] over a range of free pages returns true and
    leaves one [FILE] entry per page in the table of the running thread:
    the entry of page number [k] is a fresh one, not resident, not pinned
    and not in swap, and records the page, the file, the offset reached
    after [k] pages, the write permission, and as many bytes to read as
    are left of [read_bytes], at most a page, with zeros up to the page
    size. *)
Theorem create_spte_file_covers f ofs upage read_bytes zero_bytes w s :
  0 <= read_bytes -> 0 <= zero_bytes ->
  (read_bytes + zero_bytes) mod PGSIZE = 0 ->
  0 <= upage -> pg_round_down upage = upage ->
  upage + read_bytes + zero_bytes < 2 ^ 32 ->
  0 <= ofs -> ofs mod PGSIZE = 0 -> ofs + read_bytes < 2 ^ 31 ->
  (forall k, 0 <= k < (read_bytes + zero_bytes) / PGSIZE ->
             supp_page_table s !! (cur s, upage + PGSIZE * k) = None) ->
  exists s',
    create_spte_file f ofs upage read_bytes zero_bytes w s = Ok true s' /\
    forall k, 0 <= k < (read_bytes + zero_bytes) / PGSIZE ->
      exists sp,
        supp_page_table s' !! (cur s, upage + PGSIZE * k) = Some sp /\
        heap s !! sp = None /\
        heap s' !! sp =
          Some (SptEntry FILE (upage + PGSIZE * k) None false false
                  BITMAP_ERROR f (ofs + Z.min read_bytes (PGSIZE * k)) w
                  (Z.min PGSIZE (Z.max 0 (read_bytes - PGSIZE * k)))
                  (PGSIZE - Z.min PGSIZE (Z.max 0 (read_bytes - PGSIZE * k)))).
Proof.
  intros Hr Hz Hmod Hu Hal Htop Ho Hoal Hoff Hfree.
  destruct (create_spte_file_loop_spec
              (Z.to_nat ((read_bytes + zero_bytes) / PGSIZE + 1))
              f ofs upage read_bytes zero_bytes w s)
    as (s' & Hrun & _ & _ & _ & Hall); try done.
  { assert (0 <= (read_bytes + zero_bytes) / PGSIZE)
      by (apply Z.div_pos; unfold PGSIZE; lia). lia. }
  exists s'. split; [|done].
  unfold create_spte_file, ASSERT.
  assert (wrap32 (read_bytes + zero_bytes) = read_bytes + zero_bytes) as ->
    by (unfold wrap32; rewrite Z.mod_small; lia).
  rewrite Hmod, Hal, Z.sub_diag, Hoal. simpl. by exec.
Qed.

(** *** Entries for the pages of a mapping *)

Lemma pg_round_down_aligned u :
  0 <= u < 2 ^ 32 -> u mod PGSIZE = 0 -> pg_round_down u = u.
Proof.
  intros Hu Hal. rewrite pg_round_down_div by done.
  symmetry. apply Z_div_exact_2; [unfold PGSIZE; lia|done].
Qed.

Lemma create_spte_mmap_loop_spec pages fuel :
  forall f read_bytes upage ofs i first s,
  0 <= upage -> upage mod PGSIZE = 0 -> upage + read_bytes < 2 ^ 32 ->
  (Z.to_nat ((read_bytes + PGSIZE - 1) / PGSIZE) <= pages)%nat ->
  (forall k, 0 <= k -> PGSIZE * k < read_bytes ->
             supp_page_table s !! (cur s, upage + PGSIZE * k) = None) ->
  exists r s',
    create_spte_mmap_loop pages fuel f read_bytes upage ofs i first s =
      Ok r s' /\
    cur s' = cur s /\
    (forall key p, supp_page_table s !! key = Some p ->
                   supp_page_table s' !! key = Some p) /\
    (forall p e, heap s !! p = Some e -> heap s' !! p = Some e) /\
    r = (if (i =? 0) && (0 <? read_bytes)
         then supp_page_table s' !! (cur s, upage) else first) /\
    forall k, 0 <= k -> PGSIZE * k < read_bytes ->
      exists sp,
        supp_page_table s' !! (cur s, upage + PGSIZE * k) = Some sp /\
        heap s !! sp = None /\
        heap s' !! sp =
          Some (SptEntry MMAP (upage + PGSIZE * k) None false false
                  BITMAP_ERROR f (ofs + PGSIZE * k) true
                  (Z.min PGSIZE (read_bytes - PGSIZE * k))
                  (PGSIZE - Z.min PGSIZE (read_bytes - PGSIZE * k))).
Proof.
  induction pages as [|pages IH];
    intros f read_bytes upage ofs i first s Hu Hal Htop Hfuel Hfree.
  - assert (read_bytes <= 0) as Hnil.
    { assert ((read_bytes + PGSIZE - 1) / PGSIZE <= 0) as Hq.
      { revert Hfuel. generalize ((read_bytes + PGSIZE - 1) / PGSIZE). lia. }
      revert Hq. unfold PGSIZE. Z.div_mod_to_equations. lia. }
    exists first, s. simpl.
    replace (0 <? read_bytes) with false by (symmetry; apply Z.ltb_ge; lia).
    rewrite andb_false_r.
    repeat split; try done. intros k Hk Hlt. unfold PGSIZE in *. lia.
  - simpl. destruct (Z.ltb_spec 0 read_bytes) as [Hpos | Hnil].
    2:{ exists first, s. rewrite andb_false_r. repeat split; try done.
        intros k Hk Hlt. unfold PGSIZE in *. lia. }
    set (prb := if read_bytes <? PGSIZE then read_bytes else PGSIZE).
    assert (prb = Z.min PGSIZE read_bytes) as Hprb.
    { unfold prb. destruct (Z.ltb_spec read_bytes PGSIZE); lia. }
    assert (supp_page_table s !! (cur s, upage) = None) as Hfree0.
    { rewrite <- (Hfree 0) by (unfold PGSIZE; lia).
      by rewrite Z.mul_0_r, Z.add_0_r. }
    assert (pg_round_down upage = upage) as Hrd
      by (apply pg_round_down_aligned; [lia|done]).
    unfold uvaddr_to_spt_entry, hash_find, create_spte, malloc, hash_insert,
      assign, store.
    exec. rewrite Hrd, Hfree0. exec. rewrite Hfree0. exec.
    set (p := fresh (dom (heap s) ∪ list_to_set (frame_table s).*1)).
    pose proof (malloc_fresh s) as Hfresh. fold p in Hfresh.
    match goal with
    | |- context [create_spte_mmap_loop pages _ _ _ _ _ _ _ ?st] =>
        assert (cur st = cur s /\
                supp_page_table st = <[(cur s, upage) := p]> (supp_page_table s) /\
                heap st = <[p := SptEntry MMAP upage None false false
                                  BITMAP_ERROR f ofs true prb (PGSIZE - prb)]>
                            (heap s)) as (Hc1 & Ht1 & Hh1)
          by (proj_simpl; rewrite !insert_insert_eq; done);
        generalize dependent st; intros s1 Hc1 Ht1 Hh1
    end.
    assert (0 < read_bytes - prb ->
            wrap32 (upage + PGSIZE) = upage + PGSIZE) as Hw.
    { intros Hmore. unfold wrap32, PGSIZE in *. rewrite Z.mod_small; lia. }
    assert (0 <= wrap32 (upage + PGSIZE) < 2 ^ 32) as Hwr
      by (unfold wrap32; apply Z.mod_pos_bound; lia).
    destruct (IH f (read_bytes - prb) (wrap32 (upage + PGSIZE)) (ofs + prb)
                (if i =? 0 then 1 else i)
                (if i =? 0 then Some p else first) s1)
      as (r & s' & Hrun & Hc & Hkeep & Hlive & Hr & Hall).
    { lia. }
    { unfold wrap32. change (2 ^ 32) with (PGSIZE * 2 ^ 20).
      rewrite Z.rem_mul_r by (unfold PGSIZE; lia).
      rewrite Z.mul_comm, Z.mod_add by (unfold PGSIZE; lia).
      rewrite Z.mod_mod by (unfold PGSIZE; lia).
      rewrite <- Z.add_mod_idemp_l, Hal by (unfold PGSIZE; lia). done. }
    { destruct (Z_lt_ge_dec 0 (read_bytes - prb)) as [Hmore | Hdone].
      - rewrite Hw by done. unfold PGSIZE in *. lia.
      - unfold PGSIZE in *. lia. }
    { assert ((read_bytes - prb + PGSIZE - 1) / PGSIZE =
              (read_bytes + PGSIZE - 1) / PGSIZE - 1) as ->; [|lia].
      destruct (Z.ltb_spec read_bytes PGSIZE).
      - replace (read_bytes - prb + PGSIZE - 1) with (PGSIZE - 1) by lia.
        unfold PGSIZE in *. rewrite Z.div_small by lia.
        assert ((read_bytes + 4096 - 1) / 4096 = 1); [|lia].
        replace (read_bytes + 4096 - 1) with (read_bytes - 1 + 1 * 4096)
          by lia.
        rewrite Z.div_add, Z.div_small by lia. done.
      - replace (read_bytes - prb + PGSIZE - 1)
          with (read_bytes + PGSIZE - 1 + (-1) * PGSIZE) by lia.
        rewrite Z.div_add by (unfold PGSIZE; lia). lia. }
    { intros k Hk Hlt. rewrite Hw by (unfold PGSIZE in *; lia).
      rewrite Hc1, Ht1.
      rewrite lookup_insert_ne by (intros [=]; unfold PGSIZE in *; lia).
      replace (upage + PGSIZE + PGSIZE * k) with (upage + PGSIZE * (k + 1))
        by lia.
      apply Hfree; unfold PGSIZE in *; lia. }
    assert (supp_page_table s' !! (cur s, upage) = Some p) as Hfirst
      by (apply Hkeep; rewrite Ht1; apply lookup_insert_eq).
    exists r, s'. split; [done|]. split; [congruence|].
    split; [|split; [|split]].
    + intros key q Hq. apply Hkeep. rewrite Ht1.
      rewrite lookup_insert_ne; [done|]. intros <-. congruence.
    + intros q e Hq. apply Hlive. rewrite Hh1.
      rewrite lookup_insert_ne; [done|congruence].
    + rewrite Hr. destruct (Z.eqb_spec i 0) as [-> | Hi]; simpl; [done|].
      destruct (Z.eqb_spec i 0); [done|]. done.
    + intros k Hk Hlt. destruct (decide (k = 0)) as [-> | Hnz].
      * exists p. rewrite Z.mul_0_r, !Z.add_0_r, Z.sub_0_r.
        split; [done|]. split; [done|].
        erewrite Hlive; [|rewrite Hh1; apply lookup_insert_eq].
        do 2 f_equal; unfold PGSIZE in *; lia.
      * destruct (Hall (k - 1)) as (sp & Hsp & Hnew & Hent);
          [lia|unfold PGSIZE in *; lia|].
        rewrite Hw in Hsp, Hent by (unfold PGSIZE in *; lia).
        exists sp. rewrite Hc1 in Hsp.
        replace (upage + PGSIZE + PGSIZE * (k - 1)) with (upage + PGSIZE * k)
          in * by lia.
        split; [done|]. split.
        { rewrite Hh1 in Hnew. by apply lookup_insert_None in Hnew as [? _]. }
        rewrite Hent. do 2 f_equal; unfold PGSIZE in *; lia.
Qed.

(** X18: [create_spte_mmap] of a file of positive length over a range of
    free, page-aligned pages returns the entry of the first page and
    leaves one fresh [MMAP] entry per page in the table of the running
    thread: the entry of page number [k] is writable, not resident, not
    pinned and not in swap, and records the page, the file, the offset
    [k * PGSIZE], the bytes left to read, at most a page, and zeros up to
    the page size. *)
Theorem create_spte_mmap_covers fuel f read_bytes upage s :
  0 < read_bytes -> 0 <= upage -> upage mod PGSIZE = 0 ->
  upage + read_bytes < 2 ^ 32 ->
  (forall k, 0 <= k -> PGSIZE * k < read_bytes ->
             supp_page_table s !! (cur s, upage + PGSIZE * k) = None) ->
  exists first s',
    create_spte_mmap fuel f read_bytes upage s = Ok (Some first) s' /\
    supp_page_table s' !! (cur s, upage) = Some first /\
    forall k, 0 <= k -> PGSIZE * k < read_bytes ->
      exists sp,
        supp_page_table s' !! (cur s, upage + PGSIZE * k) = Some sp /\
        heap s !! sp = None /\
        heap s' !! sp =
          Some (SptEntry MMAP (upage + PGSIZE * k) None false false
                  BITMAP_ERROR f (PGSIZE * k) true
                  (Z.min PGSIZE (read_bytes - PGSIZE * k))
                  (PGSIZE - Z.min PGSIZE (read_bytes - PGSIZE * k))).
Proof.
  intros Hpos Hu Hal Htop Hfree. unfold create_spte_mmap.
  destruct (create_spte_mmap_loop_spec
              (Z.to_nat (read_bytes / PGSIZE + 1)) fuel
              f read_bytes upage 0 0 None s)
    as (r & s' & Hrun & _ & _ & _ & Hr & Hall); try done.
  { assert ((read_bytes + PGSIZE - 1) / PGSIZE <= read_bytes / PGSIZE + 1);
      [|lia].
    unfold PGSIZE. Z.div_mod_to_equations. lia. }
  simpl in Hr. replace (0 <? read_bytes) with true in Hr
    by (symmetry; apply Z.ltb_lt; lia).
  destruct (Hall 0) as (sp & Hsp & _); [lia|unfold PGSIZE; lia|].
  rewrite Z.mul_0_r, Z.add_0_r in Hsp. rewrite Hsp in Hr. subst r.
  exists sp, s'. split; [done|]. split; [done|]. exact Hall.
Qed.

(** *** Writing a page back to its file *)

(** X19: [write_to_disk] of a page that is dirty for the running thread
    writes the first [page_read_bytes] bytes of its frame to the file of
    the entry at offset [ofs] and returns true; when the file denies
    writes nothing is written and the call returns false.  No entry is
    changed either way. *)
Theorem write_to_disk_writes_frame sp e fr w a s :
  heap s !! sp = Some e ->
  pagedir s !! (cur s, pg_round_down (upage e)) = Some (Pte fr w a true) ->
  pg_round_down (upage e) = upage e ->
  0 < page_read_bytes e <= PGSIZE ->
  0 <= ofs e ->
  ofs e + page_read_bytes e <= Z.of_nat (length (f_data (file_of s (file e)))) ->
  exists s',
    write_to_disk sp s = Ok (negb (f_deny_write (file_of s (file e)))) s' /\
    heap s' = heap s /\
    files s' =
      if f_deny_write (file_of s (file e)) then files s
      else <[file e := FileObj (write_at (ofs e)
                                   (take (Z.to_nat (page_read_bytes e))
                                         (page_of s fr))
                                   (f_data (file_of s (file e))))
                               (f_pos (file_of s (file e))) false]> (files s).
Proof.
  intros He Hpd Hal Hprb Hofs Hroom.
  assert (to_int (page_read_bytes e) = page_read_bytes e) as Hint.
  { unfold to_int, wrap32, PGSIZE in *. rewrite Z.mod_small by lia.
    destruct (Z.ltb_spec (page_read_bytes e) (2 ^ 31)); lia. }
  assert (length (page_of s fr) = Z.to_nat PGSIZE) as Hpage
    by apply length_resize.
  rewrite Hal in Hpd.
  unfold write_to_disk, pagedir_is_dirty. exec. rewrite Hal, Hpd.
  cbn [from_option pte_dirty]. rewrite Hint.
  assert (exists k, span (page_read_bytes e) = S (S k)) as [k ->].
  { unfold span. exists (Z.to_nat (page_read_bytes e / PGSIZE)).
    assert (0 <= page_read_bytes e / PGSIZE)
      by (apply Z.div_pos; unfold PGSIZE; lia). lia. }
  cbn [copy_from_user].
  destruct (Z.leb_spec (page_read_bytes e) 0) as [|_]; [lia|].
  unfold pagedir_get_page, pagedir_set_accessed. exec.
  rewrite !Hal, Hpd. cbn [fmap option_fmap option_map pte_kpage]. exec.
  rewrite Z.sub_diag, Z.sub_0_r, Z.min_l by lia.
  replace (page_read_bytes e - page_read_bytes e <=? 0) with true
    by (symmetry; apply Z.leb_le; lia).
  exec. rewrite app_nil_r. change (Z.to_nat 0) with 0%nat. rewrite drop_0.
  set (bytes := take (Z.to_nat (page_read_bytes e)) (page_of s fr)).
  assert (length bytes = Z.to_nat (page_read_bytes e)) as Hlen.
  { unfold bytes. rewrite length_take, Hpage. unfold PGSIZE in *. lia. }
  unfold file_write_at, file_of. exec.
  set (fo := files s !!! file e).
  destruct (f_deny_write fo) eqn:Hdeny; exec.
  - change (wrap32 0) with 0.
    replace (0 =? page_read_bytes e) with false
      by (symmetry; apply Z.eqb_neq; lia).
    cbn [negb]. eexists. split; [reflexivity|]. done.
  - unfold file_of in Hroom. fold fo in Hroom.
    rewrite (take_ge bytes (Z.to_nat _)) by lia.
    rewrite (take_ge bytes) by lia.
    replace (wrap32 (Z.of_nat (length bytes)) =? page_read_bytes e) with true.
    2:{ symmetry. apply Z.eqb_eq. unfold wrap32, PGSIZE in *.
        rewrite Z.mod_small; lia. }
    cbn [negb]. eexists. split; [reflexivity|]. proj_simpl. split; [done|].
    by rewrite insert_alter_insert || done.
Qed.

(** *** The scan for a victim finds one *)

Lemma no_panic_bind {A B} (m : M A) (k : A -> M B) s :
  no_panic m s -> (forall a s', m s = Ok a s' -> no_panic (k a) s') ->
  no_panic (bind m k) s.
Proof.
  unfold no_panic, bind. destruct (m s); try done. intros _ H. by apply H.
Qed.

Lemma no_panic_load p s : no_panic (load p) s.
Proof. unfold no_panic, load. by destruct (heap s !! p). Qed.

Lemma no_panic_ASSERT b why s : b = true -> no_panic (ASSERT b why) s.
Proof. by intros ->. Qed.

Create HintDb npdb.

Ltac np_step :=
  first
    [ solve [auto with npdb]
    | lazymatch goal with
      | |- no_panic (bind _ _) _ => apply no_panic_bind; [|intros ? ? _]
      | |- no_panic (load _) _ => apply no_panic_load
      | |- no_panic (ASSERT _ _) _ => apply no_panic_ASSERT
      | |- no_panic (when ?b _) _ => unfold when; destruct b
      | |- no_panic (if ?b then _ else _) _ => destruct b
      | |- no_panic (match ?o with _ => _ end) _ => destruct o
      | |- no_panic _ _ => exact I
      end ].

Ltac np := repeat np_step.

Lemma copy_from_user_no_panic pages : forall va n s,
  no_panic (copy_from_user pages va n) s.
Proof.
  induction pages as [|k IH]; intros va n s; simpl; [exact I|].
  unfold pagedir_get_page, pagedir_set_accessed. np.
Qed.

#[local] Hint Resolve copy_from_user_no_panic : npdb.

Lemma write_to_disk_no_panic spte s : no_panic (write_to_disk spte) s.
Proof. unfold write_to_disk, pagedir_is_dirty, file_write_at. np. Qed.

#[local] Hint Resolve write_to_disk_no_panic : npdb.

Lemma victim_phase1_no_panic l : forall s, no_panic (victim_phase1 l) s.
Proof.
  induction l as [|fte l IH]; intros s; simpl; [exact I|].
  unfold pagedir_is_dirty, pagedir_is_accessed, pagedir_set_dirty. np.
Qed.

Lemma victim_phase2_no_panic l : forall s, no_panic (victim_phase2 l) s.
Proof.
  induction l as [|fte l IH]; intros s; simpl; [exact I|].
  unfold pagedir_is_dirty, pagedir_is_accessed, pagedir_set_accessed. np.
Qed.

Lemma victim_phase3_no_panic l : forall s, no_panic (victim_phase3 l) s.
Proof. induction l as [|fte l IH]; intros s; simpl; [exact I|]. np. Qed.

#[local] Hint Resolve victim_phase1_no_panic victim_phase2_no_panic
  victim_phase3_no_panic : npdb.

Lemma victim_phase3_some l : forall s n e,
  n ∈ l -> heap s !! fte_spte n.2 = Some e -> pinned e = false ->
  wp Partial (victim_phase3 l) (fun r _ => r <> None) s.
Proof.
  induction l as [|fte l IH]; intros s n e Hin He Hp; simpl;
    [by apply elem_of_nil in Hin|].
  apply wp_bind, wp_load_partial. intros e0 He0.
  destruct (pinned e0) eqn:Hp0; simpl; [|by apply wp_ret].
  apply elem_of_cons in Hin as [-> | Hin]; [congruence|]. by eapply IH.
Qed.

(** X17: the scan for a victim finds one whenever it can: with a frame
    list whose nodes point at live entries, and one of them at an entry
    that is not pinned, [get_victim_frame] returns a node; it comes back
    empty-handed only when every page is pinned. *)
Theorem get_victim_frame_finds_unpinned s n e :
  frame_table_ok s ->
  n ∈ frame_table s -> heap s !! fte_spte n.2 = Some e -> pinned e = false ->
  exists fte s', get_victim_frame s = Ok (Some fte) s'.
Proof.
  intros Hok Hin He Hp.
  assert (no_panic get_victim_frame s) as Hnp.
  { unfold get_victim_frame. apply no_panic_bind; [exact I|].
    intros l s0 [= <- <-]. np.
    apply negb_true_iff, bool_decide_eq_false. intros Hnil.
    rewrite Hnil in Hin. by apply elem_of_nil in Hin. }
  assert (wp Partial get_victim_frame (fun r _ => r <> None) s) as Hsome.
  { unfold get_victim_frame. apply wp_bind, wp_gets. apply wp_bind.
    eapply wp_mono; [apply victim_phase1_spec|]. cbv beta.
    intros r1 s1 [Hio1%only_io_heap _]. destruct r1; [by apply wp_ret|].
    apply wp_bind.
    eapply wp_mono; [apply victim_phase2_spec|]. cbv beta.
    intros r2 s2 [Hio2%only_io_heap _]. destruct r2; [by apply wp_ret|].
    apply wp_bind, wp_ASSERT. intros _.
    eapply victim_phase3_some; [exact Hin| |exact Hp]. congruence. }
  pose proof (get_victim_frame_safe s Hok) as Hsafe.
  unfold no_panic in Hnp. unfold wp in Hsome, Hsafe.
  destruct (get_victim_frame s) as [[fte|] s'| | | |]; try done.
  by eexists _, _.
Qed.

(** *** Leaving the process *)

Lemma no_exit_bind {A B} (m : M A) (k : A -> M B) s :
  no_exit m s -> (forall a s', m s = Ok a s' -> no_exit (k a) s') ->
  no_exit (bind m k) s.
Proof.
  unfold no_exit, bind. destruct (m s); try done. intros _ H. by apply H.
Qed.

Lemma no_exit_load p s : no_exit (load p) s.
Proof. unfold no_exit, load. by destruct (heap s !! p). Qed.

Create HintDb nxdb.

Ltac nx_step :=
  first
    [ solve [auto with nxdb]
    | lazymatch goal with
      | |- no_exit (bind _ _) _ => apply no_exit_bind; [|intros ? ? _]
      | |- no_exit (load _) _ => apply no_exit_load
      | |- no_exit (when ?b _) _ => unfold when; destruct b
      | |- no_exit (if ?b then _ else _) _ => destruct b
      | |- no_exit (match ?o with _ => _ end) _ => destruct o
      | |- no_exit _ _ => exact I
      end ].

Ltac nx := repeat nx_step.

Lemma copy_from_user_no_exit pages : forall va n s,
  no_exit (copy_from_user pages va n) s.
Proof.
  induction pages as [|k IH]; intros va n s; simpl; [exact I|].
  unfold pagedir_get_page, pagedir_set_accessed. nx.
Qed.

#[local] Hint Resolve copy_from_user_no_exit : nxdb.

Lemma write_to_disk_no_exit spte s : no_exit (write_to_disk spte) s.
Proof. unfold write_to_disk, pagedir_is_dirty, file_write_at. nx. Qed.

#[local] Hint Resolve write_to_disk_no_exit : nxdb.

Lemma free_spte_no_exit sp s : no_exit (free_spte sp) s.
Proof.
  unfold free_spte, free_frame, palloc_free_page, pagedir_clear_page,
    hash_delete, free.
  nx.
Qed.

#[local] Hint Resolve free_spte_no_exit : nxdb.

Lemma hash_destroy_no_exit h elems : forall s,
  no_exit (hash_destroy h elems free_spte_elem) s.
Proof.
  induction elems as [|[k p] elems IH]; intros s; simpl; [exact I|].
  unfold hash_delete, free_spte_elem. nx.
Qed.

Lemma destroy_spt_no_exit h s : no_exit (destroy_spt h) s.
Proof. unfold destroy_spt. nx. apply hash_destroy_no_exit. Qed.

Section Leaving.

Context (K : kconsts).

Lemma close_files_no_exit fds : forall s, no_exit (close_files fds) s.
Proof.
  induction fds as [|fd fds IH]; intros s; simpl; [exact I|].
  unfold close_file, file_close. nx.
Qed.

Lemma close_files_closes fds : forall s,
  wp Partial (close_files fds)
     (fun _ s' =>
        cur s' = cur s /\ supp_page_table s' = supp_page_table s /\
        (forall t fd, fd ∉ fds -> fd_table s' !! (t, fd) = fd_table s !! (t, fd)) /\
        (forall fd, fd ∈ fds -> fd_table s' !! (cur s, fd) = None)) s.
Proof.
  induction fds as [|fd fds IH]; intros s; simpl.
  { wp_steps. repeat split. by intros fd ?%elem_of_nil. }
  unfold close_file, file_close.
  wp_steps;
    match goal with H : _ /\ _ |- _ => destruct H as (Hc & Hs & Hk & Hfd) end;
    proj_simpl; (split; [done|]); (split; [done|]).
  - split.
    + intros t fd' [Hne Hnin]%not_elem_of_cons.
      rewrite Hk by done. apply lookup_delete_ne. congruence.
    + intros fd' [-> | Hin]%elem_of_cons; [|by apply Hfd].
      destruct (decide (fd ∈ fds)) as [Hin | Hnin]; [by apply Hfd|].
      rewrite Hk by done. apply lookup_delete_eq.
  - split.
    + intros t fd' [Hne Hnin]%not_elem_of_cons. by apply Hk.
    + intros fd' [-> | Hin]%elem_of_cons; [|by apply Hfd].
      destruct (decide (fd ∈ fds)) as [Hin | Hnin]; [by apply Hfd|].
      by rewrite Hk.
Qed.

Lemma free_spte_keeps sp s :
  wp Partial (free_spte sp)
     (fun _ s' => cur s' = cur s /\ fd_table s' = fd_table s /\
                  spt_shrinks s s') s.
Proof.
  unfold free_spte, free_frame, palloc_free_page, pagedir_clear_page,
    hash_delete, free.
  wp_steps;
    repeat match goal with
           | H : only_io _ _ |- _ => destruct H as (? & ? & ->)
           end;
    proj_simpl; repeat split; try done;
    first [apply spt_shrinks_refl | apply (spt_shrinks_delete _ s)].
Qed.

Lemma hash_destroy_empties h elems : forall s,
  wp Partial (hash_destroy h elems free_spte_elem)
     (fun _ s' =>
        cur s' = cur s /\ fd_table s' = fd_table s /\ spt_shrinks s s' /\
        forall k p, (k, p) ∈ elems -> k.1 = h ->
                    supp_page_table s' !! k = None) s.
Proof.
  induction elems as [|[k p] elems IH]; intros s; simpl.
  { wp_steps. repeat split; [apply spt_shrinks_refl|].
    by intros k p ?%elem_of_nil. }
  apply wp_bind.
  apply (wp_mono _ _ (fun _ s1 =>
           cur s1 = cur s /\ fd_table s1 = fd_table s /\ spt_shrinks s s1 /\
           (k.1 = h -> supp_page_table s1 !! k = None))).
  - apply wp_when; intros Hk.
    + apply bool_decide_eq_true in Hk.
      unfold hash_delete, free_spte_elem. apply wp_bind, wp_modify.
      eapply wp_mono; [apply free_spte_keeps|]. cbv beta; proj_simpl.
      intros _ s1 (Hc & Hfd & Hsh). repeat split; try done.
      * eapply spt_shrinks_trans; [apply (spt_shrinks_delete (h, k.2) s)|done].
      * intros _. destruct (Hsh k) as [-> | ->]; [done|]. proj_simpl.
        destruct k as [k1 k2]; simpl in *; subst k1. apply lookup_delete_eq.
    + repeat split; [apply spt_shrinks_refl|]. intros Heq.
      by rewrite bool_decide_eq_true_2 in Hk.
  - cbv beta. intros _ s1 (Hc & Hfd & Hsh & Hk).
    eapply wp_mono; [apply IH|]. cbv beta.
    intros _ s2 (Hc2 & Hfd2 & Hsh2 & Hrest).
    split; [congruence|]. split; [congruence|].
    split; [by eapply spt_shrinks_trans|].
    intros k' p' [[= -> ->] | Hin]%elem_of_cons Hh; [|by eapply Hrest].
    destruct (Hsh2 k) as [-> | ->]; [done|by apply Hk].
Qed.

(** X7: [exit] never returns to its caller; when it leaves, it leaves
    with the status it was given, every descriptor from 2 up to
    [MAX_FILES] of the running thread is closed, the descriptors outside
    that range are as they were, and the supplemental page table of the
    thread is empty. *)
Theorem exit_with_leaves {A} status s :
  match exit_with K (A:=A) status s with
  | Ok _ _ => False
  | Exit st s' =>
      st = status /\ cur s' = cur s /\
      (forall fd, 2 <= fd < MAX_FILES K -> fd_table s' !! (cur s, fd) = None) /\
      (forall t fd, ~ 2 <= fd < MAX_FILES K ->
                    fd_table s' !! (t, fd) = fd_table s !! (t, fd)) /\
      (forall u, supp_page_table s' !! (cur s, u) = None)
  | _ => True
  end.
Proof.
  unfold exit_with, bind at 1.
  pose proof (close_files_no_exit (seqZ 2 (MAX_FILES K - 2)) s) as Hnx.
  pose proof (close_files_closes (seqZ 2 (MAX_FILES K - 2)) s) as Hwp.
  unfold no_exit in Hnx. unfold wp in Hwp.
  destruct (close_files _ s) as [[] s1| | | |]; try done.
  destruct Hwp as (Hc & Hs & Hk & Hfd). exec. unfold bind.
  pose proof (destroy_spt_no_exit (cur s1) s1) as Hnx2.
  assert (wp Partial (destroy_spt (cur s1))
            (fun _ s' =>
               cur s' = cur s1 /\ fd_table s' = fd_table s1 /\
               spt_shrinks s1 s' /\
               forall k p, (k, p) ∈ map_to_list (supp_page_table s1) ->
                           k.1 = cur s1 -> supp_page_table s' !! k = None) s1)
    as Hwp2.
  { unfold destroy_spt. wp_steps. apply hash_destroy_empties. }
  unfold no_exit in Hnx2. unfold wp in Hwp2.
  destruct (destroy_spt _ s1) as [[] s2| | | |]; try done.
  destruct Hwp2 as (Hc2 & Hfd2 & Hsh2 & Hall). unfold terminate.
  split; [done|]. split; [congruence|]. rewrite Hfd2.
  split; [|split].
  - intros fd Hr. apply Hfd. apply elem_of_seqZ. lia.
  - intros t fd Hr. apply Hk. rewrite elem_of_seqZ. lia.
  - intros u. rewrite <- Hc, <- Hc2.
    destruct (supp_page_table s2 !! (cur s2, u)) as [p|] eqn:Hp; [|done].
    destruct (Hsh2 (cur s2, u)) as [Hn | He]; [congruence|].
    rewrite <- Hp. apply (Hall (cur s2, u) p); [|done].
    apply elem_of_map_to_list. congruence.
Qed.

Lemma bind_not_Ok_l {A B} (m : M A) (k : A -> M B) s :
  (forall a s', m s <> Ok a s') -> forall b s', bind m k s <> Ok b s'.
Proof. unfold bind. intros H b s'. destruct (m s) as [a s1| | | |]; try done.
  by destruct (H a s1). Qed.

Lemma bind_not_Ok_r {A B} (m : M A) (k : A -> M B) s :
  (forall a s1, m s = Ok a s1 -> forall b s', k a s1 <> Ok b s') ->
  forall b s', bind m k s <> Ok b s'.
Proof. unfold bind. intros H b s'. destruct (m s) as [a s1| | | |]; try done.
  by apply H. Qed.

Lemma exit_with_not_Ok {A} status s (a : A) s' :
  exit_with K status s <> Ok a s'.
Proof.
  unfold exit_with. revert a s'.
  apply bind_not_Ok_r. intros _ s1 _. apply bind_not_Ok_r. intros t s2 _.
  apply bind_not_Ok_r. intros _ s3 _. done.
Qed.

Lemma valid_up_kernel esp ptr s :
  ptr = 0 \/ PHYS_BASE <= ptr -> forall a s', valid_up K esp ptr s <> Ok a s'.
Proof.
  intros Hptr. unfold valid_up. rewrite bind_gets. cbv beta.
  apply bind_not_Ok_l.
  assert ((ptr =? 0) || negb (is_user_vaddr ptr) = true) as ->.
  { unfold is_user_vaddr. destruct Hptr as [-> | Hk]; [done|].
    apply orb_true_iff. right. apply negb_true_iff, Z.ltb_ge. done. }
  intros a s'. apply exit_with_not_Ok.
Qed.

Lemma valid_up_each_kernel esp ptr steps i : forall s,
  i ∈ steps -> PHYS_BASE <= wrap32 (ptr + i) ->
  forall a s', valid_up_each K esp ptr steps s <> Ok a s'.
Proof.
  induction steps as [|i' steps IH]; intros s Hin Hk; [by apply elem_of_nil in Hin|].
  simpl. apply elem_of_cons in Hin as [<- | Hin].
  - apply bind_not_Ok_l. apply valid_up_kernel. by right.
  - apply bind_not_Ok_r. intros _ s1 _. by apply IH.
Qed.

Lemma elem_of_page_steps i size :
  i ∈ page_steps size <-> exists k, 1 <= k /\ i = PGSIZE * k /\ i < size.
Proof.
  unfold page_steps. rewrite list_elem_of_filter, list_elem_of_fmap.
  unfold PGSIZE. split.
  - intros [Hlt (k & -> & Hk%elem_of_seqZ)]. exists (k + 1). lia.
  - intros (k & Hk & -> & Hlt). split; [done|]. exists (k - 1).
    split; [lia|]. apply elem_of_seqZ.
    assert (k <= size / 4096); [|lia].
    apply Z.div_le_lower_bound; lia.
Qed.

(** X8: [validate] never admits a buffer that reaches kernel memory:
    when some byte of the buffer lies at or above [PHYS_BASE], also after
    the end of the buffer wrapped around the address space, the call does
    not return. *)
Theorem validate_never_admits_kernel_memory esp ptr size j s :
  0 <= ptr < 2 ^ 32 -> 0 < size < 2 ^ 31 -> 0 <= j < size ->
  is_user_vaddr (wrap32 (ptr + j)) = false ->
  never_returns (validate K esp ptr size) s.
Proof.
  intros Hptr Hsize Hj Hk. unfold is_user_vaddr in Hk.
  assert (forall s', validate K esp ptr size s <> Ok tt s') as Hno.
  { apply Z.ltb_ge in Hk. unfold validate.
    destruct (Z_lt_ge_dec ptr PHYS_BASE) as [Huser | Hkern].
    2:{ apply bind_not_Ok_l. apply valid_up_kernel. right. lia. }
    intros s'. apply bind_not_Ok_r. intros _ s1 _.
    assert (PHYS_BASE <= ptr + j) as Hreach.
    { unfold wrap32, PHYS_BASE in *.
      destruct (Z_lt_ge_dec (ptr + j) (2 ^ 32)).
      - rewrite Z.mod_small in Hk; lia.
      - lia. }
    destruct (Z_lt_ge_dec (ptr + size - 1) (2 ^ 32)) as [Hfit | Hwrap].
    - apply bind_not_Ok_l.
      destruct (Z.eqb_spec size 1) as [-> | Hne]; [lia|]. simpl.
      apply valid_up_kernel. right. unfold wrap32.
      rewrite Z.mod_small; lia.
    - apply bind_not_Ok_r. intros _ s2 _.
      apply (valid_up_each_kernel esp ptr _
               (PGSIZE * ((PHYS_BASE - ptr + PGSIZE - 1) / PGSIZE))).
      + apply elem_of_page_steps. eexists. split; [|split; [reflexivity|]].
        * apply Z.div_le_lower_bound; unfold PGSIZE, PHYS_BASE in *; lia.
        * pose proof (Z.mul_div_le (PHYS_BASE - ptr + PGSIZE - 1) PGSIZE).
          unfold PGSIZE, PHYS_BASE in *. lia.
      + pose proof (Z.mul_div_le (PHYS_BASE - ptr + PGSIZE - 1) PGSIZE).
        pose proof (Z.mul_succ_div_gt (PHYS_BASE - ptr + PGSIZE - 1) PGSIZE).
        unfold wrap32. unfold PGSIZE, PHYS_BASE in *.
        rewrite Z.mod_small; lia. }
  unfold never_returns.
  destruct (validate K esp ptr size s) as [[] s'| | | |] eqn:E; [|done..].
  by destruct (Hno s').
Qed.

(** *** Pinning of the pages a system call touches *)

Lemma pins_to_refl b s : pins_to b s s.
Proof. repeat split; [done|by left|]. intros p e He. by exists e. Qed.

Lemma pins_to_trans b s1 s2 s3 :
  pins_to b s1 s2 -> pins_to b s2 s3 -> pins_to b s1 s3.
Proof.
  intros (Hc & Ht & Hn & Hh) (Hc' & Ht' & Hn' & Hh'). split; [congruence|].
  split; [by intros k p ?%Ht%Ht'|]. split.
  - intros k p [H2 | H3]%Hn'; [|by right].
    destruct (Hn k p H2) as [H1 | (e & He & Hp)]; [by left|right].
    destruct (Hh' p e He) as (e' & He' & Hp'). exists e'. auto.
  - intros p e He. destruct (Hh p e He) as (e1 & He1 & Hp1).
    destruct (Hh' p e1 He1) as (e2 & He2 & Hp2). exists e2. split; [done|].
    by intros ?%Hp1%Hp2.
Qed.

Lemma pins_to_same b s0 s s' :
  pins_to b s0 s -> cur s' = cur s ->
  supp_page_table s' = supp_page_table s -> heap s' = heap s ->
  pins_to b s0 s'.
Proof. intros (Hc & Ht & Hh) Hc' Ht' Hh'. unfold pins_to.
  by rewrite Hc', Ht', Hh'. Qed.

Lemma pins_to_insert b s0 s p e' :
  pins_to b s0 s ->
  (forall e, heap s !! p = Some e -> pinned e = b -> pinned e' = b) ->
  pins_to b s0 (upd_heap (<[p := e']>) s).
Proof.
  intros (Hc & Ht & Hn & Hh) Hp. split; [done|]. split; [done|]. proj_simpl.
  split.
  - intros k q [H0 | (e & He & Hpe)]%Hn; [by left|right].
    destruct (decide (q = p)) as [-> | Hne].
    + exists e'. rewrite lookup_insert_eq. split; [done|]. by eapply Hp.
    + exists e. by rewrite lookup_insert_ne.
  - intros q e He. destruct (Hh q e He) as (e1 & He1 & Hp1).
    destruct (decide (q = p)) as [-> | Hne].
    + exists e'. rewrite lookup_insert_eq. split; [done|].
      intros ?%Hp1. by eapply Hp.
    + exists e1. by rewrite lookup_insert_ne.
Qed.

Lemma evicts_pins_to b s s' : evicts s s' -> pins_to b s s'.
Proof.
  intros (Ht & Hc & _ & _ & _ & Hh). split; [done|].
  split; [by rewrite Ht|]. split; [rewrite Ht; by left|].
  intros p e He. destruct (Hh p e He) as (e1 & He1 & Hk). exists e1.
  split; [done|]. destruct Hk as (_ & -> & _). done.
Qed.

Lemma page_pin_pins_to b s s' va :
  pins_to b s s' -> page_pin b s va -> page_pin b s' va.
Proof.
  intros (Hc & Ht & Hn & Hh) Hpin sp Hsp. rewrite Hc in Hsp.
  destruct (Hn _ _ Hsp) as [Hold | Hnew]; [|done].
  destruct (Hpin sp Hold) as (e & He & Hp).
  destruct (Hh sp e He) as (e' & He' & Hp'). exists e'. auto.
Qed.

Ltac pins :=
  repeat first
    [ assumption
    | apply pins_to_refl
    | apply pins_to_insert;
        [|let e := fresh in let He := fresh in
          intros e He;
          match goal with
          | H : heap ?s !! ?p = Some ?e1 |- _ =>
              assert (e = e1) as -> by congruence
          end; done]
    | match goal with
      | |- pins_to _ _ (_ _ ?s) => apply (pins_to_same _ _ s); [|done..]
      end ].

Lemma install_load_page_pins b sp s :
  wp Partial (install_load_page K sp) (fun _ s' => pins_to b s s') s.
Proof.
  unfold install_load_page, install_load_mmap, install_load_file,
    install_load_swap, get_frame_for_page, add_to_frame_table, malloc,
    install_page, pagedir_get_page, pagedir_set_page, free_frame,
    palloc_free_page, assign, store, file_seek, file_read, swap_in.
  wp_steps; try done;
    match goal with
    | H : evicts _ _ |- _ => apply (evicts_pins_to b) in H
    end;
    pins.
Qed.

Lemma wp_exit_with {A} status (Q : A -> state -> Prop) s :
  wp Partial (exit_with K status) Q s.
Proof.
  unfold wp. destruct (exit_with K status s) as [a s'| | | |] eqn:E; try done.
  by destruct (exit_with_not_Ok status s a s').
Qed.

Lemma create_spte_code_spec upage s :
  wp Partial (create_spte_code upage)
     (fun p s1 =>
        heap s !! p = None /\ cur s1 = cur s /\
        frame_table s1 = frame_table s /\
        heap s1 =
          <[p := SptEntry CODE upage None false false BITMAP_ERROR
                   (file (junk s)) (ofs (junk s)) (writable (junk s))
                   (page_read_bytes (junk s)) (page_zero_bytes (junk s))]>
            (heap s) /\
        supp_page_table s1 =
          match supp_page_table s !! (cur s, upage) with
          | Some _ => supp_page_table s
          | None => <[(cur s, upage) := p]> (supp_page_table s)
          end) s.
Proof.
  unfold create_spte_code, create_spte, malloc, hash_insert, assign, store.
  wp_steps; (split; [apply malloc_fresh|]); proj_simpl; (split; [done|]);
    (split; [done|]);
    (split;
     [rewrite !insert_insert_eq
     |by match goal with H : supp_page_table s !! _ = _ |- _ => rewrite H end]).
  all: repeat match goal with
         | H : <[_ := _]> _ !! _ = Some _ |- _ =>
             rewrite lookup_insert_eq in H; injection H as <-
         end; done.
Qed.

Lemma grow_stack_pins uaddr s :
  wp Partial (grow_stack K uaddr true)
     (fun _ s' =>
        pins_to true s s' /\
        (supp_page_table s !! (cur s, pg_round_down uaddr) = None ->
         page_pin true s' uaddr)) s.
Proof.
  unfold grow_stack. wp_step.
  { wp_steps. split; [apply pins_to_refl|]. intros Hnone sp Hsp. congruence. }
  apply wp_bind. eapply wp_mono; [apply create_spte_code_spec|]. cbv beta.
  intros p s1 (Hfresh & Hc & _ & Hheap & Hspt).
  unfold assign, store. apply wp_bind, wp_bind, wp_load_partial.
  intros e1 He1. apply wp_modify.
  assert (pins_to true s (upd_heap (<[p := with_pinned true e1]>) s1) /\
          (supp_page_table s !! (cur s, pg_round_down uaddr) = None ->
           page_pin true (upd_heap (<[p := with_pinned true e1]>) s1) uaddr))
    as [Hmid Hpin].
  { split.
    - split; [done|]. proj_simpl. rewrite Hspt, Hheap. split; [|split].
      + intros k q Hk. destruct (supp_page_table s !! (cur s, _)) eqn:Hold;
          [done|]. rewrite lookup_insert_ne; [done|congruence].
      + intros k q Hk. destruct (supp_page_table s !! (cur s, _)) eqn:Hold;
          [by left|].
        destruct (decide (k = (cur s, pg_round_down uaddr))) as [-> | Hne].
        * rewrite lookup_insert_eq in Hk. injection Hk as <-. right.
          rewrite lookup_insert_eq. by eexists.
        * rewrite lookup_insert_ne in Hk by done. by left.
      + intros q e0 He0. exists e0.
        rewrite !lookup_insert_ne; [done|congruence..].
    - intros Hnone sp Hsp. proj_simpl. rewrite Hc, Hspt, Hnone in Hsp.
      rewrite lookup_insert_eq in Hsp. injection Hsp as <-.
      rewrite lookup_insert_eq. by eexists. }
  eapply wp_mono; [apply (install_load_page_pins true)|]. cbv beta.
  intros r s2 Hload. split; [by eapply pins_to_trans|].
  intros Hnone. eapply page_pin_pins_to; [exact Hload|by apply Hpin].
Qed.

Lemma page_pin_same_page b s va va' :
  pg_round_down va' = pg_round_down va -> page_pin b s va -> page_pin b s va'.
Proof. unfold page_pin. by intros ->. Qed.

Lemma valid_up_pins esp ptr s :
  wp Partial (valid_up K esp ptr)
     (fun _ s' => pins_to true s s' /\ page_pin true s' ptr) s.
Proof.
  unfold valid_up. apply wp_bind, wp_gets. apply wp_bind.
  apply wp_when; [intros _; apply wp_exit_with|intros _].
  unfold uvaddr_to_spt_entry, hash_find, pagedir_get_page, assign, store.
  apply wp_bind, wp_bind, wp_gets, wp_gets.
  destruct (supp_page_table s !! (cur s, pg_round_down ptr)) as [sp|] eqn:Hsp.
  - apply wp_bind, wp_bind, wp_load_partial. intros e He. apply wp_modify.
    apply wp_bind, wp_gets. proj_simpl.
    assert (pins_to true s (upd_heap (<[sp := with_pinned true e]>) s))
      as Hmid by (apply pins_to_insert; [apply pins_to_refl|done]).
    assert (page_pin true (upd_heap (<[sp := with_pinned true e]>) s) ptr)
      as Hpin.
    { intros sp' Hsp'. proj_simpl. rewrite Hsp in Hsp'. injection Hsp' as <-.
      rewrite lookup_insert_eq. by eexists. }
    destruct (pte_kpage <$> pagedir s !! (cur s, pg_round_down ptr)).
    + by apply wp_ret.
    + apply wp_bind. eapply wp_mono; [apply (install_load_page_pins true)|].
      cbv beta. intros ok s' Hload. apply wp_when.
      * intros _. apply wp_exit_with.
      * intros _. split; [by eapply pins_to_trans|].
        by eapply page_pin_pins_to.
  - apply wp_bind, wp_gets.
    destruct (pte_kpage <$> pagedir s !! (cur s, pg_round_down ptr)).
    + apply wp_ret. split; [apply pins_to_refl|]. intros sp Hsp'. congruence.
    + destruct (_ <=? _); [|apply wp_exit_with].
      apply wp_bind. eapply wp_mono; [apply grow_stack_pins|]. cbv beta.
      intros ok s' [Hto Hpin]. apply wp_when.
      * intros _. apply wp_exit_with.
      * intros _. split; [done|]. by apply Hpin.
Qed.

Lemma valid_up_each_pins esp ptr steps : forall s,
  wp Partial (valid_up_each K esp ptr steps)
     (fun _ s' =>
        pins_to true s s' /\
        forall i, i ∈ steps -> page_pin true s' (wrap32 (ptr + i))) s.
Proof.
  induction steps as [|i steps IH]; intros s; simpl.
  { apply wp_ret. split; [apply pins_to_refl|]. by intros i ?%elem_of_nil. }
  apply wp_bind. eapply wp_mono; [apply valid_up_pins|]. cbv beta.
  intros _ s1 [Hto Hpin]. eapply wp_mono; [apply IH|]. cbv beta.
  intros _ s2 [Hto2 Hpins]. split; [by eapply pins_to_trans|].
  intros i' [-> | Hin]%elem_of_cons; [|by apply Hpins].
  by eapply page_pin_pins_to.
Qed.

Lemma validate_pins esp ptr size s :
  wp Partial (validate K esp ptr size)
     (fun _ s' =>
        pins_to true s s' /\ page_pin true s' ptr /\
        (size <> 1 -> page_pin true s' (wrap32 (ptr + size - 1))) /\
        forall i, i ∈ page_steps size -> page_pin true s' (wrap32 (ptr + i))) s.
Proof.
  unfold validate. apply wp_bind. eapply wp_mono; [apply valid_up_pins|].
  cbv beta. intros _ s1 [Hto1 Hpin1]. apply wp_bind.
  apply (wp_mono _ _ (fun _ s2 =>
           pins_to true s1 s2 /\
           (size <> 1 -> page_pin true s2 (wrap32 (ptr + size - 1))))).
  { apply wp_when.
    - intros _. eapply wp_mono; [apply valid_up_pins|]. cbv beta.
      intros _ s2 [Hto2 Hpin2]. done.
    - intros Hone. split; [apply pins_to_refl|]. intros Hne.
      apply negb_false_iff, Z.eqb_eq in Hone. done. }
  cbv beta. intros _ s2 [Hto2 Hpin2].
  eapply wp_mono; [apply valid_up_each_pins|]. cbv beta.
  intros _ s3 [Hto3 Hpins]. split; [|split; [|split; [|done]]].
  - eapply pins_to_trans; [|exact Hto3]. by eapply pins_to_trans.
  - eapply page_pin_pins_to; [exact Hto3|]. by eapply page_pin_pins_to.
  - intros Hne. eapply page_pin_pins_to; [exact Hto3|]. by apply Hpin2.
Qed.

Lemma page_covered ptr size j :
  0 <= ptr -> 0 <= j < size ->
  (ptr + j) / 4096 = ptr / 4096 \/
  (ptr + j) / 4096 = (ptr + size - 1) / 4096 \/
  exists k, 1 <= k /\ 4096 * k < size /\
            (ptr + j) / 4096 = (ptr + 4096 * k) / 4096.
Proof.
  intros Hptr Hj.
  destruct (decide ((ptr + j) / 4096 = (ptr + 4096 * (j / 4096)) / 4096))
    as [Hsame | Hnext].
  - destruct (decide (j / 4096 = 0)) as [Hz | Hnz].
    + left. rewrite Hsame, Hz. f_equal. lia.
    + right. right. exists (j / 4096). split; [|split; [|done]].
      * assert (0 <= j / 4096) by (apply Z.div_pos; lia). lia.
      * pose proof (Z.mul_div_le j 4096). lia.
  - destruct (Z_lt_ge_dec (4096 * (j / 4096 + 1)) size) as [Hin | Hout].
    + right. right. exists (j / 4096 + 1). split; [|split; [done|]].
      * assert (0 <= j / 4096) by (apply Z.div_pos; lia). lia.
      * revert Hnext. Z.div_mod_to_equations. lia.
    + right. left. revert Hnext. Z.div_mod_to_equations. lia.
Qed.

(** X9: when [validate] returns, every page of the buffer is pinned:
    whichever byte of the buffer one takes, the entry of its page in the
    table of the running thread, if there is one, is live and pinned. *)
Theorem validate_pins_buffer esp ptr size j s s' sp :
  0 <= ptr -> ptr + size <= 2 ^ 32 -> size < 2 ^ 31 -> 0 <= j < size ->
  validate K esp ptr size s = Ok tt s' ->
  supp_page_table s' !! (cur s', pg_round_down (ptr + j)) = Some sp ->
  exists e, heap s' !! sp = Some e /\ pinned e = true.
Proof.
  intros Hptr Hend Hsize Hj Hrun.
  pose proof (validate_pins esp ptr size s) as Hwp.
  eapply wp_Ok in Hwp; [|exact Hrun].
  destruct Hwp as (_ & Hfirst & Hlast & Hsteps).
  revert sp. change (page_pin true s' (ptr + j)).
  destruct (page_covered ptr size j Hptr Hj) as [E | [E | (k & Hk1 & Hk2 & E)]].
  - eapply page_pin_same_page; [|exact Hfirst].
    rewrite !pg_round_down_div by lia. unfold PGSIZE. by rewrite E.
  - destruct (decide (size = 1)) as [-> | Hne].
    { replace j with 0 by lia. by rewrite Z.add_0_r. }
    eapply page_pin_same_page; [|exact (Hlast Hne)].
    unfold wrap32. rewrite (Z.mod_small (ptr + size - 1)) by lia.
    rewrite !pg_round_down_div by lia. unfold PGSIZE. by rewrite E.
  - eapply page_pin_same_page; [|apply (Hsteps (PGSIZE * k))].
    + unfold wrap32, PGSIZE. rewrite (Z.mod_small (ptr + 4096 * k)) by lia.
      rewrite !pg_round_down_div by lia. unfold PGSIZE. by rewrite E.
    + apply elem_of_page_steps. exists k. unfold PGSIZE. lia.
Qed.

Lemma unpin_pins va s :
  wp Partial (unpin va)
     (fun _ s' => pins_to false s s' /\ page_pin false s' va) s.
Proof.
  unfold unpin, uvaddr_to_spt_entry, hash_find, assign, store.
  apply wp_bind, wp_bind, wp_gets, wp_gets.
  destruct (supp_page_table s !! (cur s, pg_round_down va)) as [sp|] eqn:Hsp.
  - apply wp_bind, wp_load_partial. intros e He. apply wp_modify. split.
    + apply pins_to_insert; [apply pins_to_refl|done].
    + intros sp' Hsp'. proj_simpl. rewrite Hsp in Hsp'. injection Hsp' as <-.
      rewrite lookup_insert_eq. by eexists.
  - apply wp_ret. split; [apply pins_to_refl|]. intros sp Hsp'. congruence.
Qed.

Lemma unpin_each_pins buffer steps : forall s,
  wp Partial (unpin_each buffer steps)
     (fun _ s' =>
        pins_to false s s' /\
        forall i, i ∈ steps -> page_pin false s' (wrap32 (buffer + i))) s.
Proof.
  induction steps as [|i steps IH]; intros s; simpl.
  { apply wp_ret. split; [apply pins_to_refl|]. by intros i ?%elem_of_nil. }
  apply wp_bind. eapply wp_mono; [apply unpin_pins|]. cbv beta.
  intros _ s1 [Hto Hpin]. eapply wp_mono; [apply IH|]. cbv beta.
  intros _ s2 [Hto2 Hpins]. split; [by eapply pins_to_trans|].
  intros i' [-> | Hin]%elem_of_cons; [|by apply Hpins].
  by eapply page_pin_pins_to.
Qed.

(** X10: when [unpin_buffer] returns, no page of the buffer is pinned:
    whichever byte of the buffer one takes, the entry of its page in the
    table of the running thread, if there is one, is live and not
    pinned. *)
Theorem unpin_buffer_unpins buffer size j s s' sp :
  0 <= buffer -> buffer + size <= 2 ^ 32 -> size < 2 ^ 31 -> 0 <= j < size ->
  unpin_buffer buffer size s = Ok tt s' ->
  supp_page_table s' !! (cur s', pg_round_down (buffer + j)) = Some sp ->
  exists e, heap s' !! sp = Some e /\ pinned e = false.
Proof.
  intros Hptr Hend Hsize Hj Hrun.
  assert (wp Partial (unpin_buffer buffer size)
            (fun _ s' =>
               page_pin false s' buffer /\
               page_pin false s' (wrap32 (buffer + size - 1)) /\
               forall i, i ∈ page_steps size ->
                         page_pin false s' (wrap32 (buffer + i))) s) as Hwp.
  { unfold unpin_buffer. apply wp_bind.
    eapply wp_mono; [apply unpin_pins|]. cbv beta. intros _ s1 [_ H1].
    apply wp_bind. eapply wp_mono; [apply unpin_pins|]. cbv beta.
    intros _ s2 [Hto2 H2]. eapply wp_mono; [apply unpin_each_pins|].
    cbv beta. intros _ s3 [Hto3 H3]. split; [|split; [|done]].
    - eapply page_pin_pins_to; [exact Hto3|]. by eapply page_pin_pins_to.
    - by eapply page_pin_pins_to. }
  eapply wp_Ok in Hwp; [|exact Hrun].
  destruct Hwp as (Hfirst & Hlast & Hsteps).
  revert sp. change (page_pin false s' (buffer + j)).
  destruct (page_covered buffer size j Hptr Hj)
    as [E | [E | (k & Hk1 & Hk2 & E)]].
  - eapply page_pin_same_page; [|exact Hfirst].
    rewrite !pg_round_down_div by lia. unfold PGSIZE. by rewrite E.
  - eapply page_pin_same_page; [|exact Hlast].
    unfold wrap32. rewrite (Z.mod_small (buffer + size - 1)) by lia.
    rewrite !pg_round_down_div by lia. unfold PGSIZE. by rewrite E.
  - eapply page_pin_same_page; [|apply (Hsteps (PGSIZE * k))].
    + unfold wrap32, PGSIZE. rewrite (Z.mod_small (buffer + 4096 * k)) by lia.
      rewrite !pg_round_down_div by lia. unfold PGSIZE. by rewrite E.
    + apply elem_of_page_steps. exists k. unfold PGSIZE. lia.
Qed.

(** *** Pinned pages and frame allocation *)

Lemma spares_pinned_refl s : spares_pinned s s.
Proof. by intros p e. Qed.

Lemma spares_pinned_trans s1 s2 s3 :
  spares_pinned s1 s2 -> spares_pinned s2 s3 -> spares_pinned s1 s3.
Proof. intros H H' p e He Hp. apply H'; [by apply H|done]. Qed.

Lemma evict_frame_local fte s :
  wp Partial (evict_frame fte)
     (fun _ s' => forall p, p <> fte_spte fte.2 ->
                            heap s' !! p = heap s !! p) s.
Proof.
  unfold evict_frame, evict_code, swap_out, clear_frame_entry,
    pagedir_is_dirty, pagedir_clear_page, palloc_free_page, assign, store.
  wp_steps;
    repeat match goal with
           | H : only_io _ _ |- _ => destruct H as (? & ? & ->)
           end;
    intros q Hq; proj_simpl; by rewrite ?lookup_insert_ne.
Qed.

Lemma palloc_get_page_heap flags s :
  wp Partial (palloc_get_page K flags) (fun _ s' => heap s' = heap s) s.
Proof. unfold palloc_get_page. by wp_steps. Qed.

Lemma evict_until_frame_spares fuel flags : forall s,
  wp Partial (evict_until_frame K fuel flags)
     (fun _ s' => spares_pinned s s') s.
Proof.
  induction fuel as [|fuel IH]; intros s; simpl; [done|].
  wp_steps.
  eapply wp_mono; [apply get_victim_frame_spec|]. cbv beta.
  intros a s1 [Hio Hr]. destruct a as [fte|]; [|by wp_steps].
  destruct Hr as (_ & e & He & Hp).
  pose proof (only_io_heap _ _ Hio) as Hheap.
  wp_steps.
  eapply wp_mono; [apply evict_frame_local|]. cbv beta.
  intros r s2 Hlocal.
  assert (spares_pinned s s2) as Hsp.
  { intros q eq Hq Hpin. rewrite Hlocal, Hheap; [done|].
    intros ->. rewrite <- Hheap in Hq. congruence. }
  destruct r; [|by wp_steps].
  apply wp_bind. eapply wp_mono; [apply palloc_get_page_heap|]. cbv beta.
  intros fr s3 Hh3.
  assert (spares_pinned s s3) as Hsp3.
  { intros q eq Hq Hpin. rewrite Hh3. by apply Hsp. }
  destruct fr as [fr|]; [by wp_steps|].
  eapply wp_mono; [apply IH|]. cbv beta. intros fr s4 Hsp4.
  by eapply spares_pinned_trans.
Qed.

(** X11: allocating a frame for a page, with whatever eviction it takes,
    leaves every pinned entry exactly as it was: a pinned page is never
    the victim and keeps its frame. *)
Theorem get_frame_for_page_spares_pinned flags sp s r s' p e :
  get_frame_for_page K flags sp s = Ok r s' ->
  heap s !! p = Some e -> pinned e = true ->
  heap s' !! p = Some e.
Proof.
  intros Hrun. revert p e. change (spares_pinned s s').
  assert (wp Partial (get_frame_for_page K flags sp)
            (fun _ s' => spares_pinned s s') s) as Hwp.
  { unfold get_frame_for_page, frame_alloc, add_to_frame_table, malloc.
    destruct sp as [sp|]; [|apply wp_ret, spares_pinned_refl].
    wp_step; [apply wp_ret, spares_pinned_refl|].
    apply wp_bind, wp_bind.
    eapply wp_mono; [apply palloc_get_page_heap|]. cbv beta.
    intros fr s1 Hh1. destruct fr as [fr|].
    - wp_steps. intros q eq Hq Hpin. proj_simpl. by rewrite Hh1.
    - apply wp_bind, wp_gets. apply wp_bind.
      eapply wp_mono; [apply evict_until_frame_spares|]. cbv beta.
      intros fr s2 Hsp2. wp_steps.
      intros q eq Hq Hpin. proj_simpl. apply Hsp2; [by rewrite Hh1|done]. }
  by eapply wp_Ok in Hwp.
Qed.

(** X12: [get_frame_for_page] keeps the accounting of frames: when the
    frame list is consistent and the flags select the user pool, the list
    is consistent again after the call, the frame returned is the last
    node of the list, owned by the running thread for the entry given, and
    every other node was there before. *)
Theorem get_frame_for_page_keeps_accounts flags sp s fr s' :
  user_flags K flags -> frames_ok s ->
  get_frame_for_page K flags (Some sp) s = Ok (Some fr) s' ->
  frames_ok s' /\
  exists p l, frame_table s' = l ++ [(p, Fte fr sp (cur s))] /\
              forall n, n ∈ l -> n ∈ frame_table s.
Proof.
  intros Hflags Hok Hrun.
  pose proof (get_frame_for_page_alloc K flags sp s Hflags Hok) as Hwp.
  eapply wp_Ok in Hwp; [|exact Hrun].
  destruct (Hwp fr eq_refl) as (s1 & p & Hpost & Hp & ->).
  destruct Hpost as (Hev & (Ha & Hf & Hu) & Hfr & Hnew).
  destruct Hev as (_ & Hc & _ & Hsub & _). rewrite Hc. split.
  - unfold frames_ok. proj_simpl. rewrite !fmap_app. simpl.
    split; [|split].
    + apply NoDup_app. split; [done|]. split; [|apply NoDup_singleton].
      intros x Hx ->%list_elem_of_singleton. done.
    + apply NoDup_app. split; [done|]. split; [|apply NoDup_singleton].
      intros x (n & -> & Hn)%list_elem_of_fmap ?%list_elem_of_singleton.
      by eapply Hnew.
    + intros n [Hn | ->%list_elem_of_singleton]%elem_of_app; [by apply Hu|done].
  - exists p, (frame_table s1). split; [done|]. exact Hsub.
Qed.

(** *** Loading a page of a file *)

Ltac case_pool :=
  repeat match goal with
         | |- context [page_from_pool ?p ?x] => destruct (page_from_pool p x)
         end.

Lemma write_at_page (bytes page : list byte) (z : nat) :
  (length bytes + z)%nat = length page ->
  write_at (Z.of_nat (length bytes)) (replicate z x00) (write_at 0 bytes page) =
    bytes ++ replicate z x00.
Proof.
  intros Hlen. unfold write_at. rewrite Nat2Z.id. simpl.
  rewrite Nat.sub_0_r, (take_ge bytes) by lia.
  rewrite take_app_length, length_app, length_drop.
  rewrite take_ge by (rewrite length_replicate; lia).
  rewrite drop_ge; [by rewrite app_nil_r|].
  rewrite length_app, length_drop, length_replicate. lia.
Qed.

Lemma get_frame_for_page_keeps_entry flags sp e s :
  heap s !! sp = Some e -> unreferenced sp s ->
  wp Partial (get_frame_for_page K flags (Some sp))
     (fun _ s' => heap s' !! sp = Some e /\ cur s' = cur s /\
                  supp_page_table s' = supp_page_table s) s.
Proof.
  intros He Hun.
  unfold get_frame_for_page, add_to_frame_table, malloc.
  wp_steps; try done; proj_simpl;
    match goal with
    | H : evicts _ _ |- _ => destruct H as (Ht & Hc & _ & _ & Hkeep & _)
    end; by rewrite ?Hkeep.
Qed.

(** X13: a page of a file loads as the bytes of the file followed by
    zeros: when [install_load_page] succeeds on an entry of kind [FILE] or
    [MMAP] that no node points at, the entry is resident in the frame the
    allocation returned, the page is mapped there for the running thread
    with the write permission of the entry, and the frame holds the
    [page_read_bytes] bytes of the file from [ofs], as the file is once
    the frame is allocated, and then [page_zero_bytes] zeros. *)
Theorem install_load_page_file_contents sp e s s' :
  heap s !! sp = Some e -> type e <> CODE -> unreferenced sp s ->
  0 <= page_read_bytes e -> 0 <= page_zero_bytes e ->
  page_read_bytes e + page_zero_bytes e = PGSIZE ->
  install_load_page K sp s = Ok true s' ->
  exists fr s1,
    get_frame_for_page K (PAL_USER K) (Some sp) s = Ok (Some fr) s1 /\
    heap s' !! sp = Some (with_frame (Some fr) e) /\
    pagedir s' !! (cur s, pg_round_down (upage e)) =
      Some (Pte fr (writable e) false false) /\
    page_of s' fr =
      take (Z.to_nat (page_read_bytes e))
           (drop (Z.to_nat (ofs e)) (f_data (file_of s1 (file e)))) ++
      replicate (Z.to_nat (page_zero_bytes e)) x00.
Proof.
  intros He Ht Hun Hr Hz Hsum Hrun.
  assert (install_load_file K sp s = Ok true s') as H.
  { revert Hrun. unfold install_load_page, install_load_mmap. exec.
    by destruct (type e). }
  clear Hrun. unfold install_load_file in H.
  apply bind_Ok_inv in H as (r & s1 & Hg & H).
  pose proof (get_frame_for_page_keeps_entry (PAL_USER K) sp e s He Hun)
    as Hkeep.
  eapply wp_Ok in Hkeep; [|exact Hg]. destruct Hkeep as (He1 & Hc1 & _).
  destruct r as [fr|]; [|done]. exists fr, s1. split; [done|].
  assert (to_int (page_read_bytes e) = page_read_bytes e) as Hint.
  { unfold to_int, wrap32, PGSIZE in *. rewrite Z.mod_small by lia.
    destruct (Z.ltb_spec (page_read_bytes e) (2 ^ 31)); lia. }
  revert H.
  unfold file_seek, file_read, install_page, pagedir_get_page,
    pagedir_set_page, free_frame, palloc_free_page, assign, store.
  rewrite bool_decide_eq_true_2 by done. unfold ASSERT. exec.
  unfold file_of. proj_simpl. rewrite !lookup_total_insert_eq.
  cbn [f_data f_pos f_deny_write]. rewrite Hint.
  set (bytes := take (Z.to_nat (page_read_bytes e))
                  (drop (Z.to_nat (ofs e)) (f_data (files s1 !!! file e)))).
  destruct (Z.eqb_spec (Z.of_nat (length bytes)) (page_read_bytes e))
    as [Hlen | Hshort]; cbn [negb].
  2:{ exec. case_pool; exec; by intros [=]. }
  exec. rewrite Hc1.
  destruct (pte_kpage <$> pagedir s1 !! (cur s, pg_round_down (upage e)));
    exec; cbn [negb]; exec.
  { case_pool; exec; by intros [=]. }
  destruct (decide (_ ∈ pd_nomem s1)); exec; cbn [negb]; exec.
  { case_pool; exec; by intros [=]. }
  intros [= <-]. proj_simpl.
  split; [apply lookup_insert_eq|]. split; [apply lookup_insert_eq|].
  unfold page_of at 1. proj_simpl. rewrite lookup_insert_eq. cbn.
  unfold page_of at 1. proj_simpl. rewrite lookup_insert_eq. cbn.
  rewrite <- Hlen at 1.
  replace (Z.to_nat (page_zero_bytes e))
    with (Z.to_nat PGSIZE - length bytes)%nat by lia.
  assert (length (page_of s1 fr) = Z.to_nat PGSIZE) as Hpage
    by apply length_resize.
  assert (length bytes <= Z.to_nat PGSIZE)%nat as Hle by lia.
  rewrite (resize_all_alt (write_at 0 bytes (page_of s1 fr))).
  2:{ unfold write_at. simpl. rewrite Nat.sub_0_r, (take_ge bytes) by lia.
      rewrite length_app, length_drop. lia. }
  rewrite write_at_page by (rewrite Hpage; lia).
  apply resize_all_alt. rewrite length_app, length_replicate. lia.
Qed.

(** *** Swapping a page out and in again *)

Lemma swap_kept_refl s : swap_kept s s.
Proof. by intros i Hi. Qed.

Lemma swap_kept_trans s1 s2 s3 :
  swap_kept s1 s2 -> swap_kept s2 s3 -> swap_kept s1 s3.
Proof.
  intros H H' i Hi. destruct (H i Hi) as [H2 Hd].
  destruct (H' i H2) as [H3 Hd']. split; [done|congruence].
Qed.

Lemma swap_kept_same s0 s s' :
  swap_kept s0 s -> swap_map s' = swap_map s -> swap_disk s' = swap_disk s ->
  swap_kept s0 s'.
Proof. intros H Hm Hd i Hi. rewrite Hm, Hd. by apply H. Qed.

Lemma swap_kept_io s s' : only_io s s' -> swap_kept s s'.
Proof. intros (pd & fs & ->). exact (swap_kept_refl s). Qed.

Lemma evict_frame_swap_kept fte s :
  wp Partial (evict_frame fte) (fun _ s' => swap_kept s s') s.
Proof.
  unfold evict_frame, evict_code, swap_out, clear_frame_entry,
    pagedir_is_dirty, pagedir_clear_page, palloc_free_page, assign, store.
  wp_steps;
    repeat match goal with
           | H : only_io _ _ |- _ => destruct H as (? & ? & ->)
           end;
    first
      [ by (apply (swap_kept_same s s); [apply swap_kept_refl|done..])
      | intros j Hj; proj_simpl;
        match goal with
        | H : bitmap_scan _ = Some ?i |- _ =>
            apply bitmap_scan_free in H; proj_simpl;
            assert (j <> i) by congruence
        end;
        (split; [by rewrite list_lookup_insert_ne|]);
        rewrite lookup_insert_ne; [done|lia] ].
Qed.

(** *** Eviction of a memory-mapped page *)


Lemma palloc_get_page_swap flags s :
  wp Partial (palloc_get_page K flags)
     (fun _ s' => swap_map s' = swap_map s /\ swap_disk s' = swap_disk s) s.
Proof. unfold palloc_get_page. by wp_steps. Qed.

Lemma evict_until_frame_swap_kept fuel flags : forall s,
  wp Partial (evict_until_frame K fuel flags) (fun _ s' => swap_kept s s') s.
Proof.
  induction fuel as [|fuel IH]; intros s; simpl; [done|].
  wp_steps.
  eapply wp_mono; [apply get_victim_frame_spec|]. cbv beta.
  intros a s1 [Hio _]. destruct a as [fte|]; [|by wp_steps].
  apply swap_kept_io in Hio.
  wp_steps.
  eapply wp_mono; [apply evict_frame_swap_kept|]. cbv beta.
  intros r s2 Hk2. destruct r; [|by wp_steps].
  apply wp_bind. eapply wp_mono; [apply palloc_get_page_swap|]. cbv beta.
  intros fr s3 [Hm3 Hd3].
  assert (swap_kept s s3) as Hk3.
  { eapply swap_kept_same; [|done..]. by eapply swap_kept_trans. }
  destruct fr as [fr|]; [by wp_steps|].
  eapply wp_mono; [apply IH|]. cbv beta. intros fr s4 Hk4.
  by eapply swap_kept_trans.
Qed.

Lemma get_frame_for_page_swap_kept flags sp s :
  wp Partial (get_frame_for_page K flags sp) (fun _ s' => swap_kept s s') s.
Proof.
  unfold get_frame_for_page, frame_alloc, add_to_frame_table, malloc.
  destruct sp as [sp|]; [|apply wp_ret, swap_kept_refl].
  wp_step; [apply wp_ret, swap_kept_refl|].
  apply wp_bind, wp_bind.
  eapply wp_mono; [apply palloc_get_page_swap|]. cbv beta.
  intros fr s1 [Hm1 Hd1]. destruct fr as [fr|].
  - wp_steps. eapply swap_kept_same; [apply swap_kept_refl|done..].
  - apply wp_bind, wp_gets. apply wp_bind.
    eapply wp_mono; [apply evict_until_frame_swap_kept|]. cbv beta.
    intros fr s2 Hk2. wp_steps.
    eapply swap_kept_same; [|done..].
    eapply swap_kept_trans; [|exact Hk2].
    eapply swap_kept_same; [apply swap_kept_refl|done..].
Qed.

Lemma evict_frame_to_swap fte s e fr s1 :
  heap s !! fte_spte fte.2 = Some e -> type e <> MMAP -> frame e = Some fr ->
  evict_frame fte s = Ok true s1 ->
  exists i : nat,
    swap_map s1 !! i = Some true /\
    swap_disk s1 !! Z.of_nat i = Some (page_of s fr) /\
    heap s1 !! fte_spte fte.2 =
      Some (SptEntry CODE (upage e) None (pinned e) true (Z.of_nat i)
                     (file e) (ofs e) (writable e)
                     (page_read_bytes e) (page_zero_bytes e)) /\
    frame_table s1 = list_remove fte.1 (frame_table s) /\
    cur s1 = cur s.
Proof.
  intros He Ht Hf. unfold evict_frame. exec.
  destruct (type e) eqn:Hty; [| |done];
    unfold evict_code, swap_out, clear_frame_entry, pagedir_clear_page,
      palloc_free_page, assign, store;
    exec; cbn [frame with_type]; rewrite Hf;
    rewrite bool_decide_eq_true_2 by done; unfold ASSERT; exec;
    cbn [frame with_type]; rewrite Hf; exec;
    (destruct (bitmap_scan (swap_map s)) as [i|] eqn:Hscan; [|by exec]);
    pose proof (bitmap_scan_lt _ _ Hscan) as Hi; exec;
    (destruct (Z.eqb_spec (Z.of_nat i) BITMAP_ERROR) as [Heq|_]; [by exec|]);
    exec; case_pool; exec; intros [= <-]; exists i; proj_simpl;
    rewrite !lookup_insert_eq;
    (split; [by apply list_lookup_insert_eq|]); repeat split; try done.
  all: unfold with_frame, with_is_in_swap, with_idx, with_type; cbn;
    by rewrite ?Hty.
Qed.

(** X14: what is swapped out comes back.  When a resident page of kind
    [CODE] or [FILE] is evicted and its entry, which no other node points
    at, is loaded again, the entry is resident in a frame that holds the
    bytes the old frame held, it is of kind [CODE] and no longer in swap,
    and the page is mapped writable in that frame, whatever the entry says
    about writing. *)
Theorem swap_round_trip fte s e fr s1 s2 :
  heap s !! fte_spte fte.2 = Some e -> type e <> MMAP -> frame e = Some fr ->
  NoDup (frame_table s).*1 ->
  (forall n, n ∈ frame_table s -> fte_spte n.2 = fte_spte fte.2 ->
             n.1 = fte.1) ->
  evict_frame fte s = Ok true s1 ->
  install_load_page K (fte_spte fte.2) s1 = Ok true s2 ->
  exists fr',
    heap s2 !! fte_spte fte.2 =
      Some (SptEntry CODE (upage e) (Some fr') (pinned e) false BITMAP_ERROR
                     (file e) (ofs e) (writable e)
                     (page_read_bytes e) (page_zero_bytes e)) /\
    page_of s2 fr' = page_of s fr /\
    pagedir s2 !! (cur s, pg_round_down (upage e)) =
      Some (Pte fr' true false false).
Proof.
  intros He Ht Hf Hnd Honly Hev Hload.
  destruct (evict_frame_to_swap fte s e fr s1 He Ht Hf Hev)
    as (i & Hused & Hdisk & He1 & Hft & Hc1).
  set (sp := fte_spte fte.2) in *.
  set (e1 := SptEntry CODE (upage e) None (pinned e) true (Z.of_nat i)
                      (file e) (ofs e) (writable e)
                      (page_read_bytes e) (page_zero_bytes e)) in *.
  assert (unreferenced sp s1) as Hun.
  { intros n Hn Hsp. rewrite Hft in Hn.
    apply (elem_of_list_remove_ne _ _ _ Hnd Hn).
    apply Honly; [by eapply elem_of_list_remove|done]. }
  assert (install_load_swap K sp s1 = Ok true s2) as H.
  { revert Hload. unfold install_load_page. by exec. }
  clear Hload. unfold install_load_swap in H.
  apply bind_Ok_inv in H as (r & s1b & Hg & H).
  pose proof (get_frame_for_page_keeps_entry
                (Z.lor (PAL_USER K) (PAL_ZERO K)) sp e1 s1 He1 Hun) as Hkeep.
  eapply wp_Ok in Hkeep; [|exact Hg]. destruct Hkeep as (He1b & Hc1b & _).
  pose proof (get_frame_for_page_swap_kept
                (Z.lor (PAL_USER K) (PAL_ZERO K)) (Some sp) s1) as Hswap.
  eapply wp_Ok in Hswap; [|exact Hg].
  destruct (Hswap i Hused) as [_ Hdisk1b]. rewrite Hdisk in Hdisk1b.
  destruct r as [fr'|]; [|done]. exists fr'.
  revert H.
  unfold install_page, pagedir_get_page, pagedir_set_page, free_frame,
    palloc_free_page, assign, store, swap_in.
  rewrite bool_decide_eq_true_2 by done. unfold ASSERT. exec.
  rewrite Hc1b, Hc1. cbn [upage e1].
  destruct (pte_kpage <$> pagedir s1b !! (cur s, pg_round_down (upage e)));
    exec.
  { case_pool; exec; by intros [=]. }
  destruct (decide (_ ∈ pd_nomem s1b)); exec.
  { case_pool; exec; by intros [=]. }
  cbn [is_in_swap e1 when]. exec. cbn [frame with_frame e1]. exec.
  intros [= <-]. proj_simpl. rewrite !lookup_insert_eq.
  split; [done|]. split; [|done].
  unfold page_of at 1. proj_simpl. rewrite lookup_insert_eq. cbn [default].
  cbn [idx with_frame e1]. rewrite Hdisk1b. cbn [default].
  assert (Z.to_nat PGSIZE = length (page_of s fr)) as Hlen
    by (symmetry; apply length_resize).
  by rewrite !(resize_all_alt (page_of s fr)).
Qed.

(** *** A new stack page *)

Lemma wp_true {A} (m : M A) s : wp Partial m (fun _ _ => True) s.
Proof. unfold wp. by destruct (m s). Qed.

Lemma palloc_get_page_zero flags s :
  Z.land flags (PAL_ZERO K) <> 0 ->
  wp Partial (palloc_get_page K flags)
     (fun r s' => forall fr, r = Some fr -> kmem s' !! fr = Some zero_page) s.
Proof.
  intros Hz. unfold palloc_get_page.
  destruct (Z.eqb_spec (Z.land flags (PAL_ZERO K)) 0) as [|_]; [done|].
  cbn [negb when].
  wp_steps; try done; intros fr [= <-]; proj_simpl; apply lookup_insert_eq.
Qed.

Lemma evict_until_frame_zero fuel flags : forall s,
  Z.land flags (PAL_ZERO K) <> 0 ->
  wp Partial (evict_until_frame K fuel flags)
     (fun fr s' => kmem s' !! fr = Some zero_page) s.
Proof.
  induction fuel as [|fuel IH]; intros s Hz; simpl; [done|].
  wp_steps.
  eapply wp_mono; [apply wp_true|]. cbv beta.
  intros a s1 _. destruct a as [fte|]; [|by wp_steps].
  wp_steps.
  eapply wp_mono; [apply wp_true|]. cbv beta.
  intros r s2 _. destruct r; [|by wp_steps].
  apply wp_bind. eapply wp_mono; [by apply palloc_get_page_zero|]. cbv beta.
  intros fr s3 Hfr. destruct fr as [fr|]; [wp_steps; by apply Hfr|].
  by apply IH.
Qed.

Lemma get_frame_for_page_zero flags sp s :
  Z.land flags (PAL_ZERO K) <> 0 ->
  wp Partial (get_frame_for_page K flags sp)
     (fun r s' => forall fr, r = Some fr -> kmem s' !! fr = Some zero_page) s.
Proof.
  intros Hz.
  unfold get_frame_for_page, frame_alloc, add_to_frame_table, malloc.
  destruct sp as [sp|]; [|by apply wp_ret].
  wp_step; [by apply wp_ret|].
  apply wp_bind, wp_bind.
  eapply wp_mono; [by apply palloc_get_page_zero|]. cbv beta.
  intros fr s1 Hfr. destruct fr as [fr|].
  - wp_steps. intros ? [= <-]. proj_simpl. by apply Hfr.
  - apply wp_bind, wp_gets. apply wp_bind.
    eapply wp_mono; [by apply evict_until_frame_zero|]. cbv beta.
    intros fr s2 Hfr2. wp_steps. by intros ? [= <-].
Qed.

(** X16: a stack page starts out as zeros.  When [grow_stack] succeeds on
    a page that had no entry, with a frame list whose nodes point at live
    entries, the table of the running thread has a fresh [CODE] entry for
    the page with the pin asked for, resident and not in swap, the page is
    mapped writable in its frame, and the frame holds zeros only, whether
    it came straight from the pool or from an eviction. *)
Theorem grow_stack_zero_page uaddr pin s s' :
  PAL_ZERO K <> 0 ->
  (forall n, n ∈ frame_table s -> is_Some (heap s !! fte_spte n.2)) ->
  supp_page_table s !! (cur s, pg_round_down uaddr) = None ->
  grow_stack K uaddr pin s = Ok true s' ->
  exists sp e fr,
    supp_page_table s' !! (cur s, pg_round_down uaddr) = Some sp /\
    heap s !! sp = None /\
    heap s' !! sp = Some e /\
    type e = CODE /\ upage e = pg_round_down uaddr /\ frame e = Some fr /\
    pinned e = pin /\ is_in_swap e = false /\
    pagedir s' !! (cur s, pg_round_down uaddr) =
      Some (Pte fr true false false) /\
    page_of s' fr = zero_page.
Proof.
  intros Hzero Hlive Hnew Hrun. unfold grow_stack in Hrun.
  destruct (_ <? _); [done|].
  apply bind_Ok_inv in Hrun as (p & s1 & Hcreate & Hrun).
  pose proof (create_spte_code_spec (pg_round_down uaddr) s) as Hspec.
  eapply wp_Ok in Hspec; [|exact Hcreate].
  destruct Hspec as (Hfresh & Hc1 & Hft1 & Hh1 & Ht1). rewrite Hnew in Ht1.
  apply bind_Ok_inv in Hrun as ([] & s2 & Hassign & Hrun).
  set (e1 := SptEntry CODE (pg_round_down uaddr) None pin false BITMAP_ERROR
                      (file (junk s)) (ofs (junk s)) (writable (junk s))
                      (page_read_bytes (junk s)) (page_zero_bytes (junk s))).
  assert (s2 = upd_heap (<[p := e1]>) s1) as ->.
  { revert Hassign. unfold assign, store. erewrite bind_load;
      [|rewrite Hh1; apply lookup_insert_eq].
    by intros [= <-]. }
  assert (heap (upd_heap (<[p := e1]>) s1) !! p = Some e1) as He1
    by apply lookup_insert_eq.
  assert (unreferenced p (upd_heap (<[p := e1]>) s1)) as Hun.
  { intros n Hn Hp. proj_simpl. rewrite Hft1 in Hn.
    destruct (Hlive n Hn) as [e0 He0]. congruence. }
  assert (cur (upd_heap (<[p := e1]>) s1) = cur s) as Hc2 by done.
  assert (supp_page_table (upd_heap (<[p := e1]>) s1) =
          <[(cur s, pg_round_down uaddr) := p]> (supp_page_table s)) as Ht2
    by done.
  revert Hrun He1 Hun Hc2 Ht2.
  generalize (upd_heap (<[p := e1]>) s1). clear dependent s1.
  intros s2 Hrun He1 Hun Hc2 Ht2.
  assert (install_load_swap K p s2 = Ok true s') as H.
  { revert Hrun. unfold install_load_page. by exec. }
  clear Hrun. unfold install_load_swap in H.
  apply bind_Ok_inv in H as (r & s3 & Hg & H).
  pose proof (get_frame_for_page_keeps_entry
                (Z.lor (PAL_USER K) (PAL_ZERO K)) p e1 s2 He1 Hun) as Hkeep.
  eapply wp_Ok in Hkeep; [|exact Hg]. destruct Hkeep as (He3 & Hc3 & Ht3).
  assert (Z.land (Z.lor (PAL_USER K) (PAL_ZERO K)) (PAL_ZERO K) <> 0)
    as Hland.
  { replace (Z.land (Z.lor (PAL_USER K) (PAL_ZERO K)) (PAL_ZERO K))
      with (PAL_ZERO K); [done|].
    apply Z.bits_inj'. intros n _. rewrite Z.land_spec, Z.lor_spec.
    by destruct (Z.testbit (PAL_USER K) n), (Z.testbit (PAL_ZERO K) n). }
  pose proof (get_frame_for_page_zero
                (Z.lor (PAL_USER K) (PAL_ZERO K)) (Some p) s2 Hland) as Hz.
  eapply wp_Ok in Hz; [|exact Hg].
  destruct r as [fr|]; [|done]. specialize (Hz fr eq_refl).
  exists p, (with_frame (Some fr) e1), fr.
  revert H.
  unfold install_page, pagedir_get_page, pagedir_set_page, free_frame,
    palloc_free_page, assign, store, swap_in.
  rewrite bool_decide_eq_true_2 by done. unfold ASSERT. exec.
  rewrite Hc3, Hc2. cbn [upage e1]. rewrite !pg_round_down_idem.
  destruct (pte_kpage <$> pagedir s3 !! (cur s, pg_round_down uaddr));
    exec.
  { case_pool; exec; by intros [=]. }
  destruct (decide (_ ∈ pd_nomem s3)); exec.
  { case_pool; exec; by intros [=]. }
  cbn [is_in_swap e1 when]. exec.
  intros [= <-]. proj_simpl. rewrite Ht3, Ht2, !lookup_insert_eq.
  repeat split; try done.
  unfold page_of. proj_simpl. rewrite Hz. cbn [default].
  apply resize_all_alt. unfold zero_page. by rewrite length_replicate.
Qed.


(** *** System calls on descriptors *)

Lemma fds_kept_refl s : fds_kept s s.
Proof. done. Qed.

Lemma fds_kept_trans s1 s2 s3 :
  fds_kept s1 s2 -> fds_kept s2 s3 -> fds_kept s1 s3.
Proof. intros [H1 H2] [H3 H4]. split; congruence. Qed.

Lemma fds_kept_io s s' : only_io s s' -> fds_kept s s'.
Proof. by intros (pd & fs & ->). Qed.

Lemma fds_kept_evicts_fd s s' :
  evicts s s' -> fd_table s' = fd_table s -> fds_kept s s'.
Proof. intros (_ & Hc & _) Hfd. by split. Qed.

Lemma evict_frame_fds fte s :
  wp Partial (evict_frame fte) (fun _ s' => fds_kept s s') s.
Proof.
  unfold evict_frame, evict_code, swap_out, clear_frame_entry,
    pagedir_is_dirty, pagedir_clear_page, palloc_free_page, assign, store.
  wp_steps;
    repeat match goal with
           | H : only_io _ _ |- _ => destruct H as (? & ? & ->)
           end; done.
Qed.

Lemma palloc_get_page_fds flags s :
  wp Partial (palloc_get_page K flags) (fun _ s' => fds_kept s s') s.
Proof. unfold palloc_get_page. by wp_steps. Qed.

Lemma evict_until_frame_fds fuel flags : forall s,
  wp Partial (evict_until_frame K fuel flags) (fun _ s' => fds_kept s s') s.
Proof.
  induction fuel as [|fuel IH]; intros s; simpl; [done|].
  wp_steps.
  eapply wp_mono; [apply get_victim_frame_spec|]. cbv beta.
  intros a s1 [Hio%fds_kept_io _]. destruct a as [fte|]; [|by wp_steps].
  wp_steps.
  eapply wp_mono; [apply evict_frame_fds|]. cbv beta.
  intros r s2 Hk2. destruct r; [|by wp_steps].
  apply wp_bind. eapply wp_mono; [apply palloc_get_page_fds|]. cbv beta.
  intros fr s3 Hk3.
  assert (fds_kept s s3) as Hall
    by (eapply fds_kept_trans; [|exact Hk3]; by eapply fds_kept_trans).
  destruct fr as [fr|]; [by wp_steps|].
  eapply wp_mono; [apply IH|]. cbv beta. intros fr s4 Hk4.
  by eapply fds_kept_trans.
Qed.

Lemma get_frame_for_page_fds flags sp s :
  wp Partial (get_frame_for_page K flags sp) (fun _ s' => fds_kept s s') s.
Proof.
  unfold get_frame_for_page, frame_alloc, add_to_frame_table, malloc.
  destruct sp as [sp|]; [|by apply wp_ret].
  wp_step; [by apply wp_ret|].
  apply wp_bind, wp_bind.
  eapply wp_mono; [apply palloc_get_page_fds|]. cbv beta.
  intros fr s1 Hk1. destruct fr as [fr|].
  - by wp_steps.
  - apply wp_bind, wp_gets. apply wp_bind.
    eapply wp_mono; [apply evict_until_frame_fds|]. cbv beta.
    intros fr s2 Hk2. wp_steps. by eapply fds_kept_trans.
Qed.

Lemma install_load_page_fds sp s :
  wp Partial (install_load_page K sp) (fun _ s' => fds_kept s s') s.
Proof.
  unfold install_load_page, install_load_mmap, install_load_file,
    install_load_swap, install_page, pagedir_get_page, pagedir_set_page,
    free_frame, palloc_free_page, assign, store, file_seek, file_read,
    swap_in.
  wp_steps; try done;
    (eapply wp_mono; [apply get_frame_for_page_fds|]);
    cbv beta; intros r s1 Hk1; wp_steps; done.
Qed.

Lemma valid_up_fds esp ptr s :
  wp Partial (valid_up K esp ptr) (fun _ s' => fds_kept s s') s.
Proof.
  unfold valid_up, uvaddr_to_spt_entry, hash_find, pagedir_get_page,
    grow_stack, create_spte_code, create_spte, malloc, hash_insert,
    assign, store.
  wp_steps; try done; try apply wp_exit_with;
    try (eapply wp_mono; [apply install_load_page_fds|];
         cbv beta; intros r s1 Hk1; wp_steps; try done;
         apply wp_exit_with).
Qed.

Lemma valid_up_each_fds esp ptr steps : forall s,
  wp Partial (valid_up_each K esp ptr steps) (fun _ s' => fds_kept s s') s.
Proof.
  induction steps as [|i steps IH]; intros s; simpl; [by apply wp_ret|].
  apply wp_bind. eapply wp_mono; [apply valid_up_fds|]. cbv beta.
  intros _ s1 Hk1. eapply wp_mono; [apply IH|]. cbv beta.
  intros _ s2 Hk2. by eapply fds_kept_trans.
Qed.

Lemma validate_fds esp ptr size s :
  wp Partial (validate K esp ptr size) (fun _ s' => fds_kept s s') s.
Proof.
  unfold validate. apply wp_bind. eapply wp_mono; [apply valid_up_fds|].
  cbv beta. intros _ s1 Hk1. apply wp_bind.
  apply (wp_mono _ _ (fun _ s2 => fds_kept s1 s2)).
  { apply wp_when; [intros _; apply valid_up_fds|done]. }
  cbv beta. intros _ s2 Hk2.
  eapply wp_mono; [apply valid_up_each_fds|]. cbv beta.
  intros _ s3 Hk3. eapply fds_kept_trans; [|exact Hk3].
  by eapply fds_kept_trans.
Qed.

Lemma user_word_fds va s :
  wp Partial (user_word va) (fun _ s' => fds_kept s s') s.
Proof. unfold user_word. wp_steps. by apply fds_kept_io. Qed.

(** X20: [filesize] answers -1 or the length of an open file: a result
    other than -1 is the length of the file that is open under a
    descriptor in the range of [is_valid_fd] for the running thread, and
    the call leaves the descriptors as they were. *)
Theorem filesize_answers esp s r s' :
  filesize K esp s = Ok r s' ->
  fd_table s' = fd_table s /\
  (r = -1 \/
   exists fd h, 0 <= fd < MAX_FILES K /\
                fd_table s !! (cur s, fd) = Some h /\
                r = Z.of_nat (length (f_data (file_of s' h)))).
Proof.
  intros Hrun.
  apply (wp_Ok Partial (filesize K esp)
           (fun r s' =>
              fd_table s' = fd_table s /\
              (r = -1 \/
               exists fd h, 0 <= fd < MAX_FILES K /\
                            fd_table s !! (cur s, fd) = Some h /\
                            r = Z.of_nat (length (f_data (file_of s' h)))))
           s r s'); [|done].
  unfold filesize. apply wp_bind.
  eapply wp_mono; [apply validate_fds|]. cbv beta. intros _ s1 [Hfd1 Hc1].
  apply wp_bind. eapply wp_mono; [apply user_word_fds|]. cbv beta.
  intros w s2 [Hfd2 Hc2]. unfold file_length. wp_steps.
  - split; [congruence|]. right.
    apply andb_true_iff in Heqb as [Hvalid Hopen].
    apply bool_decide_eq_true in Hopen.
    destruct (fd_table s2 !! (cur s2, to_int w)) as [h|] eqn:Hh; [|done].
    exists (to_int w), h. unfold is_valid_fd in Hvalid.
    apply andb_true_iff in Hvalid as [H0%Z.leb_le H1%Z.ltb_lt].
    split; [lia|]. split; [|done]. rewrite <- Hfd1, <- Hfd2, <- Hc1, <- Hc2.
    done.
  - split; [congruence|]. by left.
Qed.

(** X21: [close] closes the descriptor it is given and no other: when the
    call returns, the running thread is as before and, with [w] the word
    read at [esp] once the pointer is validated, the descriptor table is
    the old one without the descriptor [w] of the running thread when [w]
    is in the range of [is_valid_fd], which includes 0 and 1, and the old
    one otherwise. *)
Theorem close_closes_one esp s s' :
  close K esp s = Ok tt s' ->
  exists s1 w s2,
    validate K esp esp 4 s = Ok tt s1 /\
    user_word esp s1 = Ok w s2 /\
    cur s' = cur s /\
    fd_table s' =
      if is_valid_fd K (to_int w)
      then delete (cur s, to_int w) (fd_table s)
      else fd_table s.
Proof.
  intros Hrun. unfold close in Hrun.
  apply bind_Ok_inv in Hrun as ([] & s1 & Hv & Hrun).
  apply bind_Ok_inv in Hrun as (w & s2 & Hw & Hrun).
  exists s1, w, s2. split; [done|]. split; [done|].
  pose proof (validate_fds esp esp 4 s) as H1.
  eapply wp_Ok in H1; [|exact Hv]. destruct H1 as [Hfd1 Hc1].
  pose proof (user_word_fds esp s1) as H2.
  eapply wp_Ok in H2; [|exact Hw]. destruct H2 as [Hfd2 Hc2].
  revert Hrun. unfold when, close_file, file_close.
  destruct (is_valid_fd K (to_int w)).
  - exec.
    destruct (fd_table s2 !! (cur s2, to_int w)) as [h|] eqn:Hh; exec;
      intros [= <-]; proj_simpl; (split; [congruence|]).
    + congruence.
    + rewrite <- Hc1, <- Hc2, <- Hfd1, <- Hfd2. symmetry. by apply delete_id.
  - intros [= <-]. split; congruence.
Qed.

End Leaving.

Lemma validate_never_admits_kernel_memory_witness :
  never_returns (validate stock 0xBFFFFF00 0xBFFFFFFC 8) (boot 1 2 2 2).
Proof.
  apply (validate_never_admits_kernel_memory stock 0xBFFFFF00 0xBFFFFFFC 8 4
           (boot 1 2 2 2)); [lia | lia | lia | reflexivity].
Defined.

Lemma validate_pins_buffer_witness :
  exists e,
    heap (run (validate stock 0xBFFFFF00 0x08047FF0 32)
              (before_read 0x08047FF0)) !! 0 = Some e /\
    pinned e = true.
Proof.
  apply (validate_pins_buffer stock 0xBFFFFF00 0x08047FF0 32 20
           (before_read 0x08047FF0)
           (run (validate stock 0xBFFFFF00 0x08047FF0 32)
                (before_read 0x08047FF0)) 0);
    [lia | lia | lia | lia | vm_compute; reflexivity | vm_compute; reflexivity].
Defined.

Lemma unpin_buffer_unpins_witness :
  exists e,
    heap (run (validate stock 0xBFFFFF00 0x08047FF0 32;;
               unpin_buffer 0x08047FF0 32)
              (before_read 0x08047FF0)) !! 0 = Some e /\
    pinned e = false.
Proof.
  apply (unpin_buffer_unpins 0x08047FF0 32 20
           (run (validate stock 0xBFFFFF00 0x08047FF0 32)
                (before_read 0x08047FF0))
           (run (validate stock 0xBFFFFF00 0x08047FF0 32;;
                 unpin_buffer 0x08047FF0 32)
                (before_read 0x08047FF0)) 0);
    [lia | lia | lia | lia | vm_compute; reflexivity | vm_compute; reflexivity].
Defined.

Lemma get_frame_for_page_spares_pinned_witness :
  heap (run (get_frame_for_page stock 4 (Some 2)) pinned_then_free) !! 0 =
    Some (SptEntry CODE 0xBFFFF000 (Some 0xC0280000) true false BITMAP_ERROR
                   0 0 false 0 0).
Proof.
  apply (get_frame_for_page_spares_pinned stock 4 (Some 2) pinned_then_free
           (Some 0xC0281000)
           (run (get_frame_for_page stock 4 (Some 2)) pinned_then_free) 0);
    vm_compute; reflexivity.
Defined.

Lemma get_frame_for_page_keeps_accounts_witness :
  frames_ok (run (get_frame_for_page stock 4 (Some 2)) pinned_then_free) /\
  exists p l,
    frame_table (run (get_frame_for_page stock 4 (Some 2)) pinned_then_free) =
      l ++ [(p, Fte 0xC0281000 2 (cur pinned_then_free))] /\
    forall n, n ∈ l -> n ∈ frame_table pinned_then_free.
Proof.
  apply (get_frame_for_page_keeps_accounts stock 4 2 pinned_then_free
           0xC0281000
           (run (get_frame_for_page stock 4 (Some 2)) pinned_then_free)).
  - vm_compute. discriminate.
  - unfold frames_ok.
    assert (frame_table pinned_then_free =
            [(1, Fte 0xC0280000 0 1); (3, Fte 0xC0281000 2 1)]) as ->
      by (vm_compute; reflexivity).
    split; [apply (bool_decide_unpack _); vm_compute; exact I|].
    split; [apply (bool_decide_unpack _); vm_compute; exact I|].
    intros n [-> | [-> | Hn%elem_of_nil]%elem_of_cons]%elem_of_cons;
      [exists 0%nat|exists 1%nat|done]; vm_compute; split; reflexivity.
  - vm_compute. reflexivity.
Defined.

Lemma install_load_page_file_contents_witness :
  exists fr s1,
    get_frame_for_page stock (PAL_USER stock) (Some 0) unloaded_image =
      Ok (Some fr) s1 /\
    heap (run (install_load_page stock 0) unloaded_image) !! 0 =
      Some (SptEntry FILE 0x08048000 (Some fr) false false BITMAP_ERROR
                     10 0 false 100 3996) /\
    pagedir (run (install_load_page stock 0) unloaded_image)
      !! (1, 0x08048000) = Some (Pte fr false false false) /\
    page_of (run (install_load_page stock 0) unloaded_image) fr =
      take 100 (drop 0 (f_data (file_of s1 10))) ++ replicate 3996 x00.
Proof.
  apply (install_load_page_file_contents stock 0
           (SptEntry FILE 0x08048000 None false false BITMAP_ERROR
                     10 0 false 100 3996)
           unloaded_image (run (install_load_page stock 0) unloaded_image)).
  - vm_compute. reflexivity.
  - discriminate.
  - unfold unreferenced.
    assert (frame_table unloaded_image = []) as -> by (vm_compute; reflexivity).
    intros n Hn. by apply elem_of_nil in Hn.
  - vm_compute. discriminate.
  - vm_compute. discriminate.
  - vm_compute. reflexivity.
  - vm_compute. reflexivity.
Defined.

Lemma swap_round_trip_witness :
  exists fr',
    heap (run (install_load_page stock 2)
              (run (evict_frame (3, Fte 0xC0280000 2 1)) (before_read 0)))
      !! 2 =
      Some (SptEntry CODE 0xBFFFF000 (Some fr') false false BITMAP_ERROR
                     0 0 false 0 0) /\
    page_of (run (install_load_page stock 2)
                 (run (evict_frame (3, Fte 0xC0280000 2 1)) (before_read 0)))
            fr' =
      page_of (before_read 0) 0xC0280000 /\
    pagedir (run (install_load_page stock 2)
                 (run (evict_frame (3, Fte 0xC0280000 2 1)) (before_read 0)))
      !! (1, 0xBFFFF000) = Some (Pte fr' true false false).
Proof.
  apply (swap_round_trip stock (3, Fte 0xC0280000 2 1) (before_read 0)
           (SptEntry CODE 0xBFFFF000 (Some 0xC0280000) false false
                     BITMAP_ERROR 0 0 false 0 0)
           0xC0280000
           (run (evict_frame (3, Fte 0xC0280000 2 1)) (before_read 0))).
  - vm_compute. reflexivity.
  - discriminate.
  - reflexivity.
  - apply (bool_decide_unpack _). vm_compute. exact I.
  - assert (frame_table (before_read 0) =
            [(3, Fte 0xC0280000 2 1); (4, Fte 0xC0281000 0 1);
             (5, Fte 0xC0282000 1 1)]) as -> by (vm_compute; reflexivity).
    intros n [-> | [-> | [-> | Hn%elem_of_nil]%elem_of_cons]%elem_of_cons]%elem_of_cons;
      simpl; intros; done.
  - vm_compute. reflexivity.
  - vm_compute. reflexivity.
Defined.

Lemma create_spte_file_covers_witness :
  exists s',
    create_spte_file 10 0 0x08048000 5000 3192 false (boot 1 2 2 2) =
      Ok true s' /\
    forall k, 0 <= k < (5000 + 3192) / PGSIZE ->
      exists sp,
        supp_page_table s' !! (cur (boot 1 2 2 2), 0x08048000 + PGSIZE * k) =
          Some sp /\
        heap (boot 1 2 2 2) !! sp = None /\
        heap s' !! sp =
          Some (SptEntry FILE (0x08048000 + PGSIZE * k) None false false
                  BITMAP_ERROR 10 (0 + Z.min 5000 (PGSIZE * k)) false
                  (Z.min PGSIZE (Z.max 0 (5000 - PGSIZE * k)))
                  (PGSIZE - Z.min PGSIZE (Z.max 0 (5000 - PGSIZE * k)))).
Proof.
  apply (create_spte_file_covers 10 0 0x08048000 5000 3192 false
           (boot 1 2 2 2));
    first [lia | reflexivity].
Defined.

Lemma grow_stack_zero_page_witness :
  exists sp e fr,
    supp_page_table (run (grow_stack stock 0xBFFFDFEC false) pinned_then_free)
      !! (cur pinned_then_free, pg_round_down 0xBFFFDFEC) = Some sp /\
    heap pinned_then_free !! sp = None /\
    heap (run (grow_stack stock 0xBFFFDFEC false) pinned_then_free) !! sp =
      Some e /\
    type e = CODE /\ upage e = pg_round_down 0xBFFFDFEC /\
    frame e = Some fr /\ pinned e = false /\ is_in_swap e = false /\
    pagedir (run (grow_stack stock 0xBFFFDFEC false) pinned_then_free)
      !! (cur pinned_then_free, pg_round_down 0xBFFFDFEC) =
      Some (Pte fr true false false) /\
    page_of (run (grow_stack stock 0xBFFFDFEC false) pinned_then_free) fr =
      zero_page.
Proof.
  apply (grow_stack_zero_page stock 0xBFFFDFEC false pinned_then_free
           (run (grow_stack stock 0xBFFFDFEC false) pinned_then_free)).
  - vm_compute. discriminate.
  - assert (frame_table pinned_then_free =
            [(1, Fte 0xC0280000 0 1); (3, Fte 0xC0281000 2 1)]) as ->
      by (vm_compute; reflexivity).
    intros n [-> | [-> | Hn%elem_of_nil]%elem_of_cons]%elem_of_cons;
      [| |done]; apply (bool_decide_unpack _); vm_compute; exact I.
  - vm_compute. reflexivity.
  - vm_compute. reflexivity.
Defined.

Lemma get_victim_frame_finds_unpinned_witness :
  exists fte s', get_victim_frame pinned_then_free = Ok (Some fte) s'.
Proof.
  apply (get_victim_frame_finds_unpinned pinned_then_free
           (3, Fte 0xC0281000 2 1)
           (SptEntry CODE 0xBFFFE000 (Some 0xC0281000) false false
                     BITMAP_ERROR 0 0 false 0 0)).
  - unfold frame_table_ok.
    assert (frame_table pinned_then_free =
            [(1, Fte 0xC0280000 0 1); (3, Fte 0xC0281000 2 1)]) as ->
      by (vm_compute; reflexivity).
    repeat constructor;
      (eexists; split; [vm_compute; reflexivity|]); by intros [].
  - assert (frame_table pinned_then_free =
            [(1, Fte 0xC0280000 0 1); (3, Fte 0xC0281000 2 1)]) as ->
      by (vm_compute; reflexivity).
    apply elem_of_cons. right. apply elem_of_cons. by left.
  - vm_compute. reflexivity.
  - reflexivity.
Defined.

Lemma create_spte_mmap_covers_witness :
  exists first s',
    create_spte_mmap 8 20 10000 0x20000000 (boot 1 2 2 2) =
      Ok (Some first) s' /\
    supp_page_table s' !! (cur (boot 1 2 2 2), 0x20000000) = Some first /\
    forall k, 0 <= k -> PGSIZE * k < 10000 ->
      exists sp,
        supp_page_table s' !! (cur (boot 1 2 2 2), 0x20000000 + PGSIZE * k) =
          Some sp /\
        heap (boot 1 2 2 2) !! sp = None /\
        heap s' !! sp =
          Some (SptEntry MMAP (0x20000000 + PGSIZE * k) None false false
                  BITMAP_ERROR 20 (PGSIZE * k) true
                  (Z.min PGSIZE (10000 - PGSIZE * k))
                  (PGSIZE - Z.min PGSIZE (10000 - PGSIZE * k))).
Proof.
  apply (create_spte_mmap_covers 8 20 10000 0x20000000 (boot 1 2 2 2));
    first [lia | reflexivity].
Defined.

Lemma write_to_disk_writes_frame_witness :
  exists s',
    write_to_disk 1 dirty_mapping =
      Ok (negb (f_deny_write (file_of dirty_mapping 20))) s' /\
    heap s' = heap dirty_mapping /\
    files s' =
      if f_deny_write (file_of dirty_mapping 20) then files dirty_mapping
      else <[20 := FileObj (write_at 0
                              (take (Z.to_nat 4096)
                                    (page_of dirty_mapping 0xC0282000))
                              (f_data (file_of dirty_mapping 20)))
                           (f_pos (file_of dirty_mapping 20)) false]>
             (files dirty_mapping).
Proof.
  apply (write_to_disk_writes_frame 1
           (SptEntry MMAP 0x08047000 (Some 0xC0282000) false false
                     BITMAP_ERROR 20 0 true 4096 0)
           0xC0282000 true false dirty_mapping).
  - vm_compute. reflexivity.
  - vm_compute. reflexivity.
  - reflexivity.
  - cbn. unfold PGSIZE. lia.
  - cbn. lia.
  - vm_compute. discriminate.
Defined.

Lemma filesize_answers_witness :
  fd_table (run (filesize stock 0xBFFFFF00) (before_read 0)) =
    fd_table (before_read 0) /\
  (64 = -1 \/
   exists fd h, 0 <= fd < MAX_FILES stock /\
                fd_table (before_read 0) !! (cur (before_read 0), fd) =
                  Some h /\
                64 = Z.of_nat (length (f_data
                       (file_of (run (filesize stock 0xBFFFFF00)
                                     (before_read 0)) h)))).
Proof.
  apply (filesize_answers stock 0xBFFFFF00 (before_read 0) 64
           (run (filesize stock 0xBFFFFF00) (before_read 0))).
  vm_compute. reflexivity.
Defined.

Lemma close_closes_one_witness :
  exists s1 w s2,
    validate stock 0xBFFFFF00 0xBFFFFF00 4 (before_read 0) = Ok tt s1 /\
    user_word 0xBFFFFF00 s1 = Ok w s2 /\
    cur (run (close stock 0xBFFFFF00) (before_read 0)) = cur (before_read 0) /\
    fd_table (run (close stock 0xBFFFFF00) (before_read 0)) =
      if is_valid_fd stock (to_int w)
      then delete (cur (before_read 0), to_int w) (fd_table (before_read 0))
      else fd_table (before_read 0).
Proof.
  apply (close_closes_one stock 0xBFFFFF00 (before_read 0)
           (run (close stock 0xBFFFFF00) (before_read 0))).
  vm_compute. reflexivity.
Defined.

